(** * hanSolo: frame validation, Kaifa decoding and the connection life cycle

    A shallow embedding of [hanSolo/__init__.py].  Python values are modelled
    as the program uses them: [bytes] as [list byte], [str] as [list ascii],
    [int] as [Z], the reading [dict] as a finite map from field names to
    values.  Exceptions are explicit ([result]), and the effects of the
    manager's methods (logging, timers, tasks, callbacks) are recorded as a
    trace of events next to the manager's fields. *)

From Stdlib Require Import ZArith NArith List Ascii String Bool Lia DecimalString.
From Stdlib.Strings Require Import Byte.
From stdpp Require Import base option list strings gmap.

Local Open Scope Z_scope.

(** ** Python runtime pieces used by the module *)

Module Py.

(** Exceptions the program can meet.  [binascii_Error] and
    [UnicodeDecodeError] are subclasses of [ValueError]. *)
Inductive exn : Set :=
| ValueError
| binascii_Error
| UnicodeDecodeError
| IndexError
| TypeError
| UnboundLocalError
| OtherError.

#[export] Instance exn_eq_dec : EqDecision exn.
Proof. solve_decision. Defined.

(** [isinstance(e, ValueError)] *)
Definition is_ValueError (e : exn) : bool :=
  match e with
  | ValueError | binascii_Error | UnicodeDecodeError => true
  | _ => false
  end.

(** Outcome of evaluating an expression or a call. *)
Inductive result (A : Type) : Type :=
| Ret (a : A)
| Raise (e : exn).
Arguments Ret {A} a.
Arguments Raise {A} e.

#[export] Instance result_ret : MRet result := fun A a => Ret a.
#[export] Instance result_bind : MBind result := fun A B k r =>
  match r with
  | Ret a => k a
  | Raise e => Raise e
  end.

(** A [str] is a list of characters; [lit "10"] is the literal ['10']. *)
Definition str := list ascii.
Definition lit (x : string) : str := list_ascii_of_string x.

(** [x[i:j]] and [x[i:]] for non-negative constants, on [str] and [bytes]. *)
Definition slice {A} (i j : nat) (x : list A) : list A := take (j - i) (drop i x).
Definition slice_from {A} (i : nat) (x : list A) : list A := drop i x.
(** [x[:-k]] and [x[-k:]] for a positive constant [k]. *)
Definition slice_to_neg {A} (k : nat) (x : list A) : list A := take (length x - k) x.
Definition slice_from_neg {A} (k : nat) (x : list A) : list A := drop (length x - k) x.

(** *** Hexadecimal text *)

Definition hex_lower (n : N) : ascii :=
  match n with
  | 0 => "0" | 1 => "1" | 2 => "2" | 3 => "3" | 4 => "4" | 5 => "5" | 6 => "6"
  | 7 => "7" | 8 => "8" | 9 => "9" | 10 => "a" | 11 => "b" | 12 => "c"
  | 13 => "d" | 14 => "e" | _ => "f"
  end%N%char.

(** [str.upper] on one ASCII character. *)
Definition upper_char (c : ascii) : ascii :=
  let n := N_of_ascii c in
  if ((97 <=? n) && (n <=? 122))%N then ascii_of_N (n - 32) else c.

Definition upper (x : str) : str := map upper_char x.

(** ['{:02x}'.format(x)] for a byte [x]. *)
Definition format_02x (x : byte) : str :=
  [hex_lower (Byte.to_N x / 16); hex_lower (Byte.to_N x mod 16)].

(** Value of one hexadecimal digit, either case. *)
Definition hexval (c : ascii) : option Z :=
  let n := Z.of_N (N_of_ascii c) in
  if (48 <=? n) && (n <=? 57) then Some (n - 48)
  else if (65 <=? n) && (n <=? 70) then Some (n - 55)
  else if (97 <=? n) && (n <=? 102) then Some (n - 87)
  else None.

Fixpoint hex_acc (acc : Z) (x : str) : option Z :=
  match x with
  | [] => Some acc
  | c :: x' => match hexval c with
               | Some d => hex_acc (acc * 16 + d) x'
               | None => None
               end
  end.

(** [int(x, 16)] on a text of hexadecimal digits: the empty text and a text
    with another character raise [ValueError].  (Python also accepts a sign,
    surrounding blanks, an [0x] prefix and underscores; the buffers of this
    program are renderings of bytes in upper-case hexadecimal, where none of
    these occur.) *)
Definition int16 (x : str) : result Z :=
  match x with
  | [] => Raise ValueError
  | _ => match hex_acc 0 x with
         | Some v => Ret v
         | None => Raise ValueError
         end
  end.

(** [int.from_bytes(b, 'big')]: the unsigned big-endian value of [b]. *)
Definition be_acc (acc : Z) (b : list byte) : Z :=
  fold_left (fun a x => a * 256 + Z.of_N (Byte.to_N x)) b acc.
Definition be_int (b : list byte) : Z := be_acc 0 b.

Definition byte_val (x : byte) : Z := Z.of_N (Byte.to_N x).
Definition byte_of_Z (n : Z) : byte := default "000"%byte (Byte.of_N (Z.to_N n)).

(** *** [base64.b16decode] and [bytes.decode("utf-8")] *)

Definition is_ascii (c : ascii) : bool := (N_of_ascii c <? 128)%N.
Definition is_b16_digit (c : ascii) : bool :=
  let n := N_of_ascii c in
  (((48 <=? n) && (n <=? 57)) || ((65 <=? n) && (n <=? 70)))%N.

(** [binascii.unhexlify]: two digits per byte, an odd length is an error. *)
Fixpoint unhexlify (x : str) : result (list byte) :=
  match x with
  | [] => Ret []
  | [_] => Raise binascii_Error
  | a :: b :: x' =>
      match hexval a, hexval b with
      | Some h, Some l => bs ← unhexlify x'; Ret (byte_of_Z (h * 16 + l) :: bs)
      | _, _ => Raise binascii_Error
      end
  end.

(** [base64.b16decode(x)] with the default [casefold=False]: the text is
    encoded to ASCII, anything outside [0-9A-F] is refused, then unhexlified. *)
Definition b16decode (x : str) : result (list byte) :=
  if negb (forallb is_ascii x) then Raise ValueError
  else if negb (forallb is_b16_digit x) then Raise binascii_Error
  else unhexlify x.

Definition is_cont (n : Z) : bool := (128 <=? n) && (n <=? 191).
Definition in_range (lo hi n : Z) : bool := (lo <=? n) && (n <=? hi).

(** Strict UTF-8 decoding to code points: well-formed sequences only (no
    overlong forms, no surrogates, nothing above U+10FFFF). *)
Fixpoint utf8_decode (b : list byte) : result (list Z) :=
  match b with
  | [] => Ret []
  | b0 :: t =>
      let n0 := byte_val b0 in
      if n0 <? 128 then r ← utf8_decode t; Ret (n0 :: r)
      else if in_range 194 223 n0 then
        match t with
        | b1 :: t1 =>
            let n1 := byte_val b1 in
            if is_cont n1
            then r ← utf8_decode t1; Ret (((n0 - 192) * 64 + (n1 - 128)) :: r)
            else Raise UnicodeDecodeError
        | _ => Raise UnicodeDecodeError
        end
      else if in_range 224 239 n0 then
        match t with
        | b1 :: b2 :: t2 =>
            let n1 := byte_val b1 in
            let n2 := byte_val b2 in
            let lo := if n0 =? 224 then 160 else 128 in
            let hi := if n0 =? 237 then 159 else 191 in
            if in_range lo hi n1 && is_cont n2
            then r ← utf8_decode t2;
                 Ret (((n0 - 224) * 4096 + (n1 - 128) * 64 + (n2 - 128)) :: r)
            else Raise UnicodeDecodeError
        | _ => Raise UnicodeDecodeError
        end
      else if in_range 240 244 n0 then
        match t with
        | b1 :: b2 :: b3 :: t3 =>
            let n1 := byte_val b1 in
            let n2 := byte_val b2 in
            let n3 := byte_val b3 in
            let lo := if n0 =? 240 then 144 else 128 in
            let hi := if n0 =? 244 then 143 else 191 in
            if in_range lo hi n1 && is_cont n2 && is_cont n3
            then r ← utf8_decode t3;
                 Ret (((n0 - 240) * 262144 + (n1 - 128) * 4096
                       + (n2 - 128) * 64 + (n3 - 128)) :: r)
            else Raise UnicodeDecodeError
        | _ => Raise UnicodeDecodeError
        end
      else Raise UnicodeDecodeError
  end.

(** *** ["%02d" % n] and [datetime.strptime] *)

(** Decimal rendering of a non-negative [int], padded with zeros to width 2. *)
Definition decimal (n : Z) : str :=
  list_ascii_of_string (NilZero.string_of_uint (N.to_uint (Z.to_N n))).
Definition format_02d (n : Z) : str :=
  let d := decimal n in
  if (length d <? 2)%nat then "0"%char :: d else d.

(** The fragment of regular expressions that [_strptime] builds for the
    directives used here.  Matching is by backtracking in priority order, as
    in [re]: the results of [rmatch] are listed first choice first. *)
Inductive regex : Type :=
| Lit (c : ascii)
| Range (lo hi : ascii)
| Seq (r1 r2 : regex)
| Alt (r1 r2 : regex)
| Group (name : string) (r : regex).

Definition Digit : regex := Range "0" "9".
Definition captures := list (string * str).

(** [rmatch r x caps]: every way [r] matches a prefix of [x], each with the
    groups captured, the number of characters used and the text left over. *)
Fixpoint rmatch (r : regex) (x : str) (caps : captures) : list (captures * nat * str) :=
  match r with
  | Lit c =>
      match x with
      | c' :: x' => if Ascii.eqb c c' then [(caps, 1%nat, x')] else []
      | [] => []
      end
  | Range lo hi =>
      match x with
      | c' :: x' =>
          if ((N_of_ascii lo <=? N_of_ascii c') && (N_of_ascii c' <=? N_of_ascii hi))%N
          then [(caps, 1%nat, x')] else []
      | [] => []
      end
  | Seq r1 r2 =>
      flat_map (fun '(caps1, n1, x1) =>
                  map (fun '(caps2, n2, x2) => (caps2, (n1 + n2)%nat, x2))
                      (rmatch r2 x1 caps1))
               (rmatch r1 x caps)
  | Alt r1 r2 => rmatch r1 x caps ++ rmatch r2 x caps
  | Group name r1 =>
      map (fun '(caps1, n1, x1) => ((name, take n1 x) :: caps1, n1, x1))
          (rmatch r1 x caps)
  end.

(** [re.match]: the first way to match a prefix, with what is left over. *)
Definition re_match (r : regex) (x : str) : option (captures * str) :=
  (fun '(caps, _, rest) => (caps, rest)) <$> head (rmatch r x []).

Fixpoint group (name : string) (caps : captures) : str :=
  match caps with
  | [] => []
  | (n, v) :: caps' => if String.eqb n name then v else group name caps'
  end.

Definition alts (rs : list regex) (last : regex) : regex := foldr Alt last rs.
Definition seqs (rs : list regex) (last : regex) : regex := foldr Seq last rs.

Definition re_S : regex :=   (* 6[0-1]|[0-5]\d|\d *)
  Group "S" (alts [Seq (Lit "6") (Range "0" "1"); Seq (Range "0" "5") Digit] Digit).
Definition re_M : regex :=   (* [0-5]\d|\d *)
  Group "M" (alts [Seq (Range "0" "5") Digit] Digit).
Definition re_H : regex :=   (* 2[0-3]|[0-1]\d|\d *)
  Group "H" (alts [Seq (Lit "2") (Range "0" "3"); Seq (Range "0" "1") Digit] Digit).
Definition re_d : regex :=   (* 3[0-1]|[1-2]\d|0[1-9]|[1-9]| [1-9] *)
  Group "d" (alts [Seq (Lit "3") (Range "0" "1"); Seq (Range "1" "2") Digit;
                   Seq (Lit "0") (Range "1" "9"); Range "1" "9"]
                  (Seq (Lit " ") (Range "1" "9"))).
Definition re_m : regex :=   (* 1[0-2]|0[1-9]|[1-9] *)
  Group "m" (alts [Seq (Lit "1") (Range "0" "2"); Seq (Lit "0") (Range "1" "9")]
                  (Range "1" "9")).
Definition re_Y : regex :=   (* \d\d\d\d *)
  Group "Y" (seqs [Digit; Digit; Digit] Digit).

(** The pattern for the format ['%S%M%H_%d%m%Y']. *)
Definition format_SMH_dmY : regex :=
  seqs [re_S; re_M; re_H; Lit "_"; re_d; re_m] re_Y.

(** [int(x)] on a captured group: decimal digits after optional blanks. *)
Fixpoint int10_acc (acc : Z) (x : str) : Z :=
  match x with
  | [] => acc
  | c :: x' => int10_acc (acc * 10 + (Z.of_N (N_of_ascii c) - 48)) x'
  end.
Fixpoint int10 (x : str) : Z :=
  match x with
  | " "%char :: x' => int10 x'
  | _ => int10_acc 0 x
  end.

Record datetime : Set := mk_datetime {
  year : Z; month : Z; day : Z; hour : Z; minute : Z; second : Z
}.

#[export] Instance datetime_eq_dec : EqDecision datetime.
Proof. solve_decision. Defined.

Definition is_leap (y : Z) : bool :=
  (y mod 4 =? 0) && (negb (y mod 100 =? 0) || (y mod 400 =? 0)).
Definition days_in_month (y m : Z) : Z :=
  if m =? 2 then (if is_leap y then 29 else 28)
  else if (m =? 4) || (m =? 6) || (m =? 9) || (m =? 11) then 30 else 31.

(** [datetime(y, m, d, H, M, S)]: the constructor checks every field. *)
Definition datetime_new (y m d H M S : Z) : result datetime :=
  if in_range 1 9999 y && in_range 1 12 m && in_range 1 (days_in_month y m) d
     && in_range 0 23 H && in_range 0 59 M && in_range 0 59 S
  then Ret (mk_datetime y m d H M S)
  else Raise ValueError.

(** [datetime.strptime(date, '%S%M%H_%d%m%Y')]: the pattern must match, it
    must use up the whole text, and the fields must form a date and time. *)
Definition strptime (date : str) : result datetime :=
  match re_match format_SMH_dmY date with
  | None => Raise ValueError
  | Some (caps, rest) =>
      match rest with
      | _ :: _ => Raise ValueError
      | [] =>
          datetime_new (int10 (group "Y" caps)) (int10 (group "m" caps))
                       (int10 (group "d" caps)) (int10 (group "H" caps))
                       (int10 (group "M" caps)) (int10 (group "S" caps))
      end
  end.

(** *** [struct.unpack("<H", b)[0]] *)
Definition unpack_le16 (b : list byte) : result Z :=
  match b with
  | [lo; hi] => Ret (byte_val lo + 256 * byte_val hi)
  | _ => Raise OtherError
  end.

End Py.

(** ** [crcmod]: the table-driven reflected CRC behind [mkCrcFun(..., rev=True)] *)

Module crcmod.
Import Py.

(** [_bitrev(x, n)]: the low [n] bits of [x] in reverse order. *)
Fixpoint _bitrev_loop (n : nat) (x y : Z) : Z :=
  match n with
  | O => y
  | S n' => _bitrev_loop n' (Z.shiftr x 1) (Z.lor (Z.shiftl y 1) (Z.land x 1))
  end.
Definition _bitrev (x : Z) (n : nat) : Z := _bitrev_loop n x 0.

Definition _bytecrc_r_step (poly crc : Z) : Z :=
  if Z.testbit crc 0 then Z.lxor (Z.shiftr crc 1) poly else Z.shiftr crc 1.

(** [_bytecrc_r(crc, poly, n)]: eight shift steps, low bit first. *)
Definition _bytecrc_r (crc poly : Z) (n : nat) : Z :=
  let mask := Z.shiftl 1 (Z.of_nat n) - 1 in
  Z.land (Nat.iter 8 (_bytecrc_r_step poly) crc) mask.

Definition _mkTable_r (poly : Z) (n : nat) : list Z :=
  let mask := Z.shiftl 1 (Z.of_nat n) - 1 in
  let poly := _bitrev (Z.land poly mask) n in
  map (fun i => _bytecrc_r i poly n) (seqZ 0 256).

(** [_crc16r(data, crc, table)] *)
Definition _crc16r (data : list byte) (crc : Z) (table : list Z) : Z :=
  fold_left
    (fun crc x =>
       Z.lxor (table !!! Z.to_nat (Z.lxor (byte_val x) (Z.land crc 255)))
              (Z.shiftr crc 8))
    data (Z.land crc 65535).

(** [mkCrcFun(poly, rev=True, initCrc=..., xorOut=...)] for a polynomial of
    degree 16, applied to [data] with the default starting value. *)
Definition mkCrcFun_r16 (poly initCrc xorOut : Z) (data : list byte) : Z :=
  let table := _mkTable_r poly 16 in
  if xorOut =? 0 then _crc16r data initCrc table
  else Z.lxor xorOut (_crc16r data (Z.lxor xorOut initCrc) table).

End crcmod.

(** ** The module [hanSolo] *)

Import Py.

Inductive State : Set := STATE_STARTING | STATE_RUNNING | STATE_STOPPED.

#[export] Instance State_eq_dec : EqDecision State.
Proof. solve_decision. Defined.

Definition FEND : Z := 126.

(** Values stored in a reading: a time stamp, an [int], or decoded text (its
    code points). *)
Inductive value : Type :=
| VTime (t : datetime)
| VInt (n : Z)
| VStr (cps : list Z).

(** The [dict] a decoder returns. *)
Abbreviation Reading := (gmap string value).

(** [aiohttp.WSMsgType] and the [data] a message carries. *)
Inductive WSMsgType : Set :=
| CONTINUATION | TEXT | BINARY | PING | PONG | CLOSE | CLOSING | CLOSED | ERROR.

#[export] Instance WSMsgType_eq_dec : EqDecision WSMsgType.
Proof. solve_decision. Defined.

Inductive payload : Type :=
| PBytes (b : list byte)
| PStr (x : str)
| POther.

Record WSMessage : Type := mk_msg { msg_type : WSMsgType; msg_data : option payload }.

(** Log records: level, format text, arguments. *)
Inductive level : Set := DEBUG | WARNING | ERROR_.
Inductive log_arg : Type :=
| AInt (n : Z)
| AStr (x : str)
| ABytes (b : list byte)
| AState (st : option State)
| AMsg (m : WSMessage).
Record log_record : Type := Log { lvl : level; fmt : string; args : list log_arg }.

(** Code that logs and may raise: the records written so far and the outcome. *)
Definition W (A : Type) : Type := list log_record * result A.
Definition W_ret {A} (a : A) : W A := ([], Ret a).
Definition W_bind {A B} (m : W A) (k : A -> W B) : W B :=
  match m with
  | (l, Ret a) => let '(l', r) := k a in (l ++ l', r)
  | (l, Raise e) => (l, Raise e)
  end.
Definition W_lift {A} (r : result A) : W A := ([], r).
Definition W_log (r : log_record) : W unit := ([r], Ret tt).

Notation "'let*' x ':=' m 'in' k" := (W_bind m (fun x => k))
  (at level 10, x pattern, m at level 100, k at level 200).
Notation "m ';;' k" := (W_bind m (fun _ => k))
  (at level 100, k at level 200, right associativity).

(** [try: body except ValueError: _LOGGER.error("Failed", exc_info=True);
    return None] *)
Definition except_ValueError (body : W (option Reading)) : W (option Reading) :=
  match body with
  | (l, Raise e) =>
      if is_ValueError e then (l ++ [Log ERROR_ "Failed" []], Ret None)
      else (l, Raise e)
  | done => done
  end.

Definition len {A} (x : list A) : Z := Z.of_nat (length x).

(** The body of the [try] block of [decode_kaifa]; [buf] is already [buf[32:]]. *)
Definition decode_kaifa_body (buf : str) : W (option Reading) :=
  let txt_buf := slice_from 28 buf in
  if decide (slice 0 2 txt_buf ≠ lit "02") then
    (* the argument [buf[0]] of the log call is evaluated first *)
    match buf with
    | [] => W_lift (Raise IndexError)
    | c :: _ => W_log (Log ERROR_ "Unknown data %s" [AStr [c]]);; W_ret None
    end
  else
    let* year := W_lift (int16 (slice 4 8 buf)) in
    let* month := W_lift (int16 (slice 8 10 buf)) in
    let* day := W_lift (int16 (slice 10 12 buf)) in
    let* hour := W_lift (int16 (slice 14 16 buf)) in
    let* minute := W_lift (int16 (slice 16 18 buf)) in
    let* second := W_lift (int16 (slice 18 20 buf)) in
    let date := format_02d second ++ format_02d minute ++ format_02d hour
                ++ lit "_" ++ format_02d day ++ format_02d month ++ format_02d year in
    let res : Reading := ∅ in
    let* t := W_lift (strptime date) in
    let res := <["time_stamp" := VTime t]> res in
    let pkt_type := slice 2 4 txt_buf in
    let txt_buf := slice_from 4 txt_buf in
    if decide (pkt_type = lit "01") then
      let* effect := W_lift (int16 (slice 2 10 txt_buf)) in
      let res := <["Effect" := VInt effect]> res in
      W_ret (Some res)
    else if decide (pkt_type ∈ [lit "09"; lit "0E"]) then
      let* b := W_lift (b16decode (slice 4 18 txt_buf)) in
      let* v := W_lift (utf8_decode b) in
      let res := <["Version identifier" := VStr v]> res in
      let txt_buf := slice_from 18 txt_buf in
      let* b := W_lift (b16decode (slice 4 36 txt_buf)) in
      let* v := W_lift (utf8_decode b) in
      let res := <["Meter-ID" := VStr v]> res in
      let txt_buf := slice_from 36 txt_buf in
      let* b := W_lift (b16decode (slice 4 20 txt_buf)) in
      let* v := W_lift (utf8_decode b) in
      let res := <["Meter type" := VStr v]> res in
      let txt_buf := slice_from 20 txt_buf in
      let* effect := W_lift (int16 (slice 2 10 txt_buf)) in
      let res := <["Effect" := VInt effect]> res in
      if decide (pkt_type = lit "0E") then
        let txt_buf := slice_from 10 txt_buf in
        let txt_buf := slice_from 78 txt_buf in
        let* n := W_lift (int16 (slice 2 10 txt_buf)) in
        let res := <["Cumulative_hourly_active_import_energy" := VInt n]> res in
        let txt_buf := slice_from 10 txt_buf in
        let* n := W_lift (int16 (slice 2 10 txt_buf)) in
        let res := <["Cumulative_hourly_active_export_energy" := VInt n]> res in
        let txt_buf := slice_from 10 txt_buf in
        let* n := W_lift (int16 (slice 2 10 txt_buf)) in
        let res := <["Cumulative_hourly_reactive_import_energy" := VInt n]> res in
        let txt_buf := slice_from 10 txt_buf in
        let* n := W_lift (int16 (slice 2 10 txt_buf)) in
        let res := <["Cumulative_hourly_reactive_export_energy" := VInt n]> res in
        W_ret (Some res)
      else W_ret (Some res)
    else
      W_log (Log WARNING "Unknown type %s" [AStr pkt_type]);; W_ret None.

Definition decode_kaifa (buf : str) : W (option Reading) :=
  if decide (slice 10 12 buf ≠ lit "10") then
    W_log (Log ERROR_ "Unknown control field %s" [AStr (slice 10 12 buf)]);;
    W_ret None
  else
    let* n := W_lift (int16 (slice 2 4 buf)) in
    if decide (n * 2 ≠ len buf) then
      W_log (Log ERROR_ "Invalid length %s, %s" [AInt (n * 2); AInt (len buf)]);;
      W_ret None
    else
      let buf := slice_from 32 buf in
      except_ValueError (decode_kaifa_body buf).

(** [''.join('{:02x}'.format(x).upper() for x in data)] *)
Definition hex_upper (data : list byte) : str :=
  flat_map (fun x => upper (format_02x x)) data.

Definition bytes_of (l : list Z) : list byte := map byte_of_Z l.

(** *** The subscription manager *)

(** Subscriber callbacks are compared by identity; decoders are the functions
    registered in [_decoders]. *)
Definition callback := nat.
Inductive decoder : Set := Kaifa.

Definition apply_decoder (d : decoder) (buf : str) : W (option Reading) :=
  match d with Kaifa => decode_kaifa buf end.

(** What the methods do to the outside, in order.  [EState] records each
    assignment to [self._state]. *)
Inductive event : Type :=
| ELog (r : log_record)
| EPrintDecoded (d : option Reading)
| EPrintMsg (m : WSMessage) (st : option State)
| ECall (cb : callback) (arg : option Reading)
| EState (st : State)
| EConnect
| EClose
| EPing
| ETimerCancel
| ECallLater (delay : Z)       (* loop.call_later(delay, self.start) *)
| ETaskCancel
| ECreateTask.                 (* loop.create_task(self.running()) *)

Abbreviation trace := (list event).
Definition logs (l : list log_record) : trace := map ELog l.
Definition elog (lv : level) (f : string) (a : list log_arg) : event := ELog (Log lv f a).

Inductive ws_handle : Set := WebSocket.
Inductive task_handle : Set := Task.
(** A pending [call_later(delay, self.start)]. *)
Record timer_handle : Set := Timer { delay : Z }.

Record SubscriptionManager : Type := mk_manager {
  subscriptions : list callback;
  _state : option State;
  websocket : option ws_handle;
  _retry_timer : option timer_handle;
  _client_task : option task_handle;
  _wait_time_before_retry : Z;
  _show_connection_error : bool;
  _is_running : bool;
  _decoders : list decoder;
  _default_decoder : decoder
}.

(** [SubscriptionManager.__init__] *)
Definition __init__ : SubscriptionManager :=
  {| subscriptions := []; _state := None; websocket := None;
     _retry_timer := None; _client_task := None;
     _wait_time_before_retry := 15; _show_connection_error := true;
     _is_running := false; _decoders := [Kaifa]; _default_decoder := Kaifa |}.

Definition set_subscriptions (v : list callback) (m : SubscriptionManager) : SubscriptionManager :=
  mk_manager v m.(_state) m.(websocket) m.(_retry_timer) m.(_client_task)
    m.(_wait_time_before_retry) m.(_show_connection_error) m.(_is_running)
    m.(_decoders) m.(_default_decoder).
Definition set_state (v : State) (m : SubscriptionManager) : SubscriptionManager :=
  mk_manager m.(subscriptions) (Some v) m.(websocket) m.(_retry_timer) m.(_client_task)
    m.(_wait_time_before_retry) m.(_show_connection_error) m.(_is_running)
    m.(_decoders) m.(_default_decoder).
Definition set_websocket (v : option ws_handle) (m : SubscriptionManager) : SubscriptionManager :=
  mk_manager m.(subscriptions) m.(_state) v m.(_retry_timer) m.(_client_task)
    m.(_wait_time_before_retry) m.(_show_connection_error) m.(_is_running)
    m.(_decoders) m.(_default_decoder).
Definition set_retry_timer (v : option timer_handle) (m : SubscriptionManager)
  : SubscriptionManager :=
  mk_manager m.(subscriptions) m.(_state) m.(websocket) v m.(_client_task)
    m.(_wait_time_before_retry) m.(_show_connection_error) m.(_is_running)
    m.(_decoders) m.(_default_decoder).
Definition set_client_task (v : option task_handle) (m : SubscriptionManager)
  : SubscriptionManager :=
  mk_manager m.(subscriptions) m.(_state) m.(websocket) m.(_retry_timer) v
    m.(_wait_time_before_retry) m.(_show_connection_error) m.(_is_running)
    m.(_decoders) m.(_default_decoder).
Definition set_show_connection_error (v : bool) (m : SubscriptionManager) : SubscriptionManager :=
  mk_manager m.(subscriptions) m.(_state) m.(websocket) m.(_retry_timer) m.(_client_task)
    m.(_wait_time_before_retry) v m.(_is_running)
    m.(_decoders) m.(_default_decoder).
Definition set_is_running (v : bool) (m : SubscriptionManager) : SubscriptionManager :=
  mk_manager m.(subscriptions) m.(_state) m.(websocket) m.(_retry_timer) m.(_client_task)
    m.(_wait_time_before_retry) m.(_show_connection_error) v
    m.(_decoders) m.(_default_decoder).
Definition set_default_decoder (v : decoder) (m : SubscriptionManager) : SubscriptionManager :=
  mk_manager m.(subscriptions) m.(_state) m.(websocket) m.(_retry_timer) m.(_client_task)
    m.(_wait_time_before_retry) m.(_show_connection_error) m.(_is_running)
    m.(_decoders) v.

Definition _cancel_retry_timer (m : SubscriptionManager) : trace * SubscriptionManager :=
  match m.(_retry_timer) with
  | None => ([], m)
  | Some _ => ([ETimerCancel], set_retry_timer None m)
  end.

Definition _cancel_client_task (m : SubscriptionManager) : trace * SubscriptionManager :=
  match m.(_client_task) with
  | None => ([], m)
  | Some _ => ([ETaskCancel], set_client_task None m)
  end.

Definition _close_websocket (m : SubscriptionManager) : trace * SubscriptionManager :=
  match m.(websocket) with
  | None => ([], m)
  | Some _ => ([EClose], set_websocket None m)
  end.

Definition start (m : SubscriptionManager) : trace * SubscriptionManager :=
  let t0 := [elog DEBUG "Start state %s." [AState m.(_state)]] in
  if decide (m.(_state) = Some STATE_RUNNING) then (t0, m)
  else
    let m := set_state STATE_STARTING m in
    let '(t1, m) := _cancel_client_task m in
    let m := set_client_task (Some Task) m in
    (t0 ++ [EState STATE_STARTING] ++ t1 ++ [ECreateTask], m).

Definition retry (m : SubscriptionManager) : trace * SubscriptionManager :=
  let t0 := [elog DEBUG "Retry, state: %s" [AState m.(_state)]] in
  if decide (m.(_state) ∈ [Some STATE_STARTING; Some STATE_RUNNING]) then
    (t0 ++ [elog DEBUG "Skip retry since state: %s" [AState m.(_state)]], m)
  else
    let '(t1, m) := _cancel_retry_timer m in
    let m := set_state STATE_STARTING m in
    let m := set_retry_timer (Some (Timer m.(_wait_time_before_retry))) m in
    (t0 ++ [elog DEBUG "Cancel retry timer" []] ++ t1
        ++ [EState STATE_STARTING; elog DEBUG "Restart" [];
            ECallLater m.(_wait_time_before_retry);
            elog DEBUG "Reconnecting to server in %i seconds."
                 [AInt m.(_wait_time_before_retry)]], m).

(** The event loop runs a pending retry timer: it calls [self.start]. *)
Definition fire_retry_timer (m : SubscriptionManager) : trace * SubscriptionManager :=
  match m.(_retry_timer) with
  | None => ([], m)
  | Some _ => start m
  end.

(** The property [is_running]. *)
Definition is_running (m : SubscriptionManager) : bool := _is_running m.

(** What one [await asyncio.sleep(0.1, loop=self.loop)] of [stop] brings:
    the sleep returns, the other tasks having done [others] to the manager
    meanwhile, or the call raises (the [loop] argument is a [TypeError] from
    Python 3.10 on). *)
Inductive sleep_outcome : Type :=
| SleepOk (others : SubscriptionManager -> SubscriptionManager)
| SleepRaise (e : exn).

(** One pass of the wait loop of [stop] that gets past
    [timeout > 0 and self.websocket is not None]: [waiting] is the value of
    [not self.websocket.closed and (time() - start_time) < timeout] there,
    [slept] what the sleep then brings.  The clock ends the wait after the
    last pass listed, at the latest. *)
Record poll : Type := Poll { waiting : bool; slept : sleep_outcome }.

(** The wait loop of [stop], on the manager as it is at each pass. *)
Fixpoint stop_wait (timeout : Z) (polls : list poll) (m : SubscriptionManager)
  : SubscriptionManager * result unit :=
  if (timeout >? 0) && bool_decide (websocket m <> None) then
    match polls with
    | [] => (m, Ret tt)
    | p :: polls' =>
        if waiting p then
          match slept p with
          | SleepRaise e => (m, Raise e)
          | SleepOk others => stop_wait timeout polls' (others m)
          end
        else (m, Ret tt)
    end
  else (m, Ret tt).

(** [stop(timeout)].  An exception of the sleep leaves [stop] before the
    transport is closed and the task cancelled. *)
Definition stop (timeout : Z) (polls : list poll) (m : SubscriptionManager)
  : trace * SubscriptionManager * result unit :=
  let t0 := [elog DEBUG "Stopping client." []] in
  let '(t1, m) := _cancel_retry_timer m in
  let m := set_state STATE_STOPPED m in
  match stop_wait timeout polls m with
  | (m, Raise e) => (t0 ++ t1 ++ [EState STATE_STOPPED], m, Raise e)
  | (m, Ret _) =>
      let '(t2, m) := _close_websocket m in
      let '(t3, m) := _cancel_client_task m in
      (t0 ++ t1 ++ [EState STATE_STOPPED] ++ t2 ++ t3
          ++ [elog DEBUG "Server connection is stopped" []], m, Ret tt)
  end.

Definition subscribe (cb : callback) (m : SubscriptionManager) : SubscriptionManager :=
  if decide (cb ∈ m.(subscriptions)) then m
  else set_subscriptions (m.(subscriptions) ++ [cb]) m.

(** [list.remove(x)]: drops the first element equal to [x]. *)
Fixpoint list_remove (x : callback) (l : list callback) : list callback :=
  match l with
  | [] => []
  | y :: l' => if decide (x = y) then l' else y :: list_remove x l'
  end.

Definition unsubscribe (cb : callback) (m : SubscriptionManager) : SubscriptionManager :=
  if decide (cb ∉ m.(subscriptions)) then m
  else set_subscriptions (list_remove cb m.(subscriptions)) m.

(** [self._crc = crcmod.mkCrcFun(0x11021, rev=True, initCrc=0xffff, xorOut=0x0000)] *)
Definition _crc : list byte -> Z := crcmod.mkCrcFun_r16 0x11021 0xffff 0x0000.

(** The transport, as the connection loop sees it. *)
Inductive connect_outcome : Set :=
| ConnectOk
| ConnectRaise (e : exn).
Inductive ping_outcome : Set :=
| PongOk
| PongTimeout
| PingRaise (e : exn).
(** One [await asyncio.wait_for(self.websocket.receive(), timeout=30)]; a
    time-out carries what the following ping would meet. *)
Inductive recv_outcome : Type :=
| RecvMsg (msg : WSMessage)
| RecvTimeout (pong : ping_outcome)
| RecvRaise (e : exn).

(** How the receive loop ends. [LoopAwaiting]: the replies ran out and the
    coroutine is suspended in [receive]. [LoopDispatching]: it is still in
    the dispatch loop of a message. *)
Inductive loop_end : Set :=
| LoopReturn
| LoopFallOut
| LoopRaise (e : exn)
| LoopAwaiting
| LoopDispatching.

Inductive run_status : Set := Finished | Suspended.

(** What awaiting a subscriber's callback on a reading does: it returns or
    raises, and meanwhile the manager has become another, through its
    methods ([subscribe], [unsubscribe], [stop], ...); the trace is what
    they did to the outside. *)
Abbreviation awaiting :=
  (callback -> option Reading -> SubscriptionManager
   -> trace * SubscriptionManager * result unit).

(** How far a coroutine with a dispatch loop has come: it is done, with a
    result or an exception, or it is still dispatching. *)
Inductive outcome (A : Type) : Type :=
| Done (r : result A)
| Dispatching.
Arguments Done {A} r.
Arguments Dispatching {A}.

Section Subscribers.

Variable await_callback : awaiting.

(** How many callbacks the model follows in one dispatch loop. *)
Variable fuel : nat.

(** [for callback in self.subscriptions: await callback(decoded_data)].
    The loop walks the list object itself, by position: [i] is the index of
    the list iterator, and what [subscribe] and [unsubscribe] do to the list
    while a callback is awaited shows in the rest of the walk.  [var] is the
    local variable [decoded_data]: [None] while it is unbound. *)
Fixpoint dispatch_from (n : nat) (var : option (option Reading)) (i : nat)
    (m : SubscriptionManager) : trace * SubscriptionManager * outcome unit :=
  match subscriptions m !! i with
  | None => ([], m, Done (Ret tt))
  | Some cb =>
      match var with
      | None => ([], m, Done (Raise UnboundLocalError))
      | Some decoded_data =>
          match n with
          | O => ([], m, Dispatching)
          | S n' =>
              match await_callback cb decoded_data m with
              | (t, m', Raise e) => (ECall cb decoded_data :: t, m', Done (Raise e))
              | (t, m', Ret _) =>
                  let '(t', m'', r) := dispatch_from n' var (S i) m' in
                  (ECall cb decoded_data :: t ++ t', m'', r)
              end
          end
      end
  end.

Definition dispatch (var : option (option Reading)) (m : SubscriptionManager)
  : trace * SubscriptionManager * outcome unit :=
  dispatch_from fuel var 0 m.

(** [for decoder in self._decoders: ...; break]: the first decoder with a
    result, if any. *)
Fixpoint try_decoders (ds : list decoder) (buf : str)
  : W (option (decoder * Reading)) :=
  match ds with
  | [] => W_ret None
  | d :: ds' =>
      let* r := apply_decoder d buf in
      match r with
      | Some reading => W_ret (Some (d, reading))
      | None => try_decoders ds' buf
      end
  end.

(** The decoder registry part of [_process_msg]: the default decoder first,
    then every decoder in order; a success becomes the new default. *)
Definition decode (m : SubscriptionManager) (buf : str)
  : trace * SubscriptionManager * result (option Reading) :=
  match apply_decoder m.(_default_decoder) buf with
  | (l, Raise e) => (logs l, m, Raise e)
  | (l, Ret (Some reading)) => (logs l, m, Ret (Some reading))
  | (l, Ret None) =>
      match try_decoders m.(_decoders) buf with
      | (l', Raise e) => (logs (l ++ l'), m, Raise e)
      | (l', Ret None) => (logs (l ++ l'), m, Ret None)
      | (l', Ret (Some (d, reading))) =>
          (logs (l ++ l'), set_default_decoder d m, Ret (Some reading))
      end
  end.

(** The frame test of [_process_msg]:
    [len(data) < 9 or not data[0] == FEND or not data[-1] == FEND]. *)
Definition invalid_frame (data : list byte) : bool :=
  (len data <? 9)
  || negb (bool_decide (byte_val <$> head data = Some FEND))
  || negb (bool_decide (byte_val <$> last data = Some FEND)).

(** The check-sum lines: the computed value, the trailer, and the log record
    written when they differ. *)
Definition crc_computed (data : list byte) : Z :=
  Z.lxor (_crc (slice_to_neg 2 data)) 0xffff.
Definition crc_trailer (data : list byte) : result Z :=
  unpack_le16 (slice_from_neg 2 data).
Definition crc_check (data : list byte) : trace * result unit :=
  match crc_trailer data with
  | Raise e => ([], Raise e)
  | Ret t =>
      if decide (crc_computed data ≠ t)
      then ([elog ERROR_ "Invalid crc %s %s" [AInt (crc_computed data); AInt t]], Ret tt)
      else ([], Ret tt)
  end.

Definition _process_msg (m : SubscriptionManager) (msg : WSMessage)
  : trace * SubscriptionManager * outcome unit :=
  let t0 := [elog DEBUG "Recv, %s" [AMsg msg]] in
  match msg.(msg_data) with
  | None => (t0, m, Done (Ret tt))
  | Some data =>
      if decide (msg.(msg_type) = BINARY) then
        match data with
        | POther => (t0, m, Done (Raise TypeError))      (* len(data) *)
        | PStr x =>                                      (* a character is never 126 *)
            (t0 ++ [elog ERROR_ "Invalid data %s" [AStr x]], m, Done (Ret tt))
        | PBytes data =>
            if invalid_frame data then
              (t0 ++ [elog ERROR_ "Invalid data %s" [ABytes data]], m, Done (Ret tt))
            else
              let data := slice 1 (length data - 1) data in
              match crc_check data with
              | (t1, Raise e) => (t0 ++ t1, m, Done (Raise e))
              | (t1, Ret _) =>
                  let buf := hex_upper data in
                  match decode m buf with
                  | (t2, m, Raise e) => (t0 ++ t1 ++ t2, m, Done (Raise e))
                  | (t2, m, Ret decoded_data) =>
                      let '(t3, m, r) := dispatch (Some decoded_data) m in
                      (t0 ++ t1 ++ t2 ++ [EPrintDecoded decoded_data] ++ t3, m, r)
                  end
              end
        end
      else
        let '(t3, m, r) := dispatch None m in
        (t0 ++ t3, m, r)
  end.

(** The [while self._state == STATE_RUNNING] loop of [running], with the idle
    counter [k], against the replies of the transport. *)
Fixpoint receive_loop (k : Z) (replies : list recv_outcome) (m : SubscriptionManager)
  : trace * SubscriptionManager * loop_end :=
  if decide (m.(_state) ≠ Some STATE_RUNNING) then ([], m, LoopFallOut)
  else
    match replies with
    | [] => ([], m, LoopAwaiting)
    | RecvRaise e :: _ => ([], m, LoopRaise e)
    | RecvTimeout pong :: replies' =>
        let k := k + 1 in
        if k >? 10 then
          let t := if m.(_show_connection_error)
                   then [elog ERROR_ "No data, reconnecting." []] else [] in
          let m := if m.(_show_connection_error)
                   then set_show_connection_error false m else m in
          (t, set_is_running false m, LoopReturn)
        else
          let t0 := [elog DEBUG "No websocket data in 30 seconds, checking the connection." [];
                     EPing] in
          match pong with
          | PingRaise e => (t0, m, LoopRaise e)
          | PongTimeout =>
              let t := if m.(_show_connection_error)
                       then [elog ERROR_ "No response to ping in 10 seconds, reconnecting." []]
                       else [] in
              let m := if m.(_show_connection_error)
                       then set_show_connection_error false m else m in
              (t0 ++ t, set_is_running false m, LoopReturn)
          | PongOk =>
              let '(t, m, e) := receive_loop k replies' m in (t0 ++ t, m, e)
          end
    | RecvMsg msg :: replies' =>
        if decide (msg.(msg_type) ∈ [CLOSED; ERROR]) then
          ([EPrintMsg msg m.(_state)], m, LoopReturn)
        else
          let m := set_is_running true m in
          match _process_msg m msg with
          | (t0, m, Done (Raise e)) => (t0, m, LoopRaise e)
          | (t0, m, Dispatching) => (t0, m, LoopDispatching)
          | (t0, m, Done (Ret _)) =>
              let m := set_show_connection_error true m in
              let '(t, m, e) := receive_loop 0 replies' m in (t0 ++ t, m, e)
          end
    end.

(** [except Exception: _LOGGER.error("Unexpected error", exc_info=True)] *)
Definition except_Exception (e : loop_end) : trace :=
  match e with
  | LoopRaise _ => [elog ERROR_ "Unexpected error" []]
  | _ => []
  end.

(** The [finally] block of [running]. *)
Definition running_finally (m : SubscriptionManager) : trace * SubscriptionManager :=
  let '(t0, m) := _close_websocket m in
  let '(t1, m) :=
    if decide (m.(_state) ≠ Some STATE_STOPPED) then
      let m := set_state STATE_STOPPED m in
      let '(t, m) := retry m in
      ([elog DEBUG "Reconnecting" []; EState STATE_STOPPED] ++ t, m)
    else ([], m) in
  (t0 ++ t1 ++ [elog DEBUG "Closing running task." []], m).

(** What follows the receive loop: the handler and the [finally] block, or
    nothing while the coroutine is suspended. *)
Definition after_loop (r : trace * SubscriptionManager * loop_end)
  : trace * SubscriptionManager * run_status :=
  let '(t, m, e) := r in
  match e with
  | LoopAwaiting | LoopDispatching => (t, m, Suspended)
  | _ => let '(t', m) := running_finally m in
         (t ++ except_Exception e ++ t', m, Finished)
  end.

(** [running]: the coroutine started by [start], against a transport that
    answers the connection attempt with [conn] and the receives with
    [replies]. *)
Definition running (conn : connect_outcome) (replies : list recv_outcome) (m : SubscriptionManager)
  : trace * SubscriptionManager * run_status :=
  let '(t0, m) := _close_websocket m in
  let t1 := [elog DEBUG "Starting" []] in
  match conn with
  | ConnectRaise e =>
      let '(t, m, s) := after_loop ([], m, LoopRaise e) in (t0 ++ t1 ++ t, m, s)
  | ConnectOk =>
      let m := set_websocket (Some WebSocket) m in
      let m := set_state STATE_RUNNING m in
      let t2 := [EConnect; EState STATE_RUNNING; elog DEBUG "Running" []] in
      let '(t, m, s) := after_loop (receive_loop 0 replies m) in
      (t0 ++ t1 ++ t2 ++ t, m, s)
  end.

End Subscribers.

(** * Vocabulary of the properties *)

(** ** The check sum in the spec's words *)

(** A CRC of width 16 computed bit by bit, low bit first, with the reflected
    polynomial [poly_r], from the start value [crc0]. *)
Definition crc16_bit (poly_r crc : Z) : Z :=
  if Z.testbit crc 0 then Z.lxor (Z.shiftr crc 1) poly_r else Z.shiftr crc 1.
Definition crc16_byte (poly_r crc : Z) (x : byte) : Z :=
  Nat.iter 8 (crc16_bit poly_r) (Z.lxor crc (byte_val x)).
Definition crc16_reflected (poly_r crc0 : Z) (data : list byte) : Z :=
  fold_left (crc16_byte poly_r) data crc0.

(** The low 16 bits of 0x11021 in reverse order. *)
Definition X25_POLY : Z := 0x8408.

(** The table [crcmod] builds for [self._crc], and the checks that tie its
    entries to the bit-wise steps. *)
Definition crc_table : list Z := Eval vm_compute in crcmod._mkTable_r 0x11021 16.

Definition crc_table_entry_ok (i : Z) : bool :=
  (crc_table !!! Z.to_nat i =? Nat.iter 8 (crc16_bit X25_POLY) i)
  && (crc_table !!! Z.to_nat i <? 65536) && (0 <=? crc_table !!! Z.to_nat i).

Definition high_byte_ok (i : Z) : bool :=
  forallb (fun hi => Nat.iter 8 (crc16_bit X25_POLY) (Z.lxor (hi * 256) i)
                     =? Z.lxor (Nat.iter 8 (crc16_bit X25_POLY) i) hi) (seqZ 0 256).

(** ** Frames and payloads *)

(** [data[1:-1]] *)
Definition strip_delimiters (data : list byte) : list byte :=
  slice 1 (length data - 1) data.

(** The three validations of the Kaifa decoder, on the token stream. *)
Definition control_field_ok (buf : str) : Prop := slice 10 12 buf = lit "10".
Definition length_field_ok (buf : str) : Prop :=
  exists n, int16 (slice 2 4 buf) = Ret n /\ n * 2 = len buf.
(** The data-type tag the decoder tests: 14 bytes after the 16-byte header. *)
Definition data_tag_ok (buf : str) : Prop := slice 60 62 buf = lit "02".
(** The record-type tag, the byte after it. *)
Definition pkt_type_of (buf : str) : str := slice 62 64 buf.

Definition validated (data : list byte) : Prop :=
  control_field_ok (hex_upper data) /\ length_field_ok (hex_upper data)
  /\ data_tag_ok (hex_upper data).

(** The time stamp bytes of a payload: year (two bytes), month, day, then
    after the day of the week hour, minute and second. *)
Definition stamp_year (data : list byte) : Z := be_int (slice 18 20 data).
Definition stamp_month (data : list byte) : Z := be_int (slice 20 21 data).
Definition stamp_day (data : list byte) : Z := be_int (slice 21 22 data).
Definition stamp_hour (data : list byte) : Z := be_int (slice 23 24 data).
Definition stamp_minute (data : list byte) : Z := be_int (slice 24 25 data).
Definition stamp_second (data : list byte) : Z := be_int (slice 25 26 data).
Definition stamp_of (data : list byte) : datetime :=
  mk_datetime (stamp_year data) (stamp_month data) (stamp_day data)
              (stamp_hour data) (stamp_minute data) (stamp_second data).
(** They form a date and time of the calendar, with a year of four digits. *)
Definition valid_stamp (data : list byte) : Prop :=
  1000 <= stamp_year data <= 9999
  /\ 1 <= stamp_month data <= 12
  /\ 1 <= stamp_day data <= days_in_month (stamp_year data) (stamp_month data)
  /\ stamp_hour data <= 23 /\ stamp_minute data <= 59 /\ stamp_second data <= 59.

(** ** Readings *)

Definition reading_01 (t : datetime) (effect : Z) : Reading :=
  <["Effect" := VInt effect]> (<["time_stamp" := VTime t]> ∅).

Definition reading_09 (t : datetime) (version meter_id meter_type : list Z) (effect : Z)
  : Reading :=
  <["Effect" := VInt effect]>
    (<["Meter type" := VStr meter_type]>
       (<["Meter-ID" := VStr meter_id]>
          (<["Version identifier" := VStr version]>
             (<["time_stamp" := VTime t]> ∅)))).

Definition reading_0E (t : datetime) (version meter_id meter_type : list Z)
    (effect a_imp a_exp r_imp r_exp : Z) : Reading :=
  <["Cumulative_hourly_reactive_export_energy" := VInt r_exp]>
    (<["Cumulative_hourly_reactive_import_energy" := VInt r_imp]>
       (<["Cumulative_hourly_active_export_energy" := VInt a_exp]>
          (<["Cumulative_hourly_active_import_energy" := VInt a_imp]>
             (reading_09 t version meter_id meter_type effect)))).

(** The field sets of the three record types. *)
Definition fields_01 : gset string := {[ "time_stamp"; "Effect" ]}.
Definition fields_09 : gset string :=
  {[ "time_stamp"; "Version identifier"; "Meter-ID"; "Meter type"; "Effect" ]}.
Definition fields_0E : gset string :=
  fields_09 ∪ {[ "Cumulative_hourly_active_import_energy";
                 "Cumulative_hourly_active_export_energy";
                 "Cumulative_hourly_reactive_import_energy";
                 "Cumulative_hourly_reactive_export_energy" ]}.

(** The shape of a reading decoded from [data]: a time stamp, the field set
    of the record type, and each numeric field the unsigned big-endian
    integer of the bytes at its fixed place (Effect at hexadecimal offset
    66-74, bytes 33-36, for ['01'] and at 140-148, bytes 70-73, otherwise;
    the counters at 228, 238, 248 and 258, bytes 114, 119, 124 and 129). *)
Definition reading_shape (data : list byte) (r : Reading) : Prop :=
  (exists t, r !! "time_stamp" = Some (VTime t))
  /\ (pkt_type_of (hex_upper data) = lit "01" ->
      dom r = fields_01
      /\ r !! "Effect" = Some (VInt (be_int (slice 33 37 data))))
  /\ (pkt_type_of (hex_upper data) = lit "09" ->
      dom r = fields_09
      /\ r !! "Effect" = Some (VInt (be_int (slice 70 74 data))))
  /\ (pkt_type_of (hex_upper data) = lit "0E" ->
      dom r = fields_0E
      /\ r !! "Effect" = Some (VInt (be_int (slice 70 74 data)))
      /\ r !! "Cumulative_hourly_active_import_energy"
         = Some (VInt (be_int (slice 114 118 data)))
      /\ r !! "Cumulative_hourly_active_export_energy"
         = Some (VInt (be_int (slice 119 123 data)))
      /\ r !! "Cumulative_hourly_reactive_import_energy"
         = Some (VInt (be_int (slice 124 128 data)))
      /\ r !! "Cumulative_hourly_reactive_export_energy"
         = Some (VInt (be_int (slice 129 133 data)))).

(** The rest of the [try] block of [decode_kaifa], once the data-type tag
    and the time stamp are through: the branches on the record type. *)
Definition decode_kaifa_record (t : datetime) (pkt_type txt_buf : str) : W (option Reading) :=
  let res : Reading := <["time_stamp" := VTime t]> ∅ in
  if decide (pkt_type = lit "01") then
    let* effect := W_lift (int16 (slice 2 10 txt_buf)) in
    let res := <["Effect" := VInt effect]> res in
    W_ret (Some res)
  else if decide (pkt_type ∈ [lit "09"; lit "0E"]) then
    let* b := W_lift (b16decode (slice 4 18 txt_buf)) in
    let* v := W_lift (utf8_decode b) in
    let res := <["Version identifier" := VStr v]> res in
    let txt_buf := slice_from 18 txt_buf in
    let* b := W_lift (b16decode (slice 4 36 txt_buf)) in
    let* v := W_lift (utf8_decode b) in
    let res := <["Meter-ID" := VStr v]> res in
    let txt_buf := slice_from 36 txt_buf in
    let* b := W_lift (b16decode (slice 4 20 txt_buf)) in
    let* v := W_lift (utf8_decode b) in
    let res := <["Meter type" := VStr v]> res in
    let txt_buf := slice_from 20 txt_buf in
    let* effect := W_lift (int16 (slice 2 10 txt_buf)) in
    let res := <["Effect" := VInt effect]> res in
    if decide (pkt_type = lit "0E") then
      let txt_buf := slice_from 10 txt_buf in
      let txt_buf := slice_from 78 txt_buf in
      let* n := W_lift (int16 (slice 2 10 txt_buf)) in
      let res := <["Cumulative_hourly_active_import_energy" := VInt n]> res in
      let txt_buf := slice_from 10 txt_buf in
      let* n := W_lift (int16 (slice 2 10 txt_buf)) in
      let res := <["Cumulative_hourly_active_export_energy" := VInt n]> res in
      let txt_buf := slice_from 10 txt_buf in
      let* n := W_lift (int16 (slice 2 10 txt_buf)) in
      let res := <["Cumulative_hourly_reactive_import_energy" := VInt n]> res in
      let txt_buf := slice_from 10 txt_buf in
      let* n := W_lift (int16 (slice 2 10 txt_buf)) in
      let res := <["Cumulative_hourly_reactive_export_energy" := VInt n]> res in
      W_ret (Some res)
    else W_ret (Some res)
  else
    W_log (Log WARNING "Unknown type %s" [AStr pkt_type]);; W_ret None.

(** ** The pattern of [strptime] *)

(** Captures come on top of those already made. *)
Definition add_caps (caps : captures) : captures * nat * str -> captures * nat * str :=
  fun '(c, n, x) => (c ++ caps, n, x).

(** A year of four digits, formatted, matches [%Y] whole and reads back. *)
Definition year_ok (y : Z) : bool :=
  bool_decide (head (rmatch re_Y (format_02d y) [])
               = Some ([("Y"%string, format_02d y)], 4%nat, []))
  && (int10 (format_02d y) =? y).

(** ** Traces and managers *)

(** The callbacks awaited in a trace, with their argument, in order. *)
Definition calls_of (t : trace) : list (callback * option Reading) :=
  omap (fun e => match e with ECall cb arg => Some (cb, arg) | _ => None end) t.

(** The values assigned to [self._state] along a trace. *)
Definition states_of (t : trace) : list State :=
  omap (fun e => match e with EState st => Some st | _ => None end) t.

(** Callbacks that, awaited on the reading [d], return normally, leave the
    subscriber list as it is and await no callback themselves. *)
Definition returns_quietly (await_callback : awaiting) (d : option Reading) : Prop :=
  forall cb m, exists t m',
    await_callback cb d m = (t, m', Ret tt)
    /\ subscriptions m' = subscriptions m
    /\ calls_of t = [].

(** How often [cb] occurs in a list of callbacks. *)
Definition occurrences (cb : callback) (subs : list callback) : nat :=
  length (filter (fun x => x = cb) subs).

(** What the spec calls decoding the payload: the registry, the print and
    the dispatch, with no look at the check sum. *)
Definition process_payload (await_callback : awaiting)
    (fuel : nat) (m : SubscriptionManager) (payload : list byte)
  : trace * SubscriptionManager * outcome unit :=
  match decode m (hex_upper payload) with
  | (t, m', Raise e) => (t, m', Done (Raise e))
  | (t, m', Ret decoded_data) =>
      let '(t', m'', r) := dispatch await_callback fuel (Some decoded_data) m' in
      (t ++ [EPrintDecoded decoded_data] ++ t', m'', r)
  end.

(** The way a connection attempt ends: the transport is closed, the state is
    set to Stopped, and [retry], called in that state, schedules [start] 15
    seconds on (marking the manager Starting meanwhile); the coroutine is
    finished. *)
Definition ends_connection (r : trace * SubscriptionManager * run_status) : Prop :=
  exists t0 m_stopped,
    r = (t0 ++ [EClose; elog DEBUG "Reconnecting" []; EState STATE_STOPPED]
            ++ (retry m_stopped).1 ++ [elog DEBUG "Closing running task." []],
         (retry m_stopped).2, Finished)
    /\ websocket m_stopped = None
    /\ _state m_stopped = Some STATE_STOPPED
    /\ websocket (retry m_stopped).2 = None
    /\ _retry_timer (retry m_stopped).2 = Some (Timer 15)
    /\ ECallLater 15 ∈ (retry m_stopped).1.

(** The trace of one answered idle probe. *)
Definition idle_probe : trace :=
  [elog DEBUG "No websocket data in 30 seconds, checking the connection." []; EPing].

(** What the loop leaves behind when it gives up on a silent peer. *)
Definition gave_up (m : SubscriptionManager) : SubscriptionManager :=
  set_is_running false
    (if _show_connection_error m then set_show_connection_error false m else m).

(** ** Sample frames and managers

    [payload_list1] is a list-1 frame in the layout of Kaifa meters (power only);
    the others are built on the same header.  Every trailer is the X-25
    check sum of its payload. *)

Module Samples.

Definition header (n : Z) : list Z :=
  [0xA0; n; 0x01; 0x02; 0x01; 0x10; 0x5A; 0x87; 0xE6; 0xE7; 0x00; 0x0F; 0x40; 0x00; 0x00; 0x00].

(** 14 September 2017, 19:31:02, with the month byte left open. *)
Definition clock (month : Z) : list Z :=
  [0x09; 0x0C; 0x07; 0xE1; month; 0x0E; 0x04; 0x13; 0x1F; 0x02; 0xFF; 0x80; 0x00; 0x00].

Definition identity : list Z :=
  [0x09; 0x07; 0x4B; 0x46; 0x4D; 0x5F; 0x30; 0x30; 0x31;
   0x09; 0x10; 0x36; 0x39; 0x37; 0x30; 0x36; 0x33; 0x31; 0x34;
               0x30; 0x31; 0x37; 0x35; 0x33; 0x39; 0x38; 0x35;
   0x09; 0x08; 0x4D; 0x41; 0x31; 0x30; 0x35; 0x48; 0x32; 0x45].

Definition u32 (a b c d : Z) : list Z := [0x06; a; b; c; d].

Definition quantities : list Z :=
  u32 0 0 0 0 ++ u32 0 0 0 0 ++ u32 0 0 0 0x20 ++ u32 0 0 0x05 0x64 ++ u32 0 0 0x09 0x46.

Definition frame (payload : list Z) : list byte := bytes_of ([0x7E] ++ payload ++ [0x7E]).

(** Power only, 920 W. *)
Definition payload_list1 : list Z :=
  header 0x27 ++ clock 0x09 ++ [0x02; 0x01] ++ u32 0 0 0x03 0x98 ++ [0xAB; 0xAD].
(** The same with month 13. *)
Definition payload_month13 : list Z :=
  header 0x27 ++ clock 0x0D ++ [0x02; 0x01] ++ u32 0 0 0x03 0x98 ++ [0x97; 0xED].
(** The same with the year bytes [00 11]: the digits of day, month and year
    are read as 1 April 917. *)
Definition payload_year17 : list Z :=
  header 0x27
    ++ [0x09; 0x0C; 0x00; 0x11; 0x09; 0x0E; 0x04; 0x13; 0x1F; 0x02; 0xFF; 0x80; 0x00; 0x00]
    ++ [0x02; 0x01] ++ u32 0 0 0x03 0x98 ++ [0xE7; 0x10].
(** The same with a record type that is not known. *)
Definition payload_type05 : list Z :=
  header 0x27 ++ clock 0x09 ++ [0x02; 0x05] ++ u32 0 0 0x03 0x98 ++ [0x07; 0xBD].
(** Identity and power. *)
Definition payload_list2 : list Z :=
  header 0x65 ++ clock 0x09 ++ [0x02; 0x09] ++ identity ++ u32 0 0 0x03 0x96
    ++ quantities ++ [0x29; 0x00].
(** Identity, power and the four hourly counters. *)
Definition payload_list3 : list Z :=
  header 0x87 ++ clock 0x09 ++ [0x02; 0x0E] ++ identity ++ u32 0 0 0x03 0xFE
    ++ quantities ++ clock 0x09
    ++ u32 0 0x02 0xBF 0x69 ++ u32 0 0 0 0 ++ u32 0 0 0 0xF7 ++ u32 0 0 0 0x3F
    ++ [0xEB; 0x57].
(** Nine bytes of payload: a header cut short, with a good check sum. *)
Definition payload_short : list Z :=
  [0xA0; 0x09; 0x01; 0x02; 0x01; 0x10; 0x00; 0xE2; 0xB1].

Definition stamp : datetime := mk_datetime 2017 9 14 19 31 2.
Definition KFM_001 : list Z := [75; 70; 77; 95; 48; 48; 49].
Definition meter_id : list Z := [54; 57; 55; 48; 54; 51; 49; 52; 48; 49; 55; 53; 51; 57; 56; 53].
Definition MA105H2E : list Z := [77; 65; 49; 48; 53; 72; 50; 69].

End Samples.

(** The list-1 frame with the second byte of its trailer zeroed. *)
Definition frame_bad_crc : list byte :=
  Samples.frame (take 38 Samples.payload_list1 ++ [0x00]).

(** Subscribers whose callbacks return at once and leave the manager alone. *)
Definition quiet : awaiting := fun _ _ m => ([], m, Ret tt).

(** Subscribers of which the first unsubscribes itself when it is awaited. *)
Definition first_leaves : awaiting :=
  fun cb _ m =>
    if decide (cb = 1%nat) then ([], unsubscribe 1%nat m, Ret tt) else ([], m, Ret tt).


(** A manager that has stopped. *)
Definition stopped : SubscriptionManager := set_state STATE_STOPPED __init__.

(** A manager in the middle of a connection, with one subscriber. *)
Definition connected : SubscriptionManager :=
  set_websocket (Some WebSocket) (set_state STATE_RUNNING (subscribe 1%nat __init__)).

(** The same after a message: [is_running] is true. *)
Definition receiving : SubscriptionManager := set_is_running true connected.

(** A text message. *)
Definition text_hello : WSMessage := mk_msg TEXT (Some (PStr (lit "hello"))).

(** ** Vocabulary of the further properties *)

(** Calls of [subscribe] and [unsubscribe], in the order they are awaited. *)
Inductive sub_op : Set :=
| OpSubscribe (cb : callback)
| OpUnsubscribe (cb : callback).

Definition apply_sub_op (m : SubscriptionManager) (op : sub_op) : SubscriptionManager :=
  match op with
  | OpSubscribe cb => subscribe cb m
  | OpUnsubscribe cb => unsubscribe cb m
  end.

Definition apply_sub_ops (ops : list sub_op) (m : SubscriptionManager) : SubscriptionManager :=
  foldl apply_sub_op m ops.

(** How many timers a trace schedules, and how many tasks it creates. *)
Definition timers_scheduled (t : trace) : nat :=
  length (omap (fun e => match e with ECallLater d => Some d | _ => None end) t).
Definition tasks_created (t : trace) : nat :=
  length (omap (fun e => match e with ECreateTask => Some tt | _ => None end) t).

(** How many pings a trace sends. *)
Definition pings_sent (t : trace) : nat :=
  length (omap (fun e => match e with EPing => Some tt | _ => None end) t).




(** Subscribers of which the second raises. *)
Definition second_raises : awaiting :=
  fun cb _ m => if decide (cb = 2%nat) then ([], m, Raise OtherError) else ([], m, Ret tt).

(** * Properties *)

(** ** Slices of the hexadecimal rendering *)

Lemma slice_from_slice_from {A} (a b : nat) (x : list A) :
  slice_from a (slice_from b x) = slice_from (b + a) x.
Proof. unfold slice_from. apply drop_drop. Qed.

Lemma slice_slice_from {A} (i j a : nat) (x : list A) :
  slice i j (slice_from a x) = slice (a + i) (a + j) x.
Proof.
  unfold slice, slice_from. rewrite drop_drop. f_equal. lia.
Qed.

Lemma hex_upper_cons (b : byte) (data : list byte) :
  hex_upper (b :: data) = upper (format_02x b) ++ hex_upper data.
Proof. reflexivity. Qed.

Lemma hex_upper_length (data : list byte) :
  length (hex_upper data) = (2 * length data)%nat.
Proof.
  induction data as [|b data IH]; [done|].
  rewrite hex_upper_cons, length_app, IH. cbn. lia.
Qed.

Lemma hex_upper_drop (n : nat) (data : list byte) :
  drop (2 * n) (hex_upper data) = hex_upper (drop n data).
Proof.
  revert data. induction n as [|n IH]; intros data; [done|].
  destruct data as [|b data]; [done|].
  replace (2 * S n)%nat with (S (S (2 * n))) by lia.
  rewrite hex_upper_cons. cbn [upper format_02x map app drop]. apply IH.
Qed.

Lemma hex_upper_take (n : nat) (data : list byte) :
  take (2 * n) (hex_upper data) = hex_upper (take n data).
Proof.
  revert data. induction n as [|n IH]; intros data; [done|].
  destruct data as [|b data]; [done|].
  replace (2 * S n)%nat with (S (S (2 * n))) by lia.
  rewrite hex_upper_cons. cbn [upper format_02x map app take].
  rewrite IH. reflexivity.
Qed.

(** A slice of the token stream at even offsets is the rendering of the
    corresponding slice of bytes. *)
Lemma hex_upper_slice (i j : nat) (data : list byte) :
  slice (2 * i) (2 * j) (hex_upper data) = hex_upper (slice i j data).
Proof.
  unfold slice. rewrite hex_upper_drop.
  replace (2 * j - 2 * i)%nat with (2 * (j - i))%nat by lia.
  apply hex_upper_take.
Qed.

Lemma hex_upper_slice_from (i : nat) (data : list byte) :
  slice_from (2 * i) (hex_upper data) = hex_upper (slice_from i data).
Proof. apply hex_upper_drop. Qed.

(** ** [int(_, 16)] reads the rendering back as a big-endian integer *)

Lemma hexval_hex_digit (n : N) :
  (n < 16)%N -> hexval (upper_char (hex_lower n)) = Some (Z.of_N n).
Proof.
  intros H.
  assert (Hc : n ∈ (N.of_nat <$> seq 0 16)).
  { apply list_elem_of_fmap. exists (N.to_nat n). split; [lia|].
    apply elem_of_seq. lia. }
  cbn in Hc. repeat (apply elem_of_cons in Hc as [->|Hc]; [reflexivity|]).
  by apply elem_of_nil in Hc.
Qed.

Lemma byte_to_N_bound (b : byte) : (Byte.to_N b < 256)%N.
Proof. pose proof (Byte.to_N_bounded b). lia. Qed.

Lemma hex_acc_byte (acc : Z) (b : byte) (x : str) :
  hex_acc acc (upper (format_02x b) ++ x) = hex_acc (acc * 256 + byte_val b) x.
Proof.
  pose proof (byte_to_N_bound b) as Hb.
  unfold format_02x, upper, byte_val. cbn [map app hex_acc].
  rewrite !hexval_hex_digit.
  - f_equal. rewrite N2Z.inj_div, N2Z.inj_mod.
    pose proof (Z.div_mod (Z.of_N (Byte.to_N b)) 16). lia.
  - apply N.mod_lt. lia.
  - apply N.Div0.div_lt_upper_bound. lia.
Qed.

Lemma hex_acc_hex_upper (acc : Z) (data : list byte) :
  hex_acc acc (hex_upper data) = Some (be_acc acc data).
Proof.
  revert acc. induction data as [|b data IH]; intros acc; [done|].
  rewrite hex_upper_cons, hex_acc_byte, IH. reflexivity.
Qed.

Lemma int16_hex_upper (data : list byte) :
  int16 (hex_upper data) =
  match data with [] => Raise ValueError | _ => Ret (be_int data) end.
Proof.
  destruct data as [|b data]; [done|].
  unfold int16. rewrite hex_acc_hex_upper.
  rewrite hex_upper_cons. reflexivity.
Qed.

Lemma int16_hex_upper_Ret (data : list byte) (v : Z) :
  int16 (hex_upper data) = Ret v -> v = be_int data.
Proof.
  rewrite int16_hex_upper. destruct data; [done|]. by intros [= <-].
Qed.

Lemma be_acc_nonneg (data : list byte) (acc : Z) : 0 <= acc -> 0 <= be_acc acc data.
Proof.
  revert acc. induction data as [|b data IH]; intros acc Hacc; [done|].
  cbn. apply IH. unfold byte_val. lia.
Qed.

(** The reading is unsigned. *)
Lemma be_int_nonneg (data : list byte) : 0 <= be_int data.
Proof. by apply be_acc_nonneg. Qed.

Lemma hex_slice_even (i j : nat) (data : list byte) :
  Nat.even i = true -> Nat.even j = true ->
  slice i j (hex_upper data) = hex_upper (slice (Nat.div2 i) (Nat.div2 j) data).
Proof.
  intros Hi Hj. rewrite <- hex_upper_slice. f_equal.
  - pose proof (Nat.div2_odd i) as H. rewrite <- Nat.negb_even, Hi in H. cbn in H. lia.
  - pose proof (Nat.div2_odd j) as H. rewrite <- Nat.negb_even, Hj in H. cbn in H. lia.
Qed.

Lemma hex_slice_from_even (i : nat) (data : list byte) :
  Nat.even i = true ->
  slice_from i (hex_upper data) = hex_upper (slice_from (Nat.div2 i) data).
Proof.
  intros Hi. rewrite <- hex_upper_slice_from. f_equal.
  pose proof (Nat.div2_odd i) as H. rewrite <- Nat.negb_even, Hi in H. cbn in H. lia.
Qed.

Lemma int16_slice_Ret (i j : nat) (data : list byte) :
  Nat.even i = true -> Nat.even j = true -> (i < j)%nat ->
  (Nat.div2 i < length data)%nat ->
  int16 (slice i j (hex_upper data)) = Ret (be_int (slice (Nat.div2 i) (Nat.div2 j) data)).
Proof.
  intros Hi Hj Hij Hlen.
  rewrite hex_slice_even by done. rewrite int16_hex_upper.
  assert (Hnz : length (slice (Nat.div2 i) (Nat.div2 j) data) <> 0%nat).
  { unfold slice. rewrite length_take, length_drop.
    pose proof (Nat.div2_odd i) as Ei. rewrite <- Nat.negb_even, Hi in Ei.
    pose proof (Nat.div2_odd j) as Ej. rewrite <- Nat.negb_even, Hj in Ej.
    cbn in Ei, Ej. lia. }
  by destruct (slice (Nat.div2 i) (Nat.div2 j) data).
Qed.

(** ** [b16decode] gives the bytes of a rendering back *)

Lemma byte_of_Z_val (b : byte) : byte_of_Z (byte_val b) = b.
Proof. unfold byte_of_Z, byte_val. rewrite N2Z.id, Byte.of_to_N. reflexivity. Qed.

Lemma is_b16_digit_hex (n : N) :
  (n < 16)%N -> is_b16_digit (upper_char (hex_lower n)) = true
                /\ is_ascii (upper_char (hex_lower n)) = true.
Proof.
  intros H.
  assert (Hc : n ∈ (N.of_nat <$> seq 0 16)).
  { apply list_elem_of_fmap. exists (N.to_nat n). split; [lia|].
    apply elem_of_seq. lia. }
  cbn in Hc. repeat (apply elem_of_cons in Hc as [->|Hc]; [by split|]).
  by apply elem_of_nil in Hc.
Qed.

Lemma hex_digits_of_byte (b : byte) :
  (Byte.to_N b / 16 < 16)%N /\ (Byte.to_N b mod 16 < 16)%N.
Proof.
  pose proof (byte_to_N_bound b). split.
  - apply N.Div0.div_lt_upper_bound. lia.
  - apply N.mod_lt. lia.
Qed.

Lemma forallb_hex_upper (data : list byte) :
  forallb is_ascii (hex_upper data) = true /\ forallb is_b16_digit (hex_upper data) = true.
Proof.
  induction data as [|b data [IH1 IH2]]; [done|].
  destruct (hex_digits_of_byte b) as [Hh Hl].
  destruct (is_b16_digit_hex _ Hh) as [H1 H2], (is_b16_digit_hex _ Hl) as [H3 H4].
  rewrite hex_upper_cons. unfold upper, format_02x. cbn [map app forallb].
  rewrite H1, H2, H3, H4, IH1, IH2. done.
Qed.

Lemma unhexlify_hex_upper (data : list byte) : unhexlify (hex_upper data) = Ret data.
Proof.
  induction data as [|b data IH]; [done|].
  destruct (hex_digits_of_byte b) as [Hh Hl].
  rewrite hex_upper_cons. unfold upper, format_02x. cbn [map app unhexlify].
  rewrite !hexval_hex_digit by done. rewrite IH. cbn.
  replace (Z.of_N (Byte.to_N b / 16) * 16 + Z.of_N (Byte.to_N b mod 16)) with (byte_val b).
  - by rewrite byte_of_Z_val.
  - unfold byte_val. rewrite N2Z.inj_div, N2Z.inj_mod.
    pose proof (Z.div_mod (Z.of_N (Byte.to_N b)) 16). lia.
Qed.

Lemma b16decode_hex_upper (data : list byte) : b16decode (hex_upper data) = Ret data.
Proof.
  unfold b16decode. destruct (forallb_hex_upper data) as [-> ->]. cbn.
  apply unhexlify_hex_upper.
Qed.

(** ** The check sum is the bit-wise CRC *)

Lemma X25_POLY_reflects : crcmod._bitrev (Z.land 0x11021 0xFFFF) 16 = X25_POLY.
Proof. reflexivity. Qed.

Lemma crc_table_eq : crcmod._mkTable_r 0x11021 16 = crc_table.
Proof. vm_compute. reflexivity. Qed.

Lemma crc_table_entries_ok : forallb crc_table_entry_ok (seqZ 0 256) = true.
Proof. vm_compute. reflexivity. Qed.

Lemma high_bytes_ok : forallb high_byte_ok (seqZ 0 256) = true.
Proof. vm_compute. reflexivity. Qed.

Lemma crc_table_entry (i : Z) :
  0 <= i < 256 ->
  crc_table !!! Z.to_nat i = Nat.iter 8 (crc16_bit X25_POLY) i
  /\ 0 <= crc_table !!! Z.to_nat i < 65536.
Proof.
  intros H. pose proof crc_table_entries_ok as Hall. rewrite forallb_forall in Hall.
  specialize (Hall i). unfold crc_table_entry_ok in Hall.
  rewrite !andb_true_iff in Hall. destruct Hall as [[H1 H2] H3].
  { apply list_elem_of_In, elem_of_seqZ. lia. }
  apply Z.eqb_eq in H1. apply Z.ltb_lt in H2. apply Z.leb_le in H3. lia.
Qed.

Lemma high_byte (hi i : Z) :
  0 <= hi < 256 -> 0 <= i < 256 ->
  Nat.iter 8 (crc16_bit X25_POLY) (Z.lxor (hi * 256) i)
  = Z.lxor (Nat.iter 8 (crc16_bit X25_POLY) i) hi.
Proof.
  intros Hh Hi. pose proof high_bytes_ok as Hall. rewrite forallb_forall in Hall.
  assert (Hrow : high_byte_ok i = true).
  { apply Hall. apply list_elem_of_In, elem_of_seqZ. lia. }
  unfold high_byte_ok in Hrow. rewrite forallb_forall in Hrow.
  apply Z.eqb_eq, Hrow. apply list_elem_of_In, elem_of_seqZ. lia.
Qed.

Lemma split_low_byte (crc : Z) :
  crc = Z.lxor (Z.shiftr crc 8 * 256) (Z.land crc 255).
Proof.
  change 256 with (2 ^ 8). rewrite <- Z.shiftl_mul_pow2 by lia.
  apply Z.bits_inj'. intros n Hn.
  rewrite Z.lxor_spec, Z.land_spec. change 255 with (Z.ones 8).
  destruct (Z.lt_ge_cases n 8) as [Hlt|Hge].
  - rewrite Z.shiftl_spec_low by lia. rewrite Z.ones_spec_low by lia.
    by rewrite andb_true_r.
  - rewrite Z.shiftl_spec by lia. rewrite Z.shiftr_spec by lia.
    replace (n - 8 + 8) with n by lia. rewrite Z.ones_spec_high by lia.
    by rewrite andb_false_r, xorb_false_r.
Qed.

Lemma lxor_bound (n a b : Z) :
  0 <= n -> 0 <= a < 2 ^ n -> 0 <= b < 2 ^ n -> 0 <= Z.lxor a b < 2 ^ n.
Proof.
  intros Hn Ha Hb.
  assert (Hnn : 0 <= Z.lxor a b) by (apply Z.lxor_nonneg; lia).
  split; [exact Hnn|].
  destruct (Z.eq_dec (Z.lxor a b) 0) as [->|Hz]; [lia|].
  assert (Hpos : 0 < n).
  { destruct (Z.eq_dec n 0) as [->|?]; [|lia].
    assert (a = 0) by lia. assert (b = 0) by lia. by subst. }
  apply Z.log2_lt_pow2; [lia|].
  pose proof (Z.log2_lxor a b ltac:(lia) ltac:(lia)) as Hl.
  assert (Z.log2 a < n).
  { destruct (Z.eq_dec a 0) as [->|?]; [cbn; lia|]. apply Z.log2_lt_pow2; lia. }
  assert (Z.log2 b < n).
  { destruct (Z.eq_dec b 0) as [->|?]; [cbn; lia|]. apply Z.log2_lt_pow2; lia. }
  lia.
Qed.

Lemma byte_val_range (x : byte) : 0 <= byte_val x < 256.
Proof. unfold byte_val. pose proof (byte_to_N_bound x). lia. Qed.

(** One step of the table-driven loop is eight steps of the bit-wise one. *)
Lemma crc_table_step (crc : Z) (x : byte) :
  0 <= crc < 65536 ->
  let crc' := Z.lxor (crc_table !!! Z.to_nat (Z.lxor (byte_val x) (Z.land crc 255)))
                     (Z.shiftr crc 8) in
  crc' = crc16_byte X25_POLY crc x /\ 0 <= crc' < 65536.
Proof.
  intros Hc crc'. subst crc'.
  pose proof (byte_val_range x) as Hx.
  assert (Hlo : 0 <= Z.land crc 255 < 256).
  { change 255 with (Z.ones 8). rewrite Z.land_ones by lia.
    apply Z.mod_pos_bound. lia. }
  assert (Hhi : 0 <= Z.shiftr crc 8 < 256).
  { rewrite Z.shiftr_div_pow2 by lia. change (2 ^ 8) with 256.
    split; [apply Z.div_pos; lia|apply Z.div_lt_upper_bound; lia]. }
  assert (Hi : 0 <= Z.lxor (byte_val x) (Z.land crc 255) < 256)
    by (apply (lxor_bound 8); lia).
  destruct (crc_table_entry _ Hi) as [He Hr]. split.
  - rewrite He. rewrite <- high_byte by lia.
    unfold crc16_byte. f_equal.
    rewrite (split_low_byte crc) at 3.
    rewrite (Z.lxor_comm (byte_val x)). by rewrite Z.lxor_assoc.
  - apply (lxor_bound 16); lia.
Qed.

(** The table-driven routine of [crcmod] computes the bit-wise CRC, and its
    value has 16 bits. *)
Lemma crc_is_bitwise (data : list byte) :
  _crc data = crc16_reflected X25_POLY 0xFFFF data /\ 0 <= _crc data < 65536.
Proof.
  unfold _crc, crcmod.mkCrcFun_r16. cbn [Z.eqb]. rewrite crc_table_eq.
  unfold crcmod._crc16r, crc16_reflected. change (Z.land 65535 65535) with 65535.
  assert (H : 0 <= 65535 < 65536) by lia. revert H. generalize 65535.
  induction data as [|x data IH]; intros crc Hc; [done|].
  cbn [fold_left]. destruct (crc_table_step crc x Hc) as [<- Hr]. by apply IH.
Qed.

(** XOR with 0xFFFF inverts the 16 bits. *)
Lemma lxor_ones_16 (c : Z) : 0 <= c < 65536 -> Z.lxor c 0xffff = 65535 - c.
Proof.
  intros Hc. change 0xffff with (Z.ones 16). change 65535 with (Z.ones 16).
  assert (Hdisj : Z.land c (Z.lxor c (Z.ones 16)) = 0).
  { apply Z.bits_inj'. intros n Hn.
    rewrite Z.land_spec, Z.lxor_spec, Z.bits_0.
    destruct (Z.lt_ge_cases n 16) as [Hlt|Hge].
    - rewrite Z.ones_spec_low by lia. by destruct (Z.testbit c n).
    - rewrite (Z.bits_above_log2 c n); [done|lia|].
      destruct (Z.eq_dec c 0) as [->|Hnz]; [cbn; lia|].
      assert (Z.log2 c < 16) by (apply Z.log2_lt_pow2; lia). lia. }
  pose proof (Z.add_nocarry_lxor _ _ Hdisj) as Hadd.
  rewrite <- Z.lxor_assoc in Hadd.
  rewrite Z.lxor_nilpotent, Z.lxor_0_l in Hadd. lia.
Qed.

Lemma crc_computed_inverted (data : list byte) :
  crc_computed data = 65535 - crc16_reflected X25_POLY 0xFFFF (slice_to_neg 2 data).
Proof.
  unfold crc_computed. destruct (crc_is_bitwise (slice_to_neg 2 data)) as [He Hr].
  rewrite lxor_ones_16 by done. by rewrite He.
Qed.

(** The check sum is CRC-16/X-25: the check value of ["123456789"]. *)
Example crc_check_value :
  crc_computed (bytes_of [49; 50; 51; 52; 53; 54; 55; 56; 57] ++ bytes_of [0; 0]) = 0x906E.
Proof. vm_compute. reflexivity. Qed.

(** ** [strptime] on a date and time of the calendar *)

Lemma rmatch_head_seq (r1 r2 : regex) (x x1 x2 : str) (caps c1 c2 : captures) (n1 n2 : nat) :
  head (rmatch r1 x caps) = Some (c1, n1, x1) ->
  head (rmatch r2 x1 c1) = Some (c2, n2, x2) ->
  head (rmatch (Seq r1 r2) x caps) = Some (c2, (n1 + n2)%nat, x2).
Proof.
  cbn [rmatch]. intros H1 H2.
  destruct (rmatch r1 x caps) as [|h1 tl1]; [done|]. injection H1 as ->.
  cbn [flat_map]. destruct (rmatch r2 x1 c1) as [|h2 tl2]; [done|]. injection H2 as ->.
  reflexivity.
Qed.

Ltac enum v lo n :=
  let H := fresh "Hin" in
  assert (H : v ∈ seqZ lo n) by (apply elem_of_seqZ; lia);
  cbn in H;
  repeat (apply elem_of_cons in H as [->|H]; [reflexivity|]);
  by apply elem_of_nil in H.

Lemma match_S (v : Z) (rest : str) (caps : captures) :
  0 <= v <= 59 ->
  head (rmatch re_S (format_02d v ++ rest) caps)
  = Some (("S"%string, format_02d v) :: caps, 2%nat, rest).
Proof. intros H. enum v 0 60. Qed.

Lemma match_M (v : Z) (rest : str) (caps : captures) :
  0 <= v <= 59 ->
  head (rmatch re_M (format_02d v ++ rest) caps)
  = Some (("M"%string, format_02d v) :: caps, 2%nat, rest).
Proof. intros H. enum v 0 60. Qed.

Lemma match_H (v : Z) (rest : str) (caps : captures) :
  0 <= v <= 23 ->
  head (rmatch re_H (format_02d v ++ rest) caps)
  = Some (("H"%string, format_02d v) :: caps, 2%nat, rest).
Proof. intros H. enum v 0 24. Qed.

Lemma match_d (v : Z) (rest : str) (caps : captures) :
  1 <= v <= 31 ->
  head (rmatch re_d (format_02d v ++ rest) caps)
  = Some (("d"%string, format_02d v) :: caps, 2%nat, rest).
Proof. intros H. enum v 1 31. Qed.

Lemma match_m (v : Z) (rest : str) (caps : captures) :
  1 <= v <= 12 ->
  head (rmatch re_m (format_02d v ++ rest) caps)
  = Some (("m"%string, format_02d v) :: caps, 2%nat, rest).
Proof. intros H. enum v 1 12. Qed.

Lemma int10_format_02d_small (v : Z) : 0 <= v <= 59 -> int10 (format_02d v) = v.
Proof. intros H. enum v 0 60. Qed.

Lemma rmatch_caps (r : regex) (x : str) (caps : captures) :
  rmatch r x caps = add_caps caps <$> rmatch r x [].
Proof.
  revert x caps. induction r as [c|lo hi|r1 IH1 r2 IH2|r1 IH1 r2 IH2|name r IH]; intros x caps.
  - destruct x as [|c' x]; [done|]. cbn. by destruct (Ascii.eqb c c').
  - destruct x as [|c' x]; [done|]. cbn. by case_match.
  - cbn [rmatch]. rewrite (IH1 x caps).
    induction (rmatch r1 x []) as [|[[c1 n1] x1] l IHl]; [done|].
    cbn [fmap list_fmap flat_map add_caps]. rewrite fmap_app. f_equal; [|exact IHl].
    rewrite (IH2 x1 (c1 ++ caps)), (IH2 x1 c1).
    rewrite <- !list_fmap_compose. apply list_fmap_ext.
    intros _ [[c2 n2] x2] _. cbn. by rewrite app_assoc.
  - cbn [rmatch]. rewrite fmap_app. by rewrite <- IH1, <- IH2.
  - cbn [rmatch]. rewrite (IH x caps). rewrite <- !list_fmap_compose.
    apply list_fmap_ext. by intros _ [[c1 n1] x1] _.
Qed.

Lemma years_ok : forallb year_ok (seqZ 1000 9000) = true.
Proof. vm_compute. reflexivity. Qed.

Lemma year_ok_range (y : Z) : 1000 <= y <= 9999 -> year_ok y = true.
Proof.
  intros H. pose proof years_ok as Hall. rewrite forallb_forall in Hall.
  apply Hall. apply list_elem_of_In, elem_of_seqZ. lia.
Qed.

Lemma match_Y (y : Z) (caps : captures) :
  1000 <= y <= 9999 ->
  head (rmatch re_Y (format_02d y) caps) = Some (("Y"%string, format_02d y) :: caps, 4%nat, []).
Proof.
  intros H. apply year_ok_range in H. unfold year_ok in H.
  apply andb_true_iff in H as [H _]. apply bool_decide_eq_true in H.
  rewrite rmatch_caps. destruct (rmatch re_Y (format_02d y) []) as [|h tl]; [done|].
  injection H as ->. reflexivity.
Qed.

Lemma int10_format_02d_year (y : Z) : 1000 <= y <= 9999 -> int10 (format_02d y) = y.
Proof.
  intros H. apply year_ok_range in H. unfold year_ok in H.
  apply andb_true_iff in H as [_ H]. by apply Z.eqb_eq in H.
Qed.

Lemma match_underscore (rest : str) (caps : captures) :
  head (rmatch (Lit "_") (lit "_" ++ rest) caps) = Some (caps, 1%nat, rest).
Proof. reflexivity. Qed.

(** A date and time within the calendar parses to itself. *)
Lemma strptime_valid (y mo d H M S : Z) :
  1000 <= y <= 9999 -> 1 <= mo <= 12 -> 1 <= d <= days_in_month y mo ->
  0 <= H <= 23 -> 0 <= M <= 59 -> 0 <= S <= 59 ->
  strptime (format_02d S ++ format_02d M ++ format_02d H ++ lit "_"
              ++ format_02d d ++ format_02d mo ++ format_02d y)
  = Ret (mk_datetime y mo d H M S).
Proof.
  intros Hy Hmo Hd HH HM HS.
  assert (Hd31 : 1 <= d <= 31).
  { unfold days_in_month in Hd. repeat case_match; lia. }
  unfold strptime, re_match, format_SMH_dmY, seqs. cbn [foldr].
  erewrite rmatch_head_seq; [| apply match_S; lia |].
  2:{ eapply rmatch_head_seq; [apply match_M; lia|].
      eapply rmatch_head_seq; [apply match_H; lia|].
      eapply rmatch_head_seq; [apply match_underscore|].
      eapply rmatch_head_seq; [apply match_d; lia|].
      eapply rmatch_head_seq; [apply match_m; lia|].
      apply match_Y; lia. }
  cbn [fmap option_fmap option_map group String.eqb Ascii.eqb Bool.eqb].
  rewrite int10_format_02d_year by lia.
  rewrite !int10_format_02d_small by lia.
  unfold datetime_new, in_range.
  repeat match goal with
         | |- context [?a <=? ?b] =>
             replace (a <=? b) with true by (symmetry; apply Z.leb_le; lia)
         end.
  reflexivity.
Qed.

(** ** Inversion of the logging monad *)

Lemma W_bind_lift_ret {A B} (a : A) (k : A -> W B) : W_bind (W_lift (Ret a)) k = k a.
Proof. unfold W_bind, W_lift. by destruct (k a). Qed.

Lemma W_bind_lift_Ret {A B} (r : result A) (k : A -> W B) (l : list log_record) (b : B) :
  W_bind (W_lift r) k = (l, Ret b) -> exists a, r = Ret a /\ k a = (l, Ret b).
Proof.
  destruct r as [a|e]; cbn; [|done].
  destruct (k a) as [l' r'] eqn:Hk. intros [= <- <-]. eauto.
Qed.

Lemma except_ValueError_Some (body : W (option Reading)) (l : list log_record) (r : Reading) :
  except_ValueError body = (l, Ret (Some r)) -> body = (l, Ret (Some r)).
Proof.
  destruct body as [l' [o|e]]; cbn; [done|].
  destruct (is_ValueError e); intros [=].
Qed.

(** The handler turns every [ValueError] of the body into "no result" and
    lets any other exception through. *)
Lemma except_ValueError_outcome (body : W (option Reading)) :
  (except_ValueError body).2 =
  match body.2 with
  | Raise e => if is_ValueError e then Ret None else Raise e
  | Ret o => Ret o
  end.
Proof.
  destruct body as [l [o|e]]; cbn; [done|]. by destruct (is_ValueError e).
Qed.

Ltac inv_bind H :=
  let a := fresh "v" in
  let Ha := fresh "Hv" in
  apply W_bind_lift_Ret in H as (a & Ha & H).

(** ** What a reading returned by [decode_kaifa_body] looks like *)

(** [buf] below is the token stream after the 16-byte header, as in the
    [try] block. *)
Lemma decode_kaifa_body_Some (buf : str) (l : list log_record) (r : Reading) :
  decode_kaifa_body buf = (l, Ret (Some r)) ->
  slice 28 30 buf = lit "02" /\
  exists t : datetime,
    (slice 30 32 buf = lit "01" /\
     exists effect, int16 (slice 34 42 buf) = Ret effect /\ r = reading_01 t effect)
    \/ (slice 30 32 buf = lit "09" /\
        exists version meter_id meter_type effect,
          int16 (slice 108 116 buf) = Ret effect /\
          r = reading_09 t version meter_id meter_type effect)
    \/ (slice 30 32 buf = lit "0E" /\
        exists version meter_id meter_type effect a_imp a_exp r_imp r_exp,
          int16 (slice 108 116 buf) = Ret effect /\
          int16 (slice 196 204 buf) = Ret a_imp /\
          int16 (slice 206 214 buf) = Ret a_exp /\
          int16 (slice 216 224 buf) = Ret r_imp /\
          int16 (slice 226 234 buf) = Ret r_exp /\
          r = reading_0E t version meter_id meter_type effect a_imp a_exp r_imp r_exp).
Proof.
  unfold decode_kaifa_body. intros H.
  rewrite !slice_from_slice_from, !slice_slice_from in H. cbn [Nat.add] in H.
  case_decide as Htag.
  { destruct buf; cbn in H; discriminate. }
  split; [exact Htag|].
  do 6 inv_bind H. inv_bind H. rename v5 into t. exists t.
  case_decide as H01.
  { left. split; [exact H01|]. inv_bind H. injection H as <- <-. eauto. }
  case_decide as H09; [|cbn in H; discriminate].
  do 7 inv_bind H.
  case_decide as H0E.
  - right; right. split; [exact H0E|].
    do 4 inv_bind H. injection H as <- <-.
    unfold reading_0E, reading_09. eauto 20.
  - right; left. split.
    + apply elem_of_cons in H09 as [?|H09]; [done|].
      apply elem_of_cons in H09 as [?|H09]; [done|]. by apply elem_of_nil in H09.
    + injection H as <- <-. unfold reading_09. eauto 10.
Qed.

(** ** The Kaifa decoder: validations *)

Lemma decode_kaifa_Some (buf : str) (l : list log_record) (r : Reading) :
  decode_kaifa buf = (l, Ret (Some r)) ->
  control_field_ok buf /\ length_field_ok buf /\
  decode_kaifa_body (slice_from 32 buf) = (l, Ret (Some r)).
Proof.
  unfold decode_kaifa. intros H.
  case_decide as Hc; [cbn in H; discriminate|].
  inv_bind H. case_decide as Hl; [cbn in H; discriminate|].
  apply except_ValueError_Some in H.
  split; [exact Hc|]. split; [by exists v|exact H].
Qed.

Lemma control_field_length (buf : str) : control_field_ok buf -> (12 <= length buf)%nat.
Proof.
  unfold control_field_ok, slice. intros H.
  apply (f_equal length) in H. rewrite length_take, length_drop in H.
  change (length (lit "10")) with 2%nat in H. lia.
Qed.

(** On a rendering of bytes the length field always parses once the control
    field is there: the conversion outside the [try] block cannot raise. *)
Lemma length_field_parses (data : list byte) :
  control_field_ok (hex_upper data) ->
  int16 (slice 2 4 (hex_upper data)) = Ret (be_int (slice 1 2 data)).
Proof.
  intros H. apply control_field_length in H. rewrite hex_upper_length in H.
  rewrite (hex_slice_even 2 4) by done. cbn [Nat.div2].
  rewrite int16_hex_upper.
  destruct data as [|b0 [|b1 data]]; cbn in H; try lia. reflexivity.
Qed.

Lemma decode_kaifa_past_header (buf : str) :
  control_field_ok buf -> length_field_ok buf ->
  decode_kaifa buf = except_ValueError (decode_kaifa_body (slice_from 32 buf)).
Proof.
  unfold control_field_ok, length_field_ok, decode_kaifa. intros Hc (n & Hn & Hl).
  case_decide; [done|]. rewrite Hn. cbn.
  case_decide; [done|].
  by destruct (except_ValueError (decode_kaifa_body (slice_from 32 buf))).
Qed.

(** Past a header that is all there, a wrong data-type tag gives no result. *)
Lemma decode_kaifa_body_bad_tag (buf : str) :
  slice 28 30 buf <> lit "02" -> buf <> [] ->
  (decode_kaifa_body buf).2 = Ret None.
Proof.
  unfold decode_kaifa_body. intros Ht Hne.
  rewrite slice_slice_from. cbn [Nat.add].
  case_decide; [|done]. by destruct buf.
Qed.

(** The log call of that branch reads [buf[0]]: on an empty rest it is an
    [IndexError], which the handler for [ValueError] lets through. *)
Lemma decode_kaifa_short_buffer (buf : str) :
  control_field_ok buf -> length_field_ok buf -> (length buf <= 32)%nat ->
  decode_kaifa buf = ([], Raise IndexError).
Proof.
  intros Hc Hl Hlen. rewrite decode_kaifa_past_header by done.
  unfold slice_from. rewrite drop_ge by done. reflexivity.
Qed.

Lemma decode_kaifa_short_buffer_witness :
  decode_kaifa (hex_upper (bytes_of Samples.payload_short)) = ([], Raise IndexError).
Proof.
  apply decode_kaifa_short_buffer.
  - reflexivity.
  - exists 9. split; reflexivity.
  - vm_compute. lia.
Defined.

(** C4, as amended.  A reading comes back only when the control field is
    ["10"], the length byte doubled is the length of the token stream, and
    the data-type tag at hexadecimal offset 60-62 (the byte 14 places after
    the 16-byte header) is ["02"]; there is no result when the control field
    or the length is wrong, nor when the tag is wrong and the token stream is
    longer than the header. *)
Theorem decode_kaifa_validations (data : list byte) :
  let buf := hex_upper data in
  (forall l r, decode_kaifa buf = (l, Ret (Some r)) ->
     control_field_ok buf /\ length_field_ok buf /\ data_tag_ok buf)
  /\ (~ control_field_ok buf -> (decode_kaifa buf).2 = Ret None)
  /\ (control_field_ok buf -> ~ length_field_ok buf -> (decode_kaifa buf).2 = Ret None)
  /\ (control_field_ok buf -> length_field_ok buf -> ~ data_tag_ok buf ->
      (32 < length buf)%nat -> (decode_kaifa buf).2 = Ret None).
Proof.
  intros buf. repeat split.
  - by apply decode_kaifa_Some in H as (? & _ & _).
  - by apply decode_kaifa_Some in H as (_ & ? & _).
  - apply decode_kaifa_Some in H as (_ & _ & H).
    apply decode_kaifa_body_Some in H as [H _].
    unfold data_tag_ok. rewrite slice_slice_from in H. exact H.
  - intros Hc. unfold decode_kaifa. case_decide; [done|].
    by destruct Hc.
  - intros Hc Hl. unfold decode_kaifa. case_decide; [done|].
    subst buf. rewrite length_field_parses by done. cbn.
    case_decide; [done|]. destruct Hl.
    exists (be_int (slice 1 2 data)). split; [by apply length_field_parses|done].
  - intros Hc Hl Ht Hlen. rewrite decode_kaifa_past_header by done.
    rewrite except_ValueError_outcome.
    rewrite decode_kaifa_body_bad_tag; [done| |].
    + rewrite slice_slice_from. exact Ht.
    + unfold slice_from. intros Hnil. apply (f_equal length) in Hnil.
      rewrite length_drop in Hnil. cbn in Hnil. lia.
Qed.

(** C4, as written, fails: the list-1 frame decodes, and the byte right after
    its 16-byte header is [09], not the [02] the decoder looks for 14 bytes
    further on. *)
Lemma data_tag_is_not_after_header :
  decode_kaifa (hex_upper (bytes_of Samples.payload_list1))
    = ([], Ret (Some (reading_01 Samples.stamp 920)))
  /\ slice 32 34 (hex_upper (bytes_of Samples.payload_list1)) = lit "09"
  /\ lit "09" <> lit "02".
Proof. split; [|split]; [vm_compute; reflexivity..|discriminate]. Qed.

(** ** The Kaifa decoder: the shape of a reading *)

Lemma dom_reading_01 t e : dom (reading_01 t e) = fields_01.
Proof. unfold reading_01, fields_01. rewrite !dom_insert_L, dom_empty_L. set_solver. Qed.

Lemma dom_reading_09 t v i ty e : dom (reading_09 t v i ty e) = fields_09.
Proof. unfold reading_09, fields_09. rewrite !dom_insert_L, dom_empty_L. set_solver. Qed.

Lemma dom_reading_0E t v i ty e a b c d :
  dom (reading_0E t v i ty e a b c d) = fields_0E.
Proof.
  unfold reading_0E, fields_0E. rewrite !dom_insert_L, dom_reading_09. set_solver.
Qed.

(** A numeric field of the token stream, at even offsets, is the big-endian
    value of the bytes it renders. *)
Lemma int16_field (i j : nat) (data : list byte) (v : Z) :
  Nat.even i = true -> Nat.even j = true ->
  int16 (slice i j (slice_from 32 (hex_upper data))) = Ret v ->
  v = be_int (slice (16 + Nat.div2 i) (16 + Nat.div2 j) data).
Proof.
  intros Hi Hj H.
  rewrite (hex_slice_from_even 32) in H by done.
  rewrite hex_slice_even in H by done.
  apply int16_hex_upper_Ret in H. cbn [Nat.div2] in H.
  by rewrite slice_slice_from in H.
Qed.

Ltac field H := apply int16_field in H; [cbn in H; subst|reflexivity..].

(** Whatever reading the decoder returns has the shape of its record type. *)
Lemma decode_kaifa_shape (data : list byte) (l : list log_record) (r : Reading) :
  decode_kaifa (hex_upper data) = (l, Ret (Some r)) -> reading_shape data r.
Proof.
  unfold reading_shape. intros H. apply decode_kaifa_Some in H as (_ & _ & H).
  apply decode_kaifa_body_Some in H as (_ & t & H).
  unfold pkt_type_of. rewrite slice_slice_from in H. cbn [Nat.add] in H.
  destruct H as [(Ht & e & He & ->)|[(Ht & v & i & ty & e & He & ->)
    |(Ht & v & i & ty & e & a & b & c & d & He & Ha & Hb & Hc & Hd & ->)]];
    rewrite Ht.
  - field He. split; [by exists t|].
    split; [intros _; split; [apply dom_reading_01|done]|].
    split; discriminate.
  - field He. split; [by exists t|].
    split; [discriminate|].
    split; [intros _; split; [apply dom_reading_09|done]|discriminate].
  - field He. field Ha. field Hb. field Hc. field Hd.
    split; [by exists t|].
    split; [discriminate|]. split; [discriminate|].
    intros _. split; [apply dom_reading_0E|]. by repeat split.
Qed.

(** ** The Kaifa decoder: when a reading comes back *)

Lemma stamp_nonneg (i j : nat) (data : list byte) : 0 <= be_int (slice i j data).
Proof. apply be_int_nonneg. Qed.

Lemma decode_kaifa_body_unfold (buf : str) :
  decode_kaifa_body buf =
  let txt_buf := slice_from 28 buf in
  if decide (slice 0 2 txt_buf <> lit "02") then
    match buf with
    | [] => W_lift (Raise IndexError)
    | c :: _ => W_log (Log ERROR_ "Unknown data %s" [AStr [c]]);; W_ret None
    end
  else
    let* year := W_lift (int16 (slice 4 8 buf)) in
    let* month := W_lift (int16 (slice 8 10 buf)) in
    let* day := W_lift (int16 (slice 10 12 buf)) in
    let* hour := W_lift (int16 (slice 14 16 buf)) in
    let* minute := W_lift (int16 (slice 16 18 buf)) in
    let* second := W_lift (int16 (slice 18 20 buf)) in
    let* t := W_lift (strptime (format_02d second ++ format_02d minute ++ format_02d hour
                ++ lit "_" ++ format_02d day ++ format_02d month ++ format_02d year)) in
    decode_kaifa_record t (slice 2 4 txt_buf) (slice_from 4 txt_buf).
Proof. reflexivity. Qed.

Lemma decode_kaifa_valid_stamp (data : list byte) :
  control_field_ok (hex_upper data) -> length_field_ok (hex_upper data) ->
  data_tag_ok (hex_upper data) -> valid_stamp data ->
  decode_kaifa (hex_upper data)
  = except_ValueError
      (decode_kaifa_record (stamp_of data) (pkt_type_of (hex_upper data))
                           (slice_from 64 (hex_upper data))).
Proof.
  intros Hc Hl Ht (Hy & Hmo & Hd & HH & HM & HS).
  assert (Hlen : (31 <= length data)%nat).
  { unfold data_tag_ok, slice in Ht. apply (f_equal length) in Ht.
    rewrite length_take, length_drop, hex_upper_length in Ht.
    change (length (lit "02")) with 2%nat in Ht. lia. }
  rewrite decode_kaifa_past_header by done. f_equal.
  rewrite decode_kaifa_body_unfold. cbv zeta.
  rewrite !slice_from_slice_from, !slice_slice_from. cbn [Nat.add].
  rewrite decide_False by (intros H; apply H, Ht).
  rewrite !int16_slice_Ret by (try reflexivity; cbn; lia).
  rewrite !W_bind_lift_ret. cbn [Nat.div2].
  fold (stamp_year data) (stamp_month data) (stamp_day data)
       (stamp_hour data) (stamp_minute data) (stamp_second data).
  rewrite strptime_valid;
    [|done|done|done|split; [apply stamp_nonneg|done]..].
  rewrite W_bind_lift_ret. reflexivity.
Qed.

Ltac to_bytes :=
  rewrite ?slice_from_slice_from, ?slice_slice_from; cbn [Nat.add];
  rewrite ?int16_slice_Ret by (try reflexivity; cbn; lia);
  rewrite ?hex_slice_even by reflexivity; cbn [Nat.div2];
  rewrite ?b16decode_hex_upper.

Lemma decode_kaifa_list1 (data : list byte) :
  validated data -> valid_stamp data ->
  pkt_type_of (hex_upper data) = lit "01" -> (33 < length data)%nat ->
  decode_kaifa (hex_upper data)
  = ([], Ret (Some (reading_01 (stamp_of data) (be_int (slice 33 37 data))))).
Proof.
  intros (Hc & Hl & Ht) Hs Hp Hlen.
  rewrite decode_kaifa_valid_stamp by done. rewrite Hp.
  unfold decode_kaifa_record. rewrite decide_True by done.
  to_bytes. rewrite W_bind_lift_ret. reflexivity.
Qed.

Lemma decode_kaifa_list2 (data : list byte) (version meter_id meter_type : list Z) :
  validated data -> valid_stamp data ->
  pkt_type_of (hex_upper data) = lit "09" ->
  utf8_decode (slice 34 41 data) = Ret version ->
  utf8_decode (slice 43 59 data) = Ret meter_id ->
  utf8_decode (slice 61 69 data) = Ret meter_type ->
  (70 < length data)%nat ->
  decode_kaifa (hex_upper data)
  = ([], Ret (Some (reading_09 (stamp_of data) version meter_id meter_type
                               (be_int (slice 70 74 data))))).
Proof.
  intros (Hc & Hl & Ht) Hs Hp Hv Hi Hty Hlen.
  rewrite decode_kaifa_valid_stamp by done. rewrite Hp.
  unfold decode_kaifa_record.
  rewrite decide_False by discriminate.
  rewrite decide_True by left.
  repeat progress (to_bytes; rewrite ?Hv, ?Hi, ?Hty, ?W_bind_lift_ret).
  rewrite decide_False by discriminate. reflexivity.
Qed.

Lemma decode_kaifa_list3 (data : list byte) (version meter_id meter_type : list Z) :
  validated data -> valid_stamp data ->
  pkt_type_of (hex_upper data) = lit "0E" ->
  utf8_decode (slice 34 41 data) = Ret version ->
  utf8_decode (slice 43 59 data) = Ret meter_id ->
  utf8_decode (slice 61 69 data) = Ret meter_type ->
  (129 < length data)%nat ->
  decode_kaifa (hex_upper data)
  = ([], Ret (Some (reading_0E (stamp_of data) version meter_id meter_type
                               (be_int (slice 70 74 data))
                               (be_int (slice 114 118 data)) (be_int (slice 119 123 data))
                               (be_int (slice 124 128 data)) (be_int (slice 129 133 data))))).
Proof.
  intros (Hc & Hl & Ht) Hs Hp Hv Hi Hty Hlen.
  rewrite decode_kaifa_valid_stamp by done. rewrite Hp.
  unfold decode_kaifa_record.
  rewrite decide_False by discriminate.
  rewrite decide_True by (right; left).
  repeat progress (to_bytes; rewrite ?Hv, ?Hi, ?Hty, ?W_bind_lift_ret).
  rewrite decide_True by done.
  repeat progress (to_bytes; rewrite ?W_bind_lift_ret).
  reflexivity.
Qed.

(** C1, as amended.  Whenever the decoder returns a reading at all, whatever
    the frame, it has the field set and the numeric fields of its record
    type, each numeric field the unsigned big-endian integer of the bytes at
    its fixed offset.  And it does return one for a frame that passes the
    decoder's three validations and whose time stamp bytes are a date and
    time of the calendar (year 1000-9999): with record type ['01'] and the
    Effect field in reach, a reading with exactly time_stamp and Effect; with
    ['09'], identity texts that are UTF-8 and Effect in reach, exactly
    time_stamp, Version identifier, Meter-ID, Meter type and Effect; with
    ['0E'] and the counters in reach, those five and the four hourly
    counters. *)
Theorem decode_kaifa_reading (data : list byte) :
  (forall l r, decode_kaifa (hex_upper data) = (l, Ret (Some r)) -> reading_shape data r)
  /\ (validated data -> valid_stamp data ->
      pkt_type_of (hex_upper data) = lit "01" -> (33 < length data)%nat ->
      decode_kaifa (hex_upper data)
      = ([], Ret (Some (reading_01 (stamp_of data) (be_int (slice 33 37 data)))))
      /\ dom (reading_01 (stamp_of data) (be_int (slice 33 37 data))) = fields_01)
  /\ (validated data -> valid_stamp data ->
      pkt_type_of (hex_upper data) = lit "09" -> (70 < length data)%nat ->
      forall version meter_id meter_type,
        utf8_decode (slice 34 41 data) = Ret version ->
        utf8_decode (slice 43 59 data) = Ret meter_id ->
        utf8_decode (slice 61 69 data) = Ret meter_type ->
        decode_kaifa (hex_upper data)
        = ([], Ret (Some (reading_09 (stamp_of data) version meter_id meter_type
                                     (be_int (slice 70 74 data)))))
        /\ dom (reading_09 (stamp_of data) version meter_id meter_type
                           (be_int (slice 70 74 data))) = fields_09)
  /\ (validated data -> valid_stamp data ->
      pkt_type_of (hex_upper data) = lit "0E" -> (129 < length data)%nat ->
      forall version meter_id meter_type,
        utf8_decode (slice 34 41 data) = Ret version ->
        utf8_decode (slice 43 59 data) = Ret meter_id ->
        utf8_decode (slice 61 69 data) = Ret meter_type ->
        decode_kaifa (hex_upper data)
        = ([], Ret (Some (reading_0E (stamp_of data) version meter_id meter_type
                            (be_int (slice 70 74 data))
                            (be_int (slice 114 118 data)) (be_int (slice 119 123 data))
                            (be_int (slice 124 128 data)) (be_int (slice 129 133 data)))))
        /\ dom (reading_0E (stamp_of data) version meter_id meter_type
                  (be_int (slice 70 74 data))
                  (be_int (slice 114 118 data)) (be_int (slice 119 123 data))
                  (be_int (slice 124 128 data)) (be_int (slice 129 133 data))) = fields_0E).
Proof.
  split; [intros l r; apply decode_kaifa_shape|].
  split; [|split].
  - intros Hv Hs Hp Hlen. split; [by apply decode_kaifa_list1|apply dom_reading_01].
  - intros Hv Hs Hp Hlen v i ty Hv1 Hv2 Hv3.
    split; [by apply decode_kaifa_list2|apply dom_reading_09].
  - intros Hv Hs Hp Hlen v i ty Hv1 Hv2 Hv3.
    split; [by apply decode_kaifa_list3|apply dom_reading_0E].
Qed.

Lemma sample_frames_validated :
  validated (bytes_of Samples.payload_list1) /\ valid_stamp (bytes_of Samples.payload_list1)
  /\ validated (bytes_of Samples.payload_list2) /\ valid_stamp (bytes_of Samples.payload_list2)
  /\ validated (bytes_of Samples.payload_list3) /\ valid_stamp (bytes_of Samples.payload_list3).
Proof.
  unfold validated, valid_stamp, control_field_ok, length_field_ok, data_tag_ok.
  repeat split; try (vm_compute; first [reflexivity|discriminate]).
  - by exists 39.
  - by exists 101.
  - by exists 135.
Qed.

Lemma decode_kaifa_reading_witness :
  (validated (bytes_of Samples.payload_list1) /\ valid_stamp (bytes_of Samples.payload_list1))
  /\ decode_kaifa (hex_upper (bytes_of Samples.payload_list1))
     = ([], Ret (Some (reading_01 Samples.stamp 920)))
  /\ dom (reading_01 Samples.stamp 920) = fields_01
  /\ decode_kaifa (hex_upper (bytes_of Samples.payload_list2))
     = ([], Ret (Some (reading_09 Samples.stamp Samples.KFM_001 Samples.meter_id
                                  Samples.MA105H2E 918)))
  /\ dom (reading_09 Samples.stamp Samples.KFM_001 Samples.meter_id Samples.MA105H2E 918)
     = fields_09
  /\ decode_kaifa (hex_upper (bytes_of Samples.payload_list3))
     = ([], Ret (Some (reading_0E Samples.stamp Samples.KFM_001 Samples.meter_id
                                  Samples.MA105H2E 1022 180073 0 247 63)))
  /\ dom (reading_0E Samples.stamp Samples.KFM_001 Samples.meter_id Samples.MA105H2E
                     1022 180073 0 247 63) = fields_0E
  /\ stamp_year (bytes_of Samples.payload_year17) = 17
  /\ decode_kaifa (hex_upper (bytes_of Samples.payload_year17))
     = ([], Ret (Some (reading_01 (mk_datetime 917 4 1 19 31 2) 920)))
  /\ reading_shape (bytes_of Samples.payload_year17)
       (reading_01 (mk_datetime 917 4 1 19 31 2) 920).
Proof.
  destruct sample_frames_validated as (V1 & S1 & V2 & S2 & V3 & S3).
  destruct (decode_kaifa_reading (bytes_of Samples.payload_list1))
    as (_ & H1 & _ & _).
  destruct (decode_kaifa_reading (bytes_of Samples.payload_list2))
    as (_ & _ & H2 & _).
  destruct (decode_kaifa_reading (bytes_of Samples.payload_list3))
    as (_ & _ & _ & H3).
  destruct (decode_kaifa_reading (bytes_of Samples.payload_year17)) as (H4 & _).
  assert (E4 : decode_kaifa (hex_upper (bytes_of Samples.payload_year17))
               = ([], Ret (Some (reading_01 (mk_datetime 917 4 1 19 31 2) 920))))
    by (vm_compute; reflexivity).
  split; [by split|].
  destruct (H1 V1 S1) as [E1 D1]; [reflexivity|vm_compute; lia|].
  destruct (H2 V2 S2 eq_refl ltac:(vm_compute; lia) Samples.KFM_001 Samples.meter_id
               Samples.MA105H2E eq_refl eq_refl eq_refl) as [E2 D2].
  destruct (H3 V3 S3 eq_refl ltac:(vm_compute; lia) Samples.KFM_001 Samples.meter_id
               Samples.MA105H2E eq_refl eq_refl eq_refl) as [E3 D3].
  split; [exact E1|]. split; [exact D1|]. split; [exact E2|]. split; [exact D2|].
  split; [exact E3|]. split; [exact D3|]. split; [reflexivity|].
  split; [exact E4|exact (H4 _ _ E4)].
Defined.

(** C1, as written, fails: this frame is well delimited, its check sum is
    right, the three validations pass and its record type is ['01'], yet its
    month byte is 13, [strptime] raises [ValueError] and the decoder returns
    no reading. *)
Lemma month13_frame_has_no_reading :
  invalid_frame (Samples.frame Samples.payload_month13) = false
  /\ slice 1 (length (Samples.frame Samples.payload_month13) - 1)
           (Samples.frame Samples.payload_month13) = bytes_of Samples.payload_month13
  /\ crc_check (bytes_of Samples.payload_month13) = ([], Ret tt)
  /\ slice 10 12 (hex_upper (bytes_of Samples.payload_month13)) = lit "10"
  /\ int16 (slice 2 4 (hex_upper (bytes_of Samples.payload_month13))) = Ret 39
  /\ len (hex_upper (bytes_of Samples.payload_month13)) = 39 * 2
  /\ slice 60 62 (hex_upper (bytes_of Samples.payload_month13)) = lit "02"
  /\ pkt_type_of (hex_upper (bytes_of Samples.payload_month13)) = lit "01"
  /\ decode_kaifa (hex_upper (bytes_of Samples.payload_month13))
     = ([Log ERROR_ "Failed" []], Ret None).
Proof. repeat split; vm_compute; reflexivity. Qed.

(** ** Processing one message *)

Lemma calls_of_app (t1 t2 : trace) : calls_of (t1 ++ t2) = calls_of t1 ++ calls_of t2.
Proof. apply omap_app. Qed.

Lemma calls_of_logs (l : list log_record) : calls_of (logs l) = [].
Proof. induction l as [|r l IH]; [done|exact IH]. Qed.

Lemma invalid_frame_false (data : list byte) :
  invalid_frame data = false ->
  (9 <= length data)%nat
  /\ byte_val <$> head data = Some FEND
  /\ byte_val <$> last data = Some FEND.
Proof.
  unfold invalid_frame, len. intros H.
  apply orb_false_iff in H as [H H3]. apply orb_false_iff in H as [H1 H2].
  apply negb_false_iff, bool_decide_eq_true in H2, H3.
  apply Z.ltb_ge in H1. repeat split; [lia|done..].
Qed.

Lemma strip_delimiters_length (data : list byte) :
  length (strip_delimiters data) = (length data - 2)%nat.
Proof.
  unfold strip_delimiters, slice. rewrite length_take, length_drop. lia.
Qed.

(** The trailer of a valid frame is always two bytes: [struct.unpack] cannot
    fail. *)
Lemma trailer_two_bytes (payload : list byte) :
  (2 <= length payload)%nat ->
  exists lo hi, slice_from_neg 2 payload = [lo; hi].
Proof.
  intros H. unfold slice_from_neg.
  assert (Hl : length (drop (length payload - 2) payload) = 2%nat)
    by (rewrite length_drop; lia).
  destruct (drop (length payload - 2) payload) as [|lo [|hi [|? ?]]]; cbn in Hl; try lia.
  eauto.
Qed.

Section ProcessMsg.

Variable await_callback : awaiting.
Variable fuel : nat.

(** C3.  A binary message shorter than 9 bytes, or not starting with 126, or
    not ending with 126, is logged and dropped: [_process_msg] returns without
    an exception, the manager is as before, and the trace holds the two log
    records only, so no decoder ran and no callback was awaited. *)
Theorem invalid_frame_dropped (m : SubscriptionManager) (data : list byte) :
  (length data < 9)%nat
  \/ byte_val <$> head data <> Some 126
  \/ byte_val <$> last data <> Some 126 ->
  _process_msg await_callback fuel m (mk_msg BINARY (Some (PBytes data)))
  = ([elog DEBUG "Recv, %s" [AMsg (mk_msg BINARY (Some (PBytes data)))];
      elog ERROR_ "Invalid data %s" [ABytes data]], m, Done (Ret tt))
  /\ calls_of (_process_msg await_callback fuel m
                 (mk_msg BINARY (Some (PBytes data)))).1.1 = [].
Proof.
  intros H.
  assert (Hinv : invalid_frame data = true).
  { unfold invalid_frame, FEND.
    destruct H as [H|[H|H]].
    - replace (len data <? 9) with true; [done|].
      symmetry. apply Z.ltb_lt. unfold len. lia.
    - rewrite (bool_decide_eq_false_2 _ H). cbn. by rewrite orb_true_r.
    - rewrite (bool_decide_eq_false_2 _ H). cbn. by rewrite orb_true_r. }
  unfold _process_msg. cbn [msg_data msg_type]. rewrite decide_True by done.
  rewrite Hinv. done.
Qed.

(** A valid frame, step by step: the check-sum lines, then the payload. *)
Lemma valid_frame_processing (m : SubscriptionManager) (data : list byte) :
  invalid_frame data = false ->
  let msg := mk_msg BINARY (Some (PBytes data)) in
  let payload := strip_delimiters data in
  exists lo hi,
    slice_from_neg 2 payload = [lo; hi] /\
    let computed :=
      Z.lxor (crcmod.mkCrcFun_r16 0x11021 0xffff 0 (slice_to_neg 2 payload)) 0xffff in
    let trailer := byte_val lo + 256 * byte_val hi in
    let crc_log :=
      if decide (computed = trailer) then []
      else [elog ERROR_ "Invalid crc %s %s" [AInt computed; AInt trailer]] in
    _process_msg await_callback fuel m msg
    = ([elog DEBUG "Recv, %s" [AMsg msg]] ++ crc_log
         ++ (process_payload await_callback fuel m payload).1.1,
       (process_payload await_callback fuel m payload).1.2,
       (process_payload await_callback fuel m payload).2).
Proof.
  intros Hv msg payload.
  apply invalid_frame_false in Hv as Hlen. destruct Hlen as [Hlen _].
  destruct (trailer_two_bytes payload) as (lo & hi & Ht).
  { subst payload. rewrite strip_delimiters_length. lia. }
  exists lo, hi. split; [exact Ht|]. cbv zeta.
  unfold _process_msg. cbn [msg_data msg_type msg]. rewrite decide_True by done.
  rewrite Hv. fold (strip_delimiters data). fold payload.
  unfold crc_check, crc_trailer, crc_computed, _crc. rewrite Ht. cbn [unpack_le16].
  unfold process_payload.
  destruct (decode m (hex_upper payload)) as [[t2 m'] [d|e]].
  - destruct (dispatch await_callback fuel (Some d) m') as [[t3 m''] r].
    case_decide; case_decide; try done.
  - case_decide; case_decide; try done.
    all: cbn; by rewrite ?app_nil_r.
Qed.

(** C2.  On a structurally valid frame the check sum is the CRC-16 of
    [crcmod] with polynomial 0x11021, reflected, started at 0xFFFF, no output
    XOR, over the stripped payload without its last two bytes, XORed with
    0xFFFF (which inverts its 16 bits: it is 65535 minus the bit-wise CRC),
    against the little-endian value of those two bytes.  A difference adds
    one log record and nothing else: trace, manager and outcome are those of
    processing the payload, whatever the verdict. *)
Theorem checksum_is_advisory (m : SubscriptionManager) (data : list byte) :
  invalid_frame data = false ->
  let msg := mk_msg BINARY (Some (PBytes data)) in
  let payload := strip_delimiters data in
  exists lo hi,
    slice_from_neg 2 payload = [lo; hi] /\
    let computed :=
      Z.lxor (crcmod.mkCrcFun_r16 0x11021 0xffff 0 (slice_to_neg 2 payload)) 0xffff in
    let trailer := byte_val lo + 256 * byte_val hi in
    let crc_log :=
      if decide (computed = trailer) then []
      else [elog ERROR_ "Invalid crc %s %s" [AInt computed; AInt trailer]] in
    computed = 65535 - crc16_reflected X25_POLY 0xFFFF (slice_to_neg 2 payload)
    /\ _process_msg await_callback fuel m msg
       = ([elog DEBUG "Recv, %s" [AMsg msg]] ++ crc_log
            ++ (process_payload await_callback fuel m payload).1.1,
          (process_payload await_callback fuel m payload).1.2,
          (process_payload await_callback fuel m payload).2).
Proof.
  intros Hv msg payload.
  destruct (valid_frame_processing m data Hv) as (lo & hi & Ht & Hp).
  exists lo, hi. split; [exact Ht|]. split; [|exact Hp].
  exact (crc_computed_inverted payload).
Qed.

End ProcessMsg.

Lemma invalid_frame_dropped_witness :
  _process_msg quiet 8 (subscribe 7%nat __init__)
               (mk_msg BINARY (Some (PBytes (bytes_of [0x7E; 0xA0; 0x07; 0x7E]))))
  = ([elog DEBUG "Recv, %s"
        [AMsg (mk_msg BINARY (Some (PBytes (bytes_of [0x7E; 0xA0; 0x07; 0x7E]))))];
      elog ERROR_ "Invalid data %s" [ABytes (bytes_of [0x7E; 0xA0; 0x07; 0x7E])]],
     subscribe 7%nat __init__, Done (Ret tt)).
Proof.
  apply (invalid_frame_dropped quiet 8 (subscribe 7%nat __init__)
           (bytes_of [0x7E; 0xA0; 0x07; 0x7E])).
  left. cbn. lia.
Defined.

Lemma checksum_is_advisory_witness :
  invalid_frame frame_bad_crc = false
  /\ _process_msg quiet 8 (subscribe 1%nat __init__)
       (mk_msg BINARY (Some (PBytes frame_bad_crc)))
     = ([elog DEBUG "Recv, %s" [AMsg (mk_msg BINARY (Some (PBytes frame_bad_crc)))];
         elog ERROR_ "Invalid crc %s %s" [AInt 44459; AInt 171];
         EPrintDecoded (Some (reading_01 Samples.stamp 920));
         ECall 1%nat (Some (reading_01 Samples.stamp 920))],
        subscribe 1%nat __init__, Done (Ret tt))
  /\ _process_msg quiet 8 (subscribe 1%nat __init__)
       (mk_msg BINARY (Some (PBytes (Samples.frame Samples.payload_list1))))
     = ([elog DEBUG "Recv, %s"
           [AMsg (mk_msg BINARY (Some (PBytes (Samples.frame Samples.payload_list1))))];
         EPrintDecoded (Some (reading_01 Samples.stamp 920));
         ECall 1%nat (Some (reading_01 Samples.stamp 920))],
        subscribe 1%nat __init__, Done (Ret tt)).
Proof.
  split; [reflexivity|]. split.
  - destruct (checksum_is_advisory quiet 8 (subscribe 1%nat __init__) frame_bad_crc eq_refl)
      as (lo & hi & Ht & _ & H).
    vm_compute in Ht. injection Ht as <- <-. rewrite H. vm_compute. reflexivity.
  - destruct (checksum_is_advisory quiet 8 (subscribe 1%nat __init__)
                (Samples.frame Samples.payload_list1) eq_refl) as (lo & hi & Ht & _ & H).
    vm_compute in Ht. injection Ht as <- <-. rewrite H. vm_compute. reflexivity.
Defined.

(** ** The dispatch loop *)

Section Dispatch.

Variable await_callback : awaiting.
Variable fuel : nat.

(** With the reading unbound nothing is awaited: the loop ends at once on an
    exhausted list and raises on the first subscriber otherwise. *)
Lemma dispatch_from_unbound (n i : nat) (m : SubscriptionManager) :
  dispatch_from await_callback n None i m
  = ([], m, Done (match subscriptions m !! i with
                  | None => Ret tt
                  | Some _ => Raise UnboundLocalError
                  end)).
Proof. destruct n; cbn; by destruct (subscriptions m !! i). Qed.

(** Callbacks that return and leave the list alone are awaited one after the
    other, from position [i] to the end of the list. *)
Lemma dispatch_from_all (d : option Reading) (n i : nat) (m : SubscriptionManager) :
  returns_quietly await_callback d ->
  (length (subscriptions m) - i <= n)%nat ->
  exists t m',
    dispatch_from await_callback n (Some d) i m = (t, m', Done (Ret tt))
    /\ calls_of t = (fun cb => (cb, d)) <$> drop i (subscriptions m)
    /\ subscriptions m' = subscriptions m.
Proof.
  intros Hq. revert i m. induction n as [|n IH]; intros i m Hn.
  - cbn. rewrite lookup_ge_None_2 by lia. exists [], m.
    rewrite drop_ge by lia. done.
  - cbn. destruct (subscriptions m !! i) as [cb|] eqn:Hi.
    + destruct (Hq cb m) as (t & m1 & Ha & Hs & Hc). rewrite Ha.
      destruct (IH (S i) m1) as (t' & m' & Hd & Hc' & Hs'); [rewrite Hs; lia|].
      rewrite Hd. exists (ECall cb d :: t ++ t'), m'. split; [done|]. split.
      * cbn. rewrite calls_of_app, Hc, Hc', Hs. cbn.
        by rewrite (drop_S _ cb i Hi).
      * congruence.
    + apply lookup_ge_None in Hi. rewrite drop_ge by lia. by exists [], m.
Qed.

Lemma dispatch_all (d : option Reading) (m : SubscriptionManager) :
  returns_quietly await_callback d ->
  (length (subscriptions m) <= fuel)%nat ->
  exists t m',
    dispatch await_callback fuel (Some d) m = (t, m', Done (Ret tt))
    /\ calls_of t = (fun cb => (cb, d)) <$> subscriptions m
    /\ subscriptions m' = subscriptions m.
Proof.
  intros Hq Hn. unfold dispatch.
  destruct (dispatch_from_all d fuel 0 m Hq ltac:(lia)) as (t & m' & H1 & H2 & H3).
  exists t, m'. by rewrite drop_0 in H2.
Qed.

Lemma try_decoders_None (ds : list decoder) (buf : str) :
  (forall d, d ∈ ds -> (apply_decoder d buf).2 = Ret None) ->
  (try_decoders ds buf).2 = Ret None.
Proof.
  induction ds as [|d ds IH]; intros H; [done|].
  cbn [try_decoders]. pose proof (H d ltac:(left)) as Hd.
  destruct (apply_decoder d buf) as [l r]. cbn in Hd. subst r. cbn.
  specialize (IH ltac:(intros; apply H; by right)).
  destruct (try_decoders ds buf) as [l' r']. exact IH.
Qed.

(** When no decoder has a result the registry reports none, keeps its default
    and adds log records only. *)
Lemma decode_None (m : SubscriptionManager) (buf : str) :
  (forall d, d ∈ m.(_default_decoder) :: m.(_decoders) -> (apply_decoder d buf).2 = Ret None) ->
  exists l, decode m buf = (logs l, m, Ret None).
Proof.
  intros H. unfold decode.
  pose proof (H _ ltac:(left)) as Hd.
  destruct (apply_decoder (_default_decoder m) buf) as [l r]. cbn in Hd. subst r.
  pose proof (try_decoders_None (_decoders m) buf ltac:(intros; apply H; by right)) as Ht.
  destruct (try_decoders (_decoders m) buf) as [l' r']. cbn in Ht. subst r'. eauto.
Qed.

(** C7, as amended.  On a structurally valid binary frame for which every
    registered decoder returns no result, with callbacks that return
    normally and leave the subscriber list as it is while they are awaited,
    [_process_msg] awaits every entry of the subscriber list once, in order,
    each with an absent reading, and returns without an exception; the
    subscriber list is as before. *)
Theorem undecodable_frame_dispatches_None (m : SubscriptionManager) (data : list byte) :
  invalid_frame data = false ->
  (forall d, d ∈ m.(_default_decoder) :: m.(_decoders) ->
             (apply_decoder d (hex_upper (strip_delimiters data))).2 = Ret None) ->
  returns_quietly await_callback None ->
  (length (subscriptions m) <= fuel)%nat ->
  exists t m',
    _process_msg await_callback fuel m (mk_msg BINARY (Some (PBytes data)))
    = (t, m', Done (Ret tt))
    /\ calls_of t = (fun cb => (cb, None)) <$> m.(subscriptions)
    /\ subscriptions m' = subscriptions m.
Proof.
  intros Hv Hd Hq Hfuel.
  destruct (valid_frame_processing await_callback fuel m data Hv) as (lo & hi & _ & H).
  cbv zeta in H. rewrite H. clear H.
  unfold process_payload.
  destruct (decode_None m _ Hd) as (l & ->).
  destruct (dispatch_all None m Hq Hfuel) as (t & m' & -> & Hc & Hs).
  cbn [fst snd].
  eexists _, m'. split; [reflexivity|]. split; [|exact Hs].
  rewrite !calls_of_app, calls_of_logs, Hc.
  case_decide; reflexivity.
Qed.

End Dispatch.

(** An unknown record type is one way to get there. *)
Lemma unknown_type_gives_None :
  decode_kaifa (hex_upper (bytes_of Samples.payload_type05))
  = ([Log WARNING "Unknown type %s" [AStr (lit "05")]], Ret None).
Proof. vm_compute. reflexivity. Qed.

Lemma quiet_returns_quietly (d : option Reading) : returns_quietly quiet d.
Proof. intros cb m. by exists [], m. Qed.

Lemma undecodable_frame_dispatches_None_witness :
  invalid_frame (Samples.frame Samples.payload_type05) = false
  /\ returns_quietly quiet None
  /\ exists t m',
      _process_msg quiet 8 (subscribe 2%nat (subscribe 1%nat __init__))
        (mk_msg BINARY (Some (PBytes (Samples.frame Samples.payload_type05))))
      = (t, m', Done (Ret tt))
      /\ calls_of t = [(1%nat, None); (2%nat, None)]
      /\ subscriptions m' = [1%nat; 2%nat].
Proof.
  split; [reflexivity|]. split; [apply quiet_returns_quietly|].
  apply (undecodable_frame_dispatches_None quiet 8 (subscribe 2%nat (subscribe 1%nat __init__))
           (Samples.frame Samples.payload_type05)).
  - reflexivity.
  - intros d _. destruct d. vm_compute. reflexivity.
  - apply quiet_returns_quietly.
  - vm_compute. lia.
Defined.

(** C7, as written, fails: the loop walks the subscriber list itself, so when
    the first of three subscribers unsubscribes itself while it is awaited
    (and returns normally, like the others), the second one moves to the
    place just visited and is never awaited. *)
Lemma self_unsubscribing_callback_skips_next :
  invalid_frame (Samples.frame Samples.payload_type05) = false
  /\ decode_kaifa (hex_upper (strip_delimiters (Samples.frame Samples.payload_type05)))
     = ([Log WARNING "Unknown type %s" [AStr (lit "05")]], Ret None)
  /\ subscriptions (subscribe 3%nat (subscribe 2%nat (subscribe 1%nat __init__)))
     = [1%nat; 2%nat; 3%nat]
  /\ (_process_msg first_leaves 8
        (subscribe 3%nat (subscribe 2%nat (subscribe 1%nat __init__)))
        (mk_msg BINARY (Some (PBytes (Samples.frame Samples.payload_type05))))).2
     = Done (Ret tt)
  /\ calls_of (_process_msg first_leaves 8
        (subscribe 3%nat (subscribe 2%nat (subscribe 1%nat __init__)))
        (mk_msg BINARY (Some (PBytes (Samples.frame Samples.payload_type05))))).1.1
     = [(1%nat, None); (3%nat, None)].
Proof. repeat split; vm_compute; reflexivity. Qed.

(** ** Subscribing *)

Lemma occurrences_notin (cb : callback) (subs : list callback) :
  cb ∉ subs -> occurrences cb subs = 0%nat.
Proof.
  unfold occurrences. induction subs as [|x subs IH]; intros H; [done|].
  apply not_elem_of_cons in H as [Hx H].
  rewrite filter_cons_False by done. by apply IH.
Qed.

Lemma occurrences_NoDup (cb : callback) (subs : list callback) :
  NoDup subs -> cb ∈ subs -> occurrences cb subs = 1%nat.
Proof.
  unfold occurrences. induction subs as [|x subs IH]; intros Hnd Hin.
  - by apply elem_of_nil in Hin.
  - apply NoDup_cons in Hnd as [Hx Hnd].
    destruct (decide (x = cb)) as [->|Hne].
    + rewrite filter_cons_True by done. cbn. f_equal. by apply occurrences_notin.
    + rewrite filter_cons_False by done. apply IH; [done|].
      apply elem_of_cons in Hin as [->|Hin]; done.
Qed.

Lemma occurrences_snoc (cb : callback) (subs : list callback) :
  occurrences cb (subs ++ [cb]) = S (occurrences cb subs).
Proof.
  unfold occurrences. rewrite filter_app, length_app.
  rewrite filter_cons_True by done. cbn. lia.
Qed.

Lemma subscriptions_subscribe (cb : callback) (m : SubscriptionManager) :
  subscriptions (subscribe cb m)
  = if decide (cb ∈ subscriptions m) then subscriptions m else subscriptions m ++ [cb].
Proof. unfold subscribe. by case_decide. Qed.

Lemma subscribe_elem (cb : callback) (m : SubscriptionManager) : cb ∈ subscriptions (subscribe cb m).
Proof.
  rewrite subscriptions_subscribe. case_decide; [done|].
  apply elem_of_app. right. by left.
Qed.

Lemma list_remove_sublist (cb : callback) (subs : list callback) :
  list_remove cb subs `sublist_of` subs.
Proof.
  induction subs as [|x subs IH]; [done|]. cbn. case_decide.
  - by apply sublist_cons.
  - by apply sublist_skip.
Qed.

(** The subscriber list never holds a callback twice: it starts empty and
    only [subscribe] and [unsubscribe] change it. *)
Lemma subscribe_NoDup (cb : callback) (m : SubscriptionManager) :
  NoDup (subscriptions m) -> NoDup (subscriptions (subscribe cb m)).
Proof.
  intros H. rewrite subscriptions_subscribe. case_decide; [done|].
  apply NoDup_app. split; [done|]. split; [|apply NoDup_singleton].
  intros x Hx Hx'. apply list_elem_of_singleton in Hx'. by subst.
Qed.

Lemma unsubscribe_NoDup (cb : callback) (m : SubscriptionManager) :
  NoDup (subscriptions m) -> NoDup (subscriptions (unsubscribe cb m)).
Proof.
  intros H. unfold unsubscribe. case_decide; [done|].
  cbn. eapply sublist_NoDup; [exact H|]. apply list_remove_sublist.
Qed.

Lemma init_NoDup : NoDup (subscriptions __init__).
Proof. apply NoDup_nil. done. Qed.

(** C9, as amended.  With a subscriber list free of duplicates (as it always
    is): subscribing twice is subscribing once and leaves exactly one entry
    for the callback, so a dispatch whose callbacks return normally and leave
    the subscriber list as it is awaits it exactly once; unsubscribing a
    callback that is not there changes nothing; a new callback goes to the
    end of the list, an old one leaves the list as it is, and removing one
    keeps the others in order. *)
Theorem subscribe_idempotent (m : SubscriptionManager) (cb : callback) :
  NoDup (subscriptions m) ->
  subscribe cb (subscribe cb m) = subscribe cb m
  /\ occurrences cb (subscriptions (subscribe cb (subscribe cb m))) = 1%nat
  /\ (forall (await_callback : awaiting) (fuel : nat) d,
        returns_quietly await_callback d ->
        (length (subscriptions (subscribe cb (subscribe cb m))) <= fuel)%nat ->
        length (filter (fun c => c.1 = cb)
                       (calls_of (dispatch await_callback fuel (Some d)
                                    (subscribe cb (subscribe cb m))).1.1))
        = 1%nat)
  /\ (cb ∉ subscriptions m -> unsubscribe cb m = m)
  /\ (cb ∉ subscriptions m -> subscriptions (subscribe cb m) = subscriptions m ++ [cb])
  /\ (cb ∈ subscriptions m -> subscribe cb m = m)
  /\ subscriptions (unsubscribe cb m) `sublist_of` subscriptions m.
Proof.
  intros Hnd.
  assert (Hidem : subscribe cb (subscribe cb m) = subscribe cb m).
  { unfold subscribe at 1. rewrite decide_True; [done|apply subscribe_elem]. }
  assert (Hone : occurrences cb (subscriptions (subscribe cb m)) = 1%nat).
  { apply occurrences_NoDup; [by apply subscribe_NoDup|apply subscribe_elem]. }
  split; [exact Hidem|]. rewrite Hidem. split; [exact Hone|].
  split; [|split; [|split; [|split]]].
  - intros await_callback fuel d Hq Hfuel.
    destruct (dispatch_all await_callback fuel d (subscribe cb m) Hq Hfuel)
      as (t & m' & -> & Hc & _).
    cbn [fst snd]. rewrite Hc, <- Hone. unfold occurrences.
    generalize (subscriptions (subscribe cb m)). intros subs.
    induction subs as [|x subs IH]; [done|].
    cbn [fmap list_fmap]. destruct (decide (x = cb)) as [->|Hne].
    + rewrite !filter_cons_True by done. cbn. f_equal. exact IH.
    + rewrite !filter_cons_False by done. exact IH.
  - intros Hnot. unfold unsubscribe. by rewrite decide_True.
  - intros Hnot. rewrite subscriptions_subscribe. by rewrite decide_False.
  - intros Hin. unfold subscribe. by rewrite decide_True.
  - unfold unsubscribe. case_decide; [done|]. apply list_remove_sublist.
Qed.

Lemma subscribe_idempotent_witness :
  NoDup (subscriptions (subscribe 4%nat __init__))
  /\ subscribe 7%nat (subscribe 7%nat (subscribe 4%nat __init__))
     = subscribe 7%nat (subscribe 4%nat __init__)
  /\ subscriptions (subscribe 7%nat (subscribe 7%nat (subscribe 4%nat __init__))) = [4%nat; 7%nat]
  /\ unsubscribe 7%nat (subscribe 4%nat __init__) = subscribe 4%nat __init__
  /\ length (filter (fun c => c.1 = 7%nat)
               (calls_of (dispatch quiet 8 (Some None)
                            (subscribe 7%nat (subscribe 7%nat (subscribe 4%nat __init__)))).1.1))
     = 1%nat.
Proof.
  assert (H : NoDup (subscriptions (subscribe 4%nat __init__)))
    by (apply subscribe_NoDup, init_NoDup).
  destruct (subscribe_idempotent (subscribe 4%nat __init__) 7%nat H)
    as (H1 & _ & H3 & H2 & _).
  split; [exact H|]. split; [exact H1|]. split; [rewrite H1; reflexivity|].
  split.
  - apply H2. vm_compute. intros Hin.
    apply elem_of_cons in Hin as [Hin|Hin]; [discriminate|]. by apply elem_of_nil in Hin.
  - apply H3; [apply quiet_returns_quietly|vm_compute; lia].
Defined.

(** C9, as written, fails at its dispatch: subscribed twice, the callback is
    in the list once, yet a message is not dispatched to it when the
    subscriber before it unsubscribes itself while it is awaited. *)
Lemma subscribed_twice_dispatched_never :
  subscriptions (subscribe 2%nat (subscribe 2%nat (subscribe 1%nat __init__)))
  = [1%nat; 2%nat]
  /\ dispatch first_leaves 8 (Some None)
       (subscribe 2%nat (subscribe 2%nat (subscribe 1%nat __init__)))
     = ([ECall 1%nat None], subscribe 2%nat (unsubscribe 1%nat __init__), Done (Ret tt))
  /\ length (filter (fun c => c.1 = 2%nat)
               (calls_of (dispatch first_leaves 8 (Some None)
                  (subscribe 2%nat (subscribe 2%nat (subscribe 1%nat __init__)))).1.1))
     = 0%nat.
Proof. repeat split; vm_compute; reflexivity. Qed.

(** ** The life cycle *)

(** C8.  [start] in state Running returns at once: the manager is unchanged
    and the only trace is the debug record, so no task was created or
    cancelled.  [retry] in state Starting or Running likewise: two debug
    records, no timer, no change. *)
Theorem start_and_retry_noop (m : SubscriptionManager) :
  (_state m = Some STATE_RUNNING ->
   start m = ([elog DEBUG "Start state %s." [AState (Some STATE_RUNNING)]], m))
  /\ (_state m = Some STATE_STARTING \/ _state m = Some STATE_RUNNING ->
      retry m = ([elog DEBUG "Retry, state: %s" [AState (_state m)];
                  elog DEBUG "Skip retry since state: %s" [AState (_state m)]], m)).
Proof.
  split.
  - intros H. unfold start. rewrite H. by rewrite decide_True.
  - intros H. unfold retry. rewrite decide_True; [done|].
    destruct H as [-> | ->]; [left|right; left].
Qed.

Lemma retry_when_idle (m : SubscriptionManager) :
  _state m ∉ [Some STATE_STARTING; Some STATE_RUNNING] ->
  retry m =
  ([elog DEBUG "Retry, state: %s" [AState (_state m)]; elog DEBUG "Cancel retry timer" []]
     ++ (_cancel_retry_timer m).1
     ++ [EState STATE_STARTING; elog DEBUG "Restart" [];
         ECallLater (_wait_time_before_retry m);
         elog DEBUG "Reconnecting to server in %i seconds."
              [AInt (_wait_time_before_retry m)]],
   set_retry_timer (Some (Timer (_wait_time_before_retry m)))
     (set_state STATE_STARTING (_cancel_retry_timer m).2)).
Proof.
  intros H. unfold retry. rewrite decide_False by done.
  unfold _cancel_retry_timer. by destruct (_retry_timer m).
Qed.

(** C6, as amended.  Called in state Stopped, [retry] itself moves the state
    to Starting, before it schedules the timer; the state is Starting all
    through the 15 seconds, and when the timer fires [start] finds it so,
    sets Starting again and creates the connection task. *)
Theorem retry_from_stopped (m : SubscriptionManager) :
  _state m = Some STATE_STOPPED ->
  _wait_time_before_retry m = 15 ->
  _state (retry m).2 = Some STATE_STARTING
  /\ _retry_timer (retry m).2 = Some (Timer 15)
  /\ (exists t1 t2 t3,
        (retry m).1 = t1 ++ [EState STATE_STARTING] ++ t2 ++ [ECallLater 15] ++ t3)
  /\ _state (fire_retry_timer (retry m).2).2 = Some STATE_STARTING
  /\ ECreateTask ∈ (fire_retry_timer (retry m).2).1.
Proof.
  intros Hs Hw.
  assert (Hidle : _state m ∉ [Some STATE_STARTING; Some STATE_RUNNING]).
  { rewrite Hs. intros H. apply elem_of_cons in H as [H|H]; [discriminate|].
    apply elem_of_cons in H as [H|H]; [discriminate|]. by apply elem_of_nil in H. }
  rewrite (retry_when_idle m Hidle), Hw. cbn [fst snd].
  split; [done|]. split; [done|]. split.
  - exists ([elog DEBUG "Retry, state: %s" [AState (_state m)];
             elog DEBUG "Cancel retry timer" []] ++ (_cancel_retry_timer m).1),
           [elog DEBUG "Restart" []],
           [elog DEBUG "Reconnecting to server in %i seconds." [AInt 15]].
    rewrite <- app_assoc. reflexivity.
  - unfold fire_retry_timer, start. cbn.
    unfold _cancel_client_task. destruct (_client_task _); cbn.
    + split; [done|]. do 3 right. left.
    + split; [done|]. do 2 right. left.
Qed.

Lemma retry_from_stopped_witness :
  _state stopped = Some STATE_STOPPED
  /\ _state (retry stopped).2 = Some STATE_STARTING
  /\ _retry_timer (retry stopped).2 = Some (Timer 15).
Proof.
  destruct (retry_from_stopped stopped eq_refl eq_refl) as (H1 & H2 & _).
  split; [reflexivity|]. split; [exact H1|exact H2].
Defined.

(** C6, as written, fails: right after [retry] returns, with the timer
    pending and not yet fired, the state is already Starting. *)
Lemma retry_leaves_stopped_at_once :
  _state stopped = Some STATE_STOPPED
  /\ retry stopped
     = ([elog DEBUG "Retry, state: %s" [AState (Some STATE_STOPPED)];
         elog DEBUG "Cancel retry timer" [];
         EState STATE_STARTING;
         elog DEBUG "Restart" [];
         ECallLater 15;
         elog DEBUG "Reconnecting to server in %i seconds." [AInt 15]],
        set_retry_timer (Some (Timer 15)) (set_state STATE_STARTING __init__))
  /\ _state (retry stopped).2 <> Some STATE_STOPPED.
Proof. split; [reflexivity|]. split; [reflexivity|]. discriminate. Qed.

(** ** The connection loop *)

Lemma retry_stopped_facts (m : SubscriptionManager) :
  _state m = Some STATE_STOPPED -> _wait_time_before_retry m = 15 ->
  websocket (retry m).2 = websocket m
  /\ _is_running (retry m).2 = _is_running m
  /\ _state (retry m).2 = Some STATE_STARTING
  /\ _retry_timer (retry m).2 = Some (Timer 15)
  /\ ECallLater 15 ∈ (retry m).1.
Proof.
  intros Hs Hw. rewrite retry_when_idle.
  - rewrite Hw. cbn [fst snd]. unfold _cancel_retry_timer.
    destruct (_retry_timer m); cbn; repeat split; try done.
    + do 5 right. left.
    + do 4 right. left.
  - rewrite Hs. intros H. apply elem_of_cons in H as [H|H]; [discriminate|].
    apply elem_of_cons in H as [H|H]; [discriminate|]. by apply elem_of_nil in H.
Qed.

Lemma running_finally_running (m : SubscriptionManager) :
  _state m = Some STATE_RUNNING -> websocket m = Some WebSocket ->
  running_finally m
  = ([EClose; elog DEBUG "Reconnecting" []; EState STATE_STOPPED]
       ++ (retry (set_state STATE_STOPPED (set_websocket None m))).1
       ++ [elog DEBUG "Closing running task." []],
     (retry (set_state STATE_STOPPED (set_websocket None m))).2).
Proof.
  intros Hs Hw. unfold running_finally, _close_websocket. rewrite Hw.
  cbn [_state set_websocket]. rewrite Hs. rewrite decide_True by done.
  destruct (retry (set_state STATE_STOPPED (set_websocket None m))) as [t m']. reflexivity.
Qed.

Lemma after_loop_ends (t : trace) (m : SubscriptionManager) (e : loop_end) :
  e <> LoopAwaiting -> e <> LoopDispatching ->
  _state m = Some STATE_RUNNING -> websocket m = Some WebSocket ->
  _wait_time_before_retry m = 15 ->
  after_loop (t, m, e)
  = (t ++ except_Exception e ++ (running_finally m).1, (running_finally m).2, Finished)
  /\ ends_connection (after_loop (t, m, e)).
Proof.
  intros He He' Hs Hw Hwait.
  assert (Heq : after_loop (t, m, e)
     = (t ++ except_Exception e ++ (running_finally m).1, (running_finally m).2, Finished)).
  { unfold after_loop. destruct (running_finally m) as [t' m']. by destruct e. }
  split; [exact Heq|]. rewrite Heq, running_finally_running by done.
  destruct (retry_stopped_facts (set_state STATE_STOPPED (set_websocket None m)))
    as (H1 & _ & _ & H2 & H3); [done..|].
  exists (t ++ except_Exception e), (set_state STATE_STOPPED (set_websocket None m)).
  cbn [fst snd]. split; [by rewrite <- app_assoc|]. by rewrite H1.
Qed.

Lemma not_starting_or_running (st : option State) :
  st = None \/ st = Some STATE_STOPPED ->
  st ∉ [Some STATE_STARTING; Some STATE_RUNNING].
Proof.
  intros [-> | ->] H; apply elem_of_cons in H as [H|H]; try discriminate;
    apply elem_of_cons in H as [H|H]; try discriminate; by apply elem_of_nil in H.
Qed.

Section Loop.

Variable await_callback : awaiting.
Variable fuel : nat.

(** Answered probes, while the idle counter stays at 10 or below, keep the
    loop waiting and the manager as it is. *)
Lemma receive_loop_probes (n : nat) (k : Z) (m : SubscriptionManager) :
  _state m = Some STATE_RUNNING ->
  k + Z.of_nat n <= 10 ->
  receive_loop await_callback fuel k (replicate n (RecvTimeout PongOk)) m
  = (mjoin (replicate n idle_probe), m, LoopAwaiting).
Proof.
  intros Hs. revert k. induction n as [|n IH]; intros k Hk.
  - cbn. by rewrite decide_False by (by rewrite Hs; intros []).
  - cbn [replicate receive_loop]. rewrite decide_False by (by rewrite Hs; intros []).
    replace (k + 1 >? 10) with false
      by (symmetry; apply not_true_is_false; rewrite Z.gtb_lt; lia).
    by rewrite (IH (k + 1) ltac:(lia)).
Qed.

Lemma receive_loop_timeouts (n : nat) (k : Z) (p : ping_outcome)
    (rest : list recv_outcome) (m : SubscriptionManager) :
  _state m = Some STATE_RUNNING ->
  k + Z.of_nat n = 10 ->
  receive_loop await_callback fuel k
    (replicate n (RecvTimeout PongOk) ++ RecvTimeout p :: rest) m
  = (mjoin (replicate n idle_probe)
       ++ (if _show_connection_error m
           then [elog ERROR_ "No data, reconnecting." []] else []),
     gave_up m, LoopReturn).
Proof.
  intros Hs. revert k. induction n as [|n IH]; intros k Hk.
  - cbn [replicate app receive_loop]. rewrite decide_False by (by rewrite Hs; intros []).
    replace (k + 1 >? 10) with true by (symmetry; apply Z.gtb_lt; lia).
    reflexivity.
  - cbn [replicate app receive_loop]. rewrite decide_False by (by rewrite Hs; intros []).
    replace (k + 1 >? 10) with false
      by (symmetry; apply not_true_is_false; rewrite Z.gtb_lt; lia).
    rewrite IH by lia. reflexivity.
Qed.

(** C5, as amended.  In state Running with the idle counter at 0, ten receive
    time-outs whose pings are answered leave the loop waiting, each with a
    ping sent; the eleventh time-out ends it, whatever follows.  A message
    processed normally puts the counter back to 0, whatever it was.  At the
    end no callback was awaited, ten pings were sent, [_is_running] is false,
    the transport is closed, the state was set to Stopped and then, by
    [retry] scheduling the one restart 15 seconds on, to Starting, which is
    the state the manager is left in. *)
Theorem idle_timeouts_end_connection (m : SubscriptionManager) (p : ping_outcome)
    (rest : list recv_outcome) :
  _state m = Some STATE_RUNNING ->
  websocket m = Some WebSocket ->
  _wait_time_before_retry m = 15 ->
  let eleven := replicate 10 (RecvTimeout PongOk) ++ RecvTimeout p :: rest in
  let r := after_loop (receive_loop await_callback fuel 0 eleven m) in
  (forall n, (n <= 10)%nat ->
     receive_loop await_callback fuel 0 (replicate n (RecvTimeout PongOk)) m
     = (mjoin (replicate n idle_probe), m, LoopAwaiting))
  /\ receive_loop await_callback fuel 0 eleven m
     = (mjoin (replicate 10 idle_probe)
          ++ (if _show_connection_error m
              then [elog ERROR_ "No data, reconnecting." []] else []),
        gave_up m, LoopReturn)
  /\ (forall k msg t0 m1 replies,
        msg_type msg ∉ [CLOSED; ERROR] ->
        _process_msg await_callback fuel (set_is_running true m) msg
        = (t0, m1, Done (Ret tt)) ->
        receive_loop await_callback fuel k (RecvMsg msg :: replies) m
        = let '(t, m', e) := receive_loop await_callback fuel 0 replies
                               (set_show_connection_error true m1) in
          (t0 ++ t, m', e))
  /\ ends_connection r
  /\ r.2 = Finished
  /\ pings_sent r.1.1 = 10%nat
  /\ calls_of r.1.1 = []
  /\ states_of r.1.1 = [STATE_STOPPED; STATE_STARTING]
  /\ timers_scheduled r.1.1 = 1%nat
  /\ _is_running r.1.2 = false
  /\ websocket r.1.2 = None
  /\ _state r.1.2 = Some STATE_STARTING
  /\ _retry_timer r.1.2 = Some (Timer 15).
Proof.
  intros Hs Hw Hwait eleven r. subst r eleven.
  split; [intros n Hn; apply receive_loop_probes; [done|lia]|].
  split; [exact (receive_loop_timeouts 10 0 p rest m Hs eq_refl)|].
  split.
  { intros k msg t0 m1 replies Hty Hp. cbn [receive_loop].
    rewrite decide_False by (by rewrite Hs; intros []).
    rewrite decide_False by done. by rewrite Hp. }
  rewrite (receive_loop_timeouts 10 0 p rest m Hs eq_refl).
  assert (Hs' : _state (gave_up m) = Some STATE_RUNNING)
    by (unfold gave_up; destruct (_show_connection_error m); exact Hs).
  assert (Hw' : websocket (gave_up m) = Some WebSocket)
    by (unfold gave_up; destruct (_show_connection_error m); exact Hw).
  assert (Hwait' : _wait_time_before_retry (gave_up m) = 15)
    by (unfold gave_up; destruct (_show_connection_error m); exact Hwait).
  match goal with |- context [after_loop (?t, _, _)] =>
    destruct (after_loop_ends t (gave_up m) LoopReturn ltac:(done) ltac:(done) Hs' Hw' Hwait')
      as [Heq Hend]
  end.
  split; [exact Hend|]. rewrite Heq. cbn [fst snd].
  rewrite running_finally_running by done. cbn [fst snd].
  rewrite retry_when_idle by (apply not_starting_or_running; by right).
  cbn [fst snd]. unfold gave_up, _cancel_retry_timer.
  destruct (_show_connection_error m), (_retry_timer m) eqn:Ht;
    cbn; rewrite ?Ht, ?Hwait; cbn; by repeat split.
Qed.

(** C10.  A message that is not binary and carries data reaches the dispatch
    loop of [_process_msg] with [decoded_data] unbound: with a subscriber
    registered, nothing is awaited and [UnboundLocalError] is raised.  In the
    connection loop the catch-all handler logs it and the [finally] block
    closes the transport, sets the state to Stopped and calls [retry]: the
    one message ends the connection attempt.  (A message of type closed or
    error ends it too, by the [return] before [_process_msg].) *)
Theorem unbound_reading_ends_connection (m : SubscriptionManager) (msg : WSMessage) (d : payload)
    (k : Z) (rest : list recv_outcome) :
  msg_type msg <> BINARY ->
  msg_data msg = Some d ->
  subscriptions m <> [] ->
  _process_msg await_callback fuel m msg
  = ([elog DEBUG "Recv, %s" [AMsg msg]], m, Done (Raise UnboundLocalError))
  /\ (_state m = Some STATE_RUNNING -> websocket m = Some WebSocket ->
      _wait_time_before_retry m = 15 ->
      let r := after_loop (receive_loop await_callback fuel k (RecvMsg msg :: rest) m) in
      ends_connection r
      /\ calls_of r.1.1 = []
      /\ (msg_type msg ∉ [CLOSED; ERROR] ->
          r = ([elog DEBUG "Recv, %s" [AMsg msg]; elog ERROR_ "Unexpected error" []]
                 ++ (running_finally (set_is_running true m)).1,
               (running_finally (set_is_running true m)).2, Finished))).
Proof.
  intros Hty Hd Hsubs.
  assert (Hp : forall m', subscriptions m' = subscriptions m ->
     _process_msg await_callback fuel m' msg
     = ([elog DEBUG "Recv, %s" [AMsg msg]], m', Done (Raise UnboundLocalError))).
  { intros m' Hm'. unfold _process_msg. rewrite Hd, decide_False by done.
    unfold dispatch. rewrite dispatch_from_unbound, Hm'.
    destruct (subscriptions m); [done|reflexivity]. }
  split; [by apply Hp|].
  intros Hs Hw Hwait r. subst r.
  assert (Hcalls : forall m', _state m' = Some STATE_STOPPED ->
            _wait_time_before_retry m' = 15 -> calls_of (retry m').1 = []).
  { intros m' Hs' Hw'. rewrite retry_when_idle.
    - unfold _cancel_retry_timer. by destruct (_retry_timer m').
    - apply not_starting_or_running. by right. }
  cbn [receive_loop]. rewrite decide_False by (by rewrite Hs; intros []).
  destruct (decide (msg_type msg ∈ [CLOSED; ERROR])) as [Hce|Hce].
  - destruct (after_loop_ends [EPrintMsg msg (_state m)] m LoopReturn
                ltac:(done) ltac:(done) Hs Hw Hwait) as [Heq Hend].
    split; [exact Hend|]. split; [|done].
    rewrite Heq, running_finally_running by done. cbn [fst snd].
    rewrite !calls_of_app, Hcalls by done. reflexivity.
  - rewrite Hp by done.
    destruct (after_loop_ends [elog DEBUG "Recv, %s" [AMsg msg]] (set_is_running true m)
                (LoopRaise UnboundLocalError) ltac:(done) ltac:(done) Hs Hw Hwait)
      as [Heq Hend].
    split; [exact Hend|]. split; [|intros _; exact Heq].
    rewrite Heq, running_finally_running by done. cbn [fst snd].
    rewrite !calls_of_app, Hcalls by done. reflexivity.
Qed.

End Loop.

Lemma idle_timeouts_end_connection_witness :
  _state receiving = Some STATE_RUNNING
  /\ websocket receiving = Some WebSocket
  /\ _wait_time_before_retry receiving = 15
  /\ _is_running receiving = true
  /\ receive_loop quiet 8 0 (replicate 10 (RecvTimeout PongOk)) receiving
     = (mjoin (replicate 10 idle_probe), receiving, LoopAwaiting)
  /\ ends_connection
       (after_loop (receive_loop quiet 8 0
          (replicate 10 (RecvTimeout PongOk) ++ [RecvTimeout PongTimeout]) receiving))
  /\ pings_sent (after_loop (receive_loop quiet 8 0
          (replicate 10 (RecvTimeout PongOk) ++ [RecvTimeout PongTimeout]) receiving)).1.1
     = 10%nat
  /\ _is_running (after_loop (receive_loop quiet 8 0
          (replicate 10 (RecvTimeout PongOk) ++ [RecvTimeout PongTimeout]) receiving)).1.2
     = false
  /\ _state (after_loop (receive_loop quiet 8 0
          (replicate 10 (RecvTimeout PongOk) ++ [RecvTimeout PongTimeout]) receiving)).1.2
     = Some STATE_STARTING.
Proof.
  destruct (idle_timeouts_end_connection quiet 8 receiving PongTimeout []
              eq_refl eq_refl eq_refl)
    as (H0 & _ & _ & H1 & _ & H2 & _ & _ & _ & H3 & _ & H4 & _).
  split; [reflexivity|]. split; [reflexivity|]. split; [reflexivity|].
  split; [reflexivity|]. split; [exact (H0 10%nat (le_n 10))|].
  split; [exact H1|]. split; [exact H2|]. split; [exact H3|exact H4].
Defined.

(** C5, as written, fails at the state: the state is Stopped only between two
    lines of the [finally] block, and when the loop has exited and the retry
    is scheduled the state is Starting. *)
Lemma idle_exit_leaves_state_starting :
  _state receiving = Some STATE_RUNNING
  /\ (after_loop (receive_loop quiet 8 0 (replicate 11 (RecvTimeout PongOk)) receiving)).2
     = Finished
  /\ _retry_timer
       (after_loop (receive_loop quiet 8 0 (replicate 11 (RecvTimeout PongOk)) receiving)).1.2
     = Some (Timer 15)
  /\ _state
       (after_loop (receive_loop quiet 8 0 (replicate 11 (RecvTimeout PongOk)) receiving)).1.2
     = Some STATE_STARTING
  /\ _state
       (after_loop (receive_loop quiet 8 0 (replicate 11 (RecvTimeout PongOk)) receiving)).1.2
     <> Some STATE_STOPPED.
Proof. repeat split; try (vm_compute; reflexivity). vm_compute. discriminate. Qed.

Lemma unbound_reading_ends_connection_witness :
  msg_type text_hello <> BINARY
  /\ subscriptions connected <> []
  /\ _process_msg quiet 8 connected text_hello
     = ([elog DEBUG "Recv, %s" [AMsg text_hello]], connected, Done (Raise UnboundLocalError))
  /\ ends_connection (after_loop (receive_loop quiet 8 0 [RecvMsg text_hello] connected)).
Proof.
  assert (H1 : msg_type text_hello <> BINARY) by discriminate.
  assert (H2 : subscriptions connected <> []) by discriminate.
  destruct (unbound_reading_ends_connection quiet 8 connected text_hello
              (PStr (lit "hello")) 0 [] H1 eq_refl H2) as [Hp Hl].
  split; [exact H1|]. split; [exact H2|]. split; [exact Hp|].
  exact (proj1 (Hl eq_refl eq_refl eq_refl)).
Defined.

(** The reach of [decode_kaifa_short_buffer]: one short frame, well delimited
    and with a good check sum, raises [IndexError] out of [_process_msg]
    before any callback, and the connection loop takes it as an unexpected
    error. *)
Example short_frame_ends_connection :
  invalid_frame (Samples.frame Samples.payload_short) = false
  /\ (_process_msg quiet 8 connected
        (mk_msg BINARY (Some (PBytes (Samples.frame Samples.payload_short))))).2
     = Done (Raise IndexError)
  /\ (after_loop (receive_loop quiet 8 0
         [RecvMsg (mk_msg BINARY (Some (PBytes (Samples.frame Samples.payload_short))))]
         connected)).2 = Finished
  /\ states_of (after_loop (receive_loop quiet 8 0
         [RecvMsg (mk_msg BINARY (Some (PBytes (Samples.frame Samples.payload_short))))]
         connected)).1.1 = [STATE_STOPPED; STATE_STARTING].
Proof. vm_compute. repeat split. Qed.

(** The whole coroutine on a peer that stays silent. *)
Example running_silent_peer :
  let r := running quiet 8 ConnectOk (replicate 11 (RecvTimeout PongOk)) __init__ in
  r.2 = Finished
  /\ _state r.1.2 = Some STATE_STARTING
  /\ _is_running r.1.2 = false
  /\ websocket r.1.2 = None
  /\ _retry_timer r.1.2 = Some (Timer 15)
  /\ states_of r.1.1 = [STATE_RUNNING; STATE_STOPPED; STATE_STARTING].
Proof. vm_compute. repeat split. Qed.

(** * Further properties of the code *)

(** ** Which exceptions the decoder raises *)

Lemma int16_raises (x : str) (e : exn) : int16 x = Raise e -> e = ValueError.
Proof.
  unfold int16. destruct x; [by intros [= <-]|].
  destruct (hex_acc 0 (a :: x)); [done|by intros [= <-]].
Qed.

Lemma datetime_new_raises (y m d H M S : Z) (e : exn) :
  datetime_new y m d H M S = Raise e -> e = ValueError.
Proof. unfold datetime_new. case_match; [done|by intros [= <-]]. Qed.

Lemma strptime_raises (date : str) (e : exn) : strptime date = Raise e -> e = ValueError.
Proof.
  unfold strptime. destruct (re_match format_SMH_dmY date) as [[caps rest]|];
    [|by intros [= <-]].
  destruct rest; [apply datetime_new_raises|by intros [= <-]].
Qed.

Lemma unhexlify_raises (x : str) (e : exn) : unhexlify x = Raise e -> e = binascii_Error.
Proof.
  revert e. induction x as [x IH] using (induction_ltof1 _ (@length ascii)).
  unfold ltof in IH. intros e.
  destruct x as [|a [|b x]]; cbn [unhexlify]; [done|by intros [= <-]|].
  destruct (hexval a), (hexval b); try by intros [= <-].
  destruct (unhexlify x) as [bs|e'] eqn:Hx; [done|].
  cbn. intros [= <-]. apply (IH x); [cbn; lia|done].
Qed.

Lemma b16decode_raises (x : str) (e : exn) : b16decode x = Raise e -> is_ValueError e = true.
Proof.
  unfold b16decode. repeat case_match; try by intros [= <-].
  intros Hx. by apply unhexlify_raises in Hx as ->.
Qed.

Lemma utf8_decode_raises (b : list byte) (e : exn) :
  utf8_decode b = Raise e -> e = UnicodeDecodeError.
Proof.
  revert e. induction b as [b IH] using (induction_ltof1 _ (@length byte)).
  unfold ltof in IH. intros e.
  assert (Hrec : forall t, (length t < length b)%nat ->
            forall c : Z, (r0 ← utf8_decode t; Ret (c :: r0)) = Raise e ->
            e = UnicodeDecodeError).
  { intros t Hlt c H. destruct (utf8_decode t) as [r0|e'] eqn:Ht; [done|].
    cbn in H. injection H as <-. by apply (IH t). }
  destruct b as [|b0 t]; [done|]. cbn [utf8_decode]. cbv zeta.
  destruct (byte_val b0 <? 128); [apply (Hrec t); cbn; lia|].
  destruct (in_range 194 223 (byte_val b0)).
  { destruct t as [|b1 t1]; [by intros [= <-]|].
    destruct (is_cont (byte_val b1)); [apply (Hrec t1); cbn; lia|by intros [= <-]]. }
  destruct (in_range 224 239 (byte_val b0)).
  { destruct t as [|b1 [|b2 t2]]; try by intros [= <-].
    case_match; [apply (Hrec t2); cbn; lia|by intros [= <-]]. }
  destruct (in_range 240 244 (byte_val b0)); [|by intros [= <-]].
  destruct t as [|b1 [|b2 [|b3 t3]]]; try by intros [= <-].
  case_match; [apply (Hrec t3); cbn; lia|by intros [= <-]].
Qed.

Lemma W_bind_lift_Raise {A B} (r : result A) (k : A -> W B) (e : exn) :
  (W_bind (W_lift r) k).2 = Raise e ->
  r = Raise e \/ exists a, r = Ret a /\ (k a).2 = Raise e.
Proof.
  destruct r as [a|e']; cbn.
  - destruct (k a) as [l r'] eqn:Hk. cbn. intros ->. right. exists a. by rewrite Hk.
  - intros [= <-]. by left.
Qed.

Ltac raise_step H :=
  apply W_bind_lift_Raise in H as [H|(? & _ & H)];
  [left;
   first [ by apply int16_raises in H as ->
         | by apply strptime_raises in H as ->
         | by apply b16decode_raises in H
         | by apply utf8_decode_raises in H as -> ] |].

(** What the [try] block can raise: a [ValueError] of some kind, or the
    [IndexError] of the log call on an empty rest. *)
Lemma decode_kaifa_body_raises (buf : str) (e : exn) :
  (decode_kaifa_body buf).2 = Raise e ->
  is_ValueError e = true \/ (e = IndexError /\ buf = []).
Proof.
  unfold decode_kaifa_body. intros H. case_decide.
  - destruct buf; [|done]. cbn in H. injection H as <-. by right.
  - do 7 raise_step H.
    case_decide; [raise_step H; done|].
    case_decide; [|done].
    do 7 raise_step H.
    case_decide; [|done].
    do 4 raise_step H. done.
Qed.

(** X1.  On the token stream of any payload, no [ValueError] (of [int],
    [strptime], [b16decode] or [decode]) ever leaves [decode_kaifa]: the
    only exception it can raise is the [IndexError] of the log call
    [buf[0]], and only on a payload of at most 16 bytes.  On every longer
    payload it returns. *)
Theorem decode_kaifa_only_raises_IndexError (data : list byte) (e : exn) :
  (decode_kaifa (hex_upper data)).2 = Raise e ->
  e = IndexError /\ (length data <= 16)%nat.
Proof.
  unfold decode_kaifa. intros H. case_decide as Hc; [done|].
  rewrite length_field_parses in H by done. rewrite W_bind_lift_ret in H.
  case_decide; [done|].
  rewrite except_ValueError_outcome in H.
  destruct (decode_kaifa_body (slice_from 32 (hex_upper data))).2 as [o|e'] eqn:Hb; [done|].
  apply decode_kaifa_body_raises in Hb as [Hv|[-> Hnil]].
  - by rewrite Hv in H.
  - cbn in H. injection H as <-. split; [done|].
    apply (f_equal length) in Hnil. unfold slice_from in Hnil.
    rewrite length_drop, hex_upper_length in Hnil. cbn in Hnil. lia.
Qed.

Lemma decode_kaifa_only_raises_IndexError_witness :
  (decode_kaifa (hex_upper (bytes_of Samples.payload_short))).2 = Raise IndexError
  /\ (length (bytes_of Samples.payload_short) <= 16)%nat.
Proof.
  assert (H : (decode_kaifa (hex_upper (bytes_of Samples.payload_short))).2 = Raise IndexError)
    by (vm_compute; reflexivity).
  split; [exact H|].
  exact (proj2 (decode_kaifa_only_raises_IndexError _ _ H)).
Defined.

(** ** The length byte, the rendering and the check sum *)

Lemma slice_length_le {A} (i j : nat) (x : list A) (y : list A) :
  slice i j x = y -> (length y <= length x - i)%nat.
Proof. intros <-. unfold slice. rewrite length_take, length_drop. lia. Qed.

(** X2.  Whenever [decode_kaifa] returns a reading, the second byte of the
    payload is the number of bytes of the payload (check sum included), and
    that number is between 32 and 255: no payload of 256 bytes or more ever
    gives a reading. *)
Theorem reading_needs_declared_length (data : list byte) (l : list log_record) (r : Reading) :
  decode_kaifa (hex_upper data) = (l, Ret (Some r)) ->
  exists b, data !! 1%nat = Some b
            /\ byte_val b = len data
            /\ 32 <= len data <= 255.
Proof.
  intros H. apply decode_kaifa_Some in H as (Hc & (n & Hn & Hl) & H).
  apply decode_kaifa_body_Some in H as (_ & t & H).
  assert (Hlen : (32 <= length data)%nat).
  { assert (Htag : exists y, slice 30 32 (slice_from 32 (hex_upper data)) = y
                             /\ length y = 2%nat).
    { destruct H as [(-> & _)|[(-> & _)|(-> & _)]]; eauto. }
    destruct Htag as (y & Hy & Hy2). apply slice_length_le in Hy.
    unfold slice_from in Hy. rewrite length_drop, hex_upper_length in Hy. lia. }
  rewrite length_field_parses in Hn by done. injection Hn as <-.
  destruct data as [|b0 [|b1 data]]; cbn in Hlen; try lia.
  exists b1. split; [done|].
  unfold len in *. rewrite hex_upper_length in Hl.
  change (be_int (slice 1 2 (b0 :: b1 :: data))) with (0 * 256 + byte_val b1) in Hl.
  pose proof (byte_val_range b1). cbn [length] in *. lia.
Qed.

Lemma reading_needs_declared_length_witness :
  decode_kaifa (hex_upper (bytes_of Samples.payload_list1))
  = ([], Ret (Some (reading_01 Samples.stamp 920)))
  /\ exists b, bytes_of Samples.payload_list1 !! 1%nat = Some b
               /\ byte_val b = len (bytes_of Samples.payload_list1)
               /\ 32 <= len (bytes_of Samples.payload_list1) <= 255.
Proof.
  assert (H : decode_kaifa (hex_upper (bytes_of Samples.payload_list1))
              = ([], Ret (Some (reading_01 Samples.stamp 920))))
    by (vm_compute; reflexivity).
  split; [exact H|].
  exact (reading_needs_declared_length _ _ _ H).
Defined.

(** X3.  The token stream [_process_msg] builds from the payload, two
    upper-case hexadecimal digits a byte, loses nothing: [b16decode] gives
    the payload back, the stream is twice as long, a slice at even offsets
    is the rendering of the bytes in between (the way [decode_kaifa]
    addresses its fields), and two payloads with the same stream are
    equal. *)
Theorem hex_upper_round_trip (data : list byte) :
  b16decode (hex_upper data) = Ret data
  /\ length (hex_upper data) = (2 * length data)%nat
  /\ (forall i j, slice (2 * i) (2 * j) (hex_upper data) = hex_upper (slice i j data))
  /\ (forall data', hex_upper data' = hex_upper data -> data' = data).
Proof.
  split; [apply b16decode_hex_upper|]. split; [apply hex_upper_length|].
  split; [intros; apply hex_upper_slice|].
  intros data' H. apply (f_equal b16decode) in H.
  rewrite !b16decode_hex_upper in H. by injection H.
Qed.

Lemma slice_to_neg_app2 {A} (body : list A) (a b : A) :
  slice_to_neg 2 (body ++ [a; b]) = body.
Proof.
  unfold slice_to_neg. rewrite length_app. cbn [length].
  replace (length body + 2 - 2)%nat with (length body) by lia.
  by rewrite take_app_length.
Qed.

Lemma slice_from_neg_app2 {A} (body : list A) (a b : A) :
  slice_from_neg 2 (body ++ [a; b]) = [a; b].
Proof.
  unfold slice_from_neg. rewrite length_app. cbn [length].
  replace (length body + 2 - 2)%nat with (length body) by lia.
  by rewrite drop_app_length.
Qed.

(** X4.  For every body there is exactly one two-byte trailer the check
    accepts: the 16-bit complement of the CRC of the body, low byte first.
    On every other trailer the check logs the computed value and the
    little-endian value of the trailer, and goes on. *)
Theorem crc_check_verdict (body : list byte) (lo hi : byte) :
  let c := 65535 - crc16_reflected X25_POLY 0xFFFF body in
  0 <= c < 65536
  /\ crc_check (body ++ [lo; hi])
     = if decide (byte_val lo = c mod 256 /\ byte_val hi = c / 256)
       then ([], Ret tt)
       else ([elog ERROR_ "Invalid crc %s %s"
                [AInt c; AInt (byte_val lo + 256 * byte_val hi)]], Ret tt).
Proof.
  intros c.
  destruct (crc_is_bitwise body) as [He Hr].
  assert (Hc : 0 <= c < 65536) by (subst c; rewrite <- He; lia).
  split; [exact Hc|].
  unfold crc_check, crc_trailer. rewrite slice_from_neg_app2. cbn [unpack_le16].
  rewrite crc_computed_inverted, slice_to_neg_app2. fold c.
  pose proof (byte_val_range lo). pose proof (byte_val_range hi).
  pose proof (Z.div_mod c 256 ltac:(lia)).
  pose proof (Z.mod_pos_bound c 256 ltac:(lia)).
  repeat case_decide; try done; exfalso; lia.
Qed.

(** ** The decoder registry and the dispatch *)


Lemma apply_decoder_Kaifa (d : decoder) (buf : str) : apply_decoder d buf = decode_kaifa buf.
Proof. by destruct d. Qed.

(** X5.  With the registry as [__init__] sets it up (the one decoder, which
    is also the default), a payload the decoder has no result for is decoded
    twice, once as the default and once in the loop over the registry, so
    every record it logs is logged twice; a reading is returned after one
    run, and an exception of the first run goes out at once.  The manager is
    the same in every case. *)
Theorem decode_runs_decoder_again (m : SubscriptionManager) (buf : str) :
  _decoders m = [Kaifa] ->
  (forall l r, decode_kaifa buf = (l, Ret (Some r)) ->
               decode m buf = (logs l, m, Ret (Some r)))
  /\ (forall l, decode_kaifa buf = (l, Ret None) ->
                decode m buf = (logs (l ++ l), m, Ret None))
  /\ (forall l e, decode_kaifa buf = (l, Raise e) ->
                  decode m buf = (logs l, m, Raise e)).
Proof.
  intros Hd. unfold decode. rewrite apply_decoder_Kaifa, Hd.
  cbn [try_decoders]. rewrite apply_decoder_Kaifa.
  repeat split.
  - by intros l r ->.
  - intros l ->. cbn. by rewrite app_nil_r.
  - by intros l e ->.
Qed.

Lemma decode_runs_decoder_again_witness :
  _decoders __init__ = [Kaifa]
  /\ decode __init__ (hex_upper (bytes_of Samples.payload_type05))
     = ([elog WARNING "Unknown type %s" [AStr (lit "05")];
         elog WARNING "Unknown type %s" [AStr (lit "05")]], __init__, Ret None).
Proof.
  split; [reflexivity|].
  destruct (decode_runs_decoder_again __init__
              (hex_upper (bytes_of Samples.payload_type05)) eq_refl) as (_ & H & _).
  apply (H [Log WARNING "Unknown type %s" [AStr (lit "05")]]).
  vm_compute. reflexivity.
Defined.

Lemma calls_of_ECall (cb : callback) (d : option Reading) (t : trace) :
  calls_of (ECall cb d :: t) = (cb, d) :: calls_of t.
Proof. reflexivity. Qed.

Section MoreDispatch.

Variable await_callback : awaiting.
Variable fuel : nat.

(** The walk up to a callback that raises, from position [i]. *)
Lemma dispatch_from_raising (d : option Reading) (before after : list callback)
    (cb : callback) (e : exn) (n i : nat) (m : SubscriptionManager) :
  (forall c m0, c ∈ before ->
     exists t m1, await_callback c d m0 = (t, m1, Ret tt)
                  /\ subscriptions m1 = subscriptions m0 /\ calls_of t = []) ->
  (forall m0, subscriptions m0 = before ++ cb :: after ->
     exists t m1, await_callback cb d m0 = (t, m1, Raise e) /\ calls_of t = []) ->
  subscriptions m = before ++ cb :: after ->
  (i <= length before)%nat ->
  (length before - i < n)%nat ->
  exists t m',
    dispatch_from await_callback n (Some d) i m = (t, m', Done (Raise e))
    /\ calls_of t = ((fun c => (c, d)) <$> drop i before) ++ [(cb, d)].
Proof.
  intros Hb Hcb. revert i m. induction n as [|n IH]; intros i m Hm Hi Hn; [lia|].
  cbn [dispatch_from]. rewrite Hm.
  destruct (decide (i = length before)) as [->|Hne].
  - rewrite list_lookup_middle by done.
    destruct (Hcb m Hm) as (t & m1 & -> & Hc).
    exists (ECall cb d :: t), m1. split; [done|].
    by rewrite drop_all, calls_of_ECall, Hc.
  - assert (Hlt : (i < length before)%nat) by lia.
    destruct (lookup_lt_is_Some_2 before i Hlt) as [c Hc].
    rewrite lookup_app_l by done. rewrite Hc.
    destruct (Hb c m (list_elem_of_lookup_2 _ _ _ Hc)) as (t & m1 & -> & Hs & Hcalls).
    destruct (IH (S i) m1) as (t' & m' & -> & Hc'); [congruence|lia|lia|].
    exists (ECall c d :: t ++ t'), m'. split; [done|].
    rewrite calls_of_ECall, calls_of_app, Hcalls, Hc'.
    by rewrite (drop_S _ c i Hc).
Qed.

(** X6.  The dispatch loop has no handler of its own: when the callback of a
    subscriber raises, the subscribers before it having returned normally
    and left the subscriber list as it is, they have been awaited in order,
    those after it are not awaited at all, and the exception leaves the
    loop. *)
Theorem raising_callback_stops_dispatch (d : option Reading)
    (before after : list callback) (cb : callback) (e : exn) (m : SubscriptionManager) :
  (forall c m0, c ∈ before ->
     exists t m1, await_callback c d m0 = (t, m1, Ret tt)
                  /\ subscriptions m1 = subscriptions m0 /\ calls_of t = []) ->
  (forall m0, subscriptions m0 = before ++ cb :: after ->
     exists t m1, await_callback cb d m0 = (t, m1, Raise e) /\ calls_of t = []) ->
  subscriptions m = before ++ cb :: after ->
  (length before < fuel)%nat ->
  exists t m',
    dispatch await_callback fuel (Some d) m = (t, m', Done (Raise e))
    /\ calls_of t = ((fun c => (c, d)) <$> before) ++ [(cb, d)].
Proof.
  intros Hb Hcb Hm Hfuel. unfold dispatch.
  destruct (dispatch_from_raising d before after cb e fuel 0 m Hb Hcb Hm)
    as (t & m' & H1 & H2); [lia..|].
  exists t, m'. by rewrite drop_0 in H2.
Qed.

Lemma decode_Some (m : SubscriptionManager) (buf : str) (l : list log_record) (r : Reading) :
  decode_kaifa buf = (l, Ret (Some r)) -> decode m buf = (logs l, m, Ret (Some r)).
Proof. intros H. unfold decode. by rewrite apply_decoder_Kaifa, H. Qed.

(** X7.  End to end for a list-1 frame: a well delimited binary message
    whose payload passes the three validations, carries a time stamp of the
    calendar and has record type ['01'] is handed to every subscriber once,
    in order of subscription, as the reading of its time stamp and Effect,
    when the callbacks return normally and leave the subscriber list as it
    is; [_process_msg] then returns normally, whatever the check sum says. *)
Theorem list1_frame_reaches_subscribers (m : SubscriptionManager) (data : list byte) :
  invalid_frame data = false ->
  validated (strip_delimiters data) -> valid_stamp (strip_delimiters data) ->
  pkt_type_of (hex_upper (strip_delimiters data)) = lit "01" ->
  (33 < length (strip_delimiters data))%nat ->
  let reading := reading_01 (stamp_of (strip_delimiters data))
                            (be_int (slice 33 37 (strip_delimiters data))) in
  returns_quietly await_callback (Some reading) ->
  (length (subscriptions m) <= fuel)%nat ->
  exists t m',
    _process_msg await_callback fuel m (mk_msg BINARY (Some (PBytes data)))
    = (t, m', Done (Ret tt))
    /\ calls_of t = (fun cb => (cb, Some reading)) <$> subscriptions m
    /\ subscriptions m' = subscriptions m.
Proof.
  intros Hv Hval Hs Hp Hlen reading Hq Hfuel.
  destruct (valid_frame_processing await_callback fuel m data Hv) as (lo & hi & _ & H).
  cbv zeta in H. rewrite H. clear H.
  unfold process_payload.
  rewrite (decode_Some m _ [] reading) by (by apply decode_kaifa_list1).
  destruct (dispatch_all await_callback fuel (Some reading) m Hq Hfuel)
    as (t & m' & -> & Hc & Hsub).
  cbn [fst snd].
  eexists _, m'. split; [reflexivity|]. split; [|exact Hsub].
  rewrite !calls_of_app, Hc. cbn [logs map app].
  case_decide; reflexivity.
Qed.

End MoreDispatch.

Lemma raising_callback_stops_dispatch_witness :
  subscriptions (subscribe 3%nat (subscribe 2%nat (subscribe 1%nat __init__)))
  = [1%nat] ++ 2%nat :: [3%nat]
  /\ exists t m',
      dispatch second_raises 8 (Some None)
        (subscribe 3%nat (subscribe 2%nat (subscribe 1%nat __init__)))
      = (t, m', Done (Raise OtherError))
      /\ calls_of t = [(1%nat, None); (2%nat, None)].
Proof.
  split; [reflexivity|].
  apply (raising_callback_stops_dispatch second_raises 8 None [1%nat] [3%nat] 2%nat
           OtherError (subscribe 3%nat (subscribe 2%nat (subscribe 1%nat __init__)))).
  - intros c m0 Hc. apply list_elem_of_singleton in Hc as ->. by exists [], m0.
  - intros m0 _. by exists [], m0.
  - reflexivity.
  - cbn. lia.
Defined.

Lemma list1_frame_reaches_subscribers_witness :
  invalid_frame (Samples.frame Samples.payload_list1) = false
  /\ exists t m',
      _process_msg quiet 8 (subscribe 2%nat (subscribe 1%nat __init__))
        (mk_msg BINARY (Some (PBytes (Samples.frame Samples.payload_list1))))
      = (t, m', Done (Ret tt))
      /\ calls_of t = [(1%nat, Some (reading_01 Samples.stamp 920));
                       (2%nat, Some (reading_01 Samples.stamp 920))]
      /\ subscriptions m' = [1%nat; 2%nat].
Proof.
  split; [reflexivity|].
  destruct sample_frames_validated as (V1 & S1 & _).
  apply (list1_frame_reaches_subscribers quiet 8 (subscribe 2%nat (subscribe 1%nat __init__))
           (Samples.frame Samples.payload_list1)).
  - reflexivity.
  - exact V1.
  - exact S1.
  - reflexivity.
  - vm_compute. lia.
  - apply quiet_returns_quietly.
  - vm_compute. lia.
Defined.

(** ** Subscriptions over time *)

(** X8.  Whatever sequence of [subscribe] and [unsubscribe] calls a fresh
    manager sees, its subscriber list never holds a callback twice. *)
Theorem subscriptions_never_repeat (ops : list sub_op) :
  NoDup (subscriptions (apply_sub_ops ops __init__))
  /\ forall cb, (occurrences cb (subscriptions (apply_sub_ops ops __init__)) <= 1)%nat.
Proof.
  assert (H : NoDup (subscriptions (apply_sub_ops ops __init__))).
  { unfold apply_sub_ops. generalize init_NoDup. generalize __init__.
    induction ops as [|op ops IH]; intros m Hm; [done|].
    cbn [foldl]. apply IH. destruct op; unfold apply_sub_op.
    - by apply subscribe_NoDup.
    - by apply unsubscribe_NoDup. }
  split; [exact H|]. intros cb.
  destruct (decide (cb ∈ subscriptions (apply_sub_ops ops __init__))).
  - rewrite occurrences_NoDup by done. lia.
  - rewrite occurrences_notin by done. lia.
Qed.

Lemma list_remove_notin (cb : callback) (subs : list callback) :
  cb ∉ subs -> list_remove cb subs = subs.
Proof.
  induction subs as [|x subs IH]; intros H; [done|].
  apply not_elem_of_cons in H as [Hx H]. cbn.
  rewrite decide_False by done. by rewrite IH.
Qed.

Lemma list_remove_snoc (cb : callback) (subs : list callback) :
  cb ∉ subs -> list_remove cb (subs ++ [cb]) = subs.
Proof.
  induction subs as [|x subs IH]; intros H.
  - cbn. by rewrite decide_True.
  - apply not_elem_of_cons in H as [Hx H]. cbn.
    rewrite decide_False by done. by rewrite IH.
Qed.

Lemma list_remove_NoDup_notin (cb : callback) (subs : list callback) :
  NoDup subs -> cb ∉ list_remove cb subs.
Proof.
  induction subs as [|x subs IH]; intros Hnd; [apply not_elem_of_nil|].
  apply NoDup_cons in Hnd as [Hx Hnd]. cbn. case_decide as Heq.
  - by subst.
  - apply not_elem_of_cons. split; [done|by apply IH].
Qed.

Lemma set_subscriptions_same (m : SubscriptionManager) :
  set_subscriptions (subscriptions m) m = m.
Proof. by destruct m. Qed.

(** X9.  On a subscriber list free of duplicates, [unsubscribe] removes
    the callback altogether and touches no other subscriber; and
    unsubscribing a callback right after subscribing it, when it was not
    there before, gives the manager back as it was. *)
Theorem unsubscribe_undoes_subscribe (m : SubscriptionManager) (cb : callback) :
  NoDup (subscriptions m) ->
  (cb ∉ subscriptions (unsubscribe cb m))
  /\ (forall other, other <> cb ->
        ((other ∈ subscriptions (unsubscribe cb m)) <-> (other ∈ subscriptions m)))
  /\ (cb ∉ subscriptions m -> unsubscribe cb (subscribe cb m) = m).
Proof.
  intros Hnd. split; [|split].
  - unfold unsubscribe. case_decide; [done|]. cbn. by apply list_remove_NoDup_notin.
  - intros other Hne. unfold unsubscribe. case_decide; [done|]. cbn.
    clear Hnd H. induction (subscriptions m) as [|x subs IH]; [done|].
    cbn. case_decide as Heq.
    + subst x. rewrite elem_of_cons. split; [by right|by intros [?|?]].
    + rewrite !elem_of_cons, IH. done.
  - intros Hnot. unfold subscribe. rewrite decide_False by done.
    unfold unsubscribe. cbn [subscriptions set_subscriptions].
    rewrite decide_False.
    + rewrite list_remove_snoc by done. by destruct m.
    + intros Hn. apply Hn, elem_of_app. right. by left.
Qed.

Lemma unsubscribe_undoes_subscribe_witness :
  NoDup (subscriptions (subscribe 4%nat __init__))
  /\ unsubscribe 7%nat (subscribe 7%nat (subscribe 4%nat __init__)) = subscribe 4%nat __init__
  /\ 4%nat ∉ subscriptions (unsubscribe 4%nat (subscribe 4%nat __init__)).
Proof.
  assert (H : NoDup (subscriptions (subscribe 4%nat __init__)))
    by (apply subscribe_NoDup, init_NoDup).
  split; [exact H|]. split.
  - destruct (unsubscribe_undoes_subscribe (subscribe 4%nat __init__) 7%nat H) as (_ & _ & Hu).
    apply Hu. vm_compute. intros Hin.
    apply elem_of_cons in Hin as [Hin|Hin]; [discriminate|]. by apply elem_of_nil in Hin.
  - exact (proj1 (unsubscribe_undoes_subscribe (subscribe 4%nat __init__) 4%nat H)).
Defined.

(** ** Starting and retrying again *)

(** X10.  In any state but Running, [start] sets the state to Starting and
    creates exactly one connection task, cancelling the task it holds if
    there is one.  The state Starting does not guard against a second call:
    [start] called again cancels the task just created and creates
    another. *)
Theorem start_again_restarts (m : SubscriptionManager) :
  _state m <> Some STATE_RUNNING ->
  _state (start m).2 = Some STATE_STARTING
  /\ _client_task (start m).2 = Some Task
  /\ tasks_created (start m).1 = 1%nat
  /\ ((ETaskCancel ∈ (start m).1) <-> _client_task m <> None)
  /\ start (start m).2
     = ([elog DEBUG "Start state %s." [AState (Some STATE_STARTING)];
         EState STATE_STARTING; ETaskCancel; ECreateTask], (start m).2).
Proof.
  intros Hs. destruct m as [subs st ws tm task w sh ir ds dd]. cbn in Hs.
  unfold start, _cancel_client_task. cbn. rewrite !decide_False by done.
  destruct task as [[]|]; cbn.
  - do 3 (split; [done|]). split; [|done].
    split; [done|]. intros _. do 2 right. left.
  - do 3 (split; [done|]). split; [|done].
    split; [|done]. intros H. exfalso.
    repeat (apply elem_of_cons in H as [H|H]; [discriminate|]). by apply elem_of_nil in H.
Qed.

Lemma start_again_restarts_witness :
  _state __init__ <> Some STATE_RUNNING
  /\ (start __init__).1
     = [elog DEBUG "Start state %s." [AState None]; EState STATE_STARTING; ECreateTask]
  /\ (start (start __init__).2).1
     = [elog DEBUG "Start state %s." [AState (Some STATE_STARTING)];
        EState STATE_STARTING; ETaskCancel; ECreateTask].
Proof.
  assert (H : _state __init__ <> Some STATE_RUNNING) by discriminate.
  destruct (start_again_restarts __init__ H) as (_ & _ & _ & _ & H2).
  split; [exact H|]. split; [reflexivity|]. by rewrite H2.
Defined.

(** X11.  In any state but Starting and Running, [retry] schedules exactly
    one timer; a second [retry] right after finds the state Starting and
    schedules nothing, so the two calls together leave one timer. *)
Theorem retry_again_schedules_nothing (m : SubscriptionManager) :
  _state m ∉ [Some STATE_STARTING; Some STATE_RUNNING] ->
  timers_scheduled (retry m).1 = 1%nat
  /\ retry (retry m).2
     = ([elog DEBUG "Retry, state: %s" [AState (Some STATE_STARTING)];
         elog DEBUG "Skip retry since state: %s" [AState (Some STATE_STARTING)]],
        (retry m).2)
  /\ timers_scheduled ((retry m).1 ++ (retry (retry m).2).1) = 1%nat.
Proof.
  intros H. rewrite (retry_when_idle m H). cbn [fst snd].
  assert (H1 : timers_scheduled
            ([elog DEBUG "Retry, state: %s" [AState (_state m)];
              elog DEBUG "Cancel retry timer" []] ++ (_cancel_retry_timer m).1 ++
             [EState STATE_STARTING; elog DEBUG "Restart" [];
              ECallLater (_wait_time_before_retry m);
              elog DEBUG "Reconnecting to server in %i seconds."
                   [AInt (_wait_time_before_retry m)]]) = 1%nat).
  { unfold _cancel_retry_timer. by destruct (_retry_timer m). }
  assert (H2 : retry (set_retry_timer (Some (Timer (_wait_time_before_retry m)))
                        (set_state STATE_STARTING (_cancel_retry_timer m).2))
               = ([elog DEBUG "Retry, state: %s" [AState (Some STATE_STARTING)];
                   elog DEBUG "Skip retry since state: %s" [AState (Some STATE_STARTING)]],
                  set_retry_timer (Some (Timer (_wait_time_before_retry m)))
                    (set_state STATE_STARTING (_cancel_retry_timer m).2))).
  { unfold retry. cbn [_state set_retry_timer set_state].
    rewrite decide_True by left. reflexivity. }
  split; [exact H1|]. split; [exact H2|].
  rewrite H2. cbn [fst]. unfold timers_scheduled in *.
  rewrite omap_app, length_app, H1. reflexivity.
Qed.

Lemma retry_again_schedules_nothing_witness :
  (_state stopped ∉ [Some STATE_STARTING; Some STATE_RUNNING])
  /\ timers_scheduled ((retry stopped).1 ++ (retry (retry stopped).2).1) = 1%nat.
Proof.
  assert (H : _state stopped ∉ [Some STATE_STARTING; Some STATE_RUNNING]).
  { cbn. intros Hin. apply elem_of_cons in Hin as [Hin|Hin]; [discriminate|].
    apply elem_of_cons in Hin as [Hin|Hin]; [discriminate|]. by apply elem_of_nil in Hin. }
  split; [exact H|].
  exact (proj2 (proj2 (retry_again_schedules_nothing stopped H))).
Defined.

(** ** The idle probes *)

Lemma pings_sent_probes (n : nat) : pings_sent (mjoin (replicate n idle_probe)) = n.
Proof.
  induction n as [|n IH]; [done|].
  change (mjoin (replicate (S n) idle_probe))
    with (idle_probe ++ mjoin (replicate n idle_probe)).
  unfold pings_sent in *. rewrite omap_app, length_app, IH. reflexivity.
Qed.

Section MoreLoop.

Variable await_callback : awaiting.
Variable fuel : nat.

(** X12.  While the idle counter stays at 10 or below, receive time-outs
    whose pings are answered keep the connection: after [n] of them, from a
    counter [k] with [k + n <= 10], the loop is still waiting, the manager
    is untouched, and exactly [n] pings were sent. *)
Theorem answered_probes_keep_connection (n : nat) (k : Z) (m : SubscriptionManager) :
  _state m = Some STATE_RUNNING ->
  k + Z.of_nat n <= 10 ->
  receive_loop await_callback fuel k (replicate n (RecvTimeout PongOk)) m
  = (mjoin (replicate n idle_probe), m, LoopAwaiting)
  /\ pings_sent (mjoin (replicate n idle_probe)) = n.
Proof.
  intros Hs Hk. split; [by apply receive_loop_probes|apply pings_sent_probes].
Qed.

(** X13.  One unanswered ping is enough: with the idle counter below 10, a
    receive time-out whose ping times out ends the connection attempt the
    way the eleventh time-out does; [is_running] is false afterwards, the
    connection error is marked as shown, and no callback was awaited. *)
Theorem unanswered_probe_ends_connection (k : Z) (rest : list recv_outcome)
    (m : SubscriptionManager) :
  _state m = Some STATE_RUNNING ->
  websocket m = Some WebSocket ->
  _wait_time_before_retry m = 15 ->
  k < 10 ->
  let r := after_loop (receive_loop await_callback fuel k
                         (RecvTimeout PongTimeout :: rest) m) in
  ends_connection r
  /\ is_running r.1.2 = false
  /\ _show_connection_error r.1.2 = false
  /\ calls_of r.1.1 = [].
Proof.
  intros Hs Hw Hwait Hk r. subst r.
  cbn [receive_loop]. rewrite decide_False by (by rewrite Hs; intros []).
  replace (k + 1 >? 10) with false
    by (symmetry; apply not_true_is_false; rewrite Z.gtb_lt; lia).
  fold (gave_up m).
  assert (Hs' : _state (gave_up m) = Some STATE_RUNNING)
    by (unfold gave_up; destruct (_show_connection_error m); exact Hs).
  assert (Hw' : websocket (gave_up m) = Some WebSocket)
    by (unfold gave_up; destruct (_show_connection_error m); exact Hw).
  assert (Hwait' : _wait_time_before_retry (gave_up m) = 15)
    by (unfold gave_up; destruct (_show_connection_error m); exact Hwait).
  match goal with |- context [after_loop (?t, _, _)] =>
    destruct (after_loop_ends t (gave_up m) LoopReturn ltac:(done) ltac:(done)
                Hs' Hw' Hwait') as [Heq Hend]
  end.
  split; [exact Hend|]. rewrite Heq. cbn [fst snd].
  rewrite running_finally_running by done. cbn [fst snd].
  rewrite retry_when_idle by (apply not_starting_or_running; by right).
  unfold is_running, gave_up, _cancel_retry_timer.
  destruct (_show_connection_error m) eqn:Hsh; cbn; rewrite ?Hsh;
    destruct (_retry_timer m); cbn; by repeat split.
Qed.

End MoreLoop.

Lemma answered_probes_keep_connection_witness :
  _state connected = Some STATE_RUNNING
  /\ 7 + Z.of_nat 3 <= 10
  /\ receive_loop quiet 8 7 (replicate 3 (RecvTimeout PongOk)) connected
     = (mjoin (replicate 3 idle_probe), connected, LoopAwaiting).
Proof.
  assert (H : 7 + Z.of_nat 3 <= 10) by (vm_compute; discriminate).
  split; [reflexivity|]. split; [exact H|].
  exact (proj1 (answered_probes_keep_connection quiet 8 3 7 connected eq_refl H)).
Defined.

Lemma unanswered_probe_ends_connection_witness :
  _state connected = Some STATE_RUNNING
  /\ websocket connected = Some WebSocket
  /\ _wait_time_before_retry connected = 15
  /\ 0 < 10
  /\ ends_connection
       (after_loop (receive_loop quiet 8 0 [RecvTimeout PongTimeout] connected)).
Proof.
  assert (H : 0 < 10) by reflexivity.
  split; [reflexivity|]. split; [reflexivity|]. split; [reflexivity|]. split; [exact H|].
  exact (proj1 (unanswered_probe_ends_connection quiet 8 0 [] connected
                  eq_refl eq_refl eq_refl H)).
Defined.

(** ** What a connection attempt comes to *)









Section Running.

Variable await_callback : awaiting.
Variable fuel : nat.






(** X16.  When the loop condition finds the state Stopped (as [stop] sets
    it), the loop is left without a receive, and the [finally] block closes
    the transport and does not call [retry]: nothing is scheduled, the state
    stays Stopped. *)
Theorem stopped_loop_does_not_reconnect (k : Z) (replies : list recv_outcome)
    (m : SubscriptionManager) :
  _state m = Some STATE_STOPPED ->
  after_loop (receive_loop await_callback fuel k replies m)
  = ((_close_websocket m).1 ++ [elog DEBUG "Closing running task." []],
     set_websocket None m, Finished).
Proof.
  intros Hs. destruct replies; cbn [receive_loop];
    rewrite decide_True by (by rewrite Hs);
    unfold after_loop, running_finally, _close_websocket;
    destruct m as [subs st ws tm task w sh ir ds dd]; cbn in *; subst st;
    destruct ws as [[]|]; cbn; reflexivity.
Qed.

(** X18.  A well delimited binary message of at most 18 bytes whose payload
    passes the control-field and the length validation makes
    [_process_msg] raise [IndexError], from the log call of [decode_kaifa]
    on the empty rest, before any callback is awaited; in the connection
    loop this one message ends the connection attempt. *)
Theorem short_frame_raises_IndexError (m : SubscriptionManager) (data : list byte) :
  invalid_frame data = false ->
  control_field_ok (hex_upper (strip_delimiters data)) ->
  length_field_ok (hex_upper (strip_delimiters data)) ->
  (length data <= 18)%nat ->
  exists t,
    _process_msg await_callback fuel m (mk_msg BINARY (Some (PBytes data)))
    = (t, m, Done (Raise IndexError))
    /\ calls_of t = []
    /\ (_state m = Some STATE_RUNNING -> websocket m = Some WebSocket ->
        _wait_time_before_retry m = 15 ->
        forall k rest,
          ends_connection
            (after_loop (receive_loop await_callback fuel k
               (RecvMsg (mk_msg BINARY (Some (PBytes data))) :: rest) m))).
Proof.
  intros Hv Hc Hl Hlen.
  assert (Hd : decode_kaifa (hex_upper (strip_delimiters data)) = ([], Raise IndexError)).
  { apply decode_kaifa_short_buffer; [done..|].
    rewrite hex_upper_length, strip_delimiters_length. lia. }
  assert (Hp : forall m', exists t,
             _process_msg await_callback fuel m' (mk_msg BINARY (Some (PBytes data)))
             = (t, m', Done (Raise IndexError)) /\ calls_of t = []).
  { intros m'.
    destruct (valid_frame_processing await_callback fuel m' data Hv) as (lo & hi & _ & H).
    cbv zeta in H. rewrite H. clear H.
    unfold process_payload, decode. rewrite apply_decoder_Kaifa, Hd. cbn [fst snd logs map].
    eexists. split; [reflexivity|].
    rewrite !calls_of_app. by case_decide. }
  destruct (Hp m) as (t & Ht & Hcalls). exists t. split; [exact Ht|]. split; [exact Hcalls|].
  intros Hs Hw Hwait k rest.
  cbn [receive_loop]. rewrite decide_False by (by rewrite Hs; intros []).
  rewrite decide_False.
  2:{ cbn. intros H. apply elem_of_cons in H as [H|H]; [discriminate|].
      apply elem_of_cons in H as [H|H]; [discriminate|]. by apply elem_of_nil in H. }
  destruct (Hp (set_is_running true m)) as (t' & -> & _).
  by apply after_loop_ends.
Qed.

End Running.




Lemma stopped_loop_does_not_reconnect_witness :
  _state (stop 10 [] connected).1.2 = Some STATE_STOPPED
  /\ after_loop (receive_loop quiet 8 0 [RecvMsg text_hello] (stop 10 [] connected).1.2)
     = ([elog DEBUG "Closing running task." []], (stop 10 [] connected).1.2, Finished).
Proof.
  split; [reflexivity|].
  exact (stopped_loop_does_not_reconnect quiet 8 0 [RecvMsg text_hello]
           (stop 10 [] connected).1.2 eq_refl).
Defined.

Lemma short_frame_raises_IndexError_witness :
  invalid_frame (Samples.frame Samples.payload_short) = false
  /\ (length (Samples.frame Samples.payload_short) <= 18)%nat
  /\ exists t,
      _process_msg quiet 8 connected
        (mk_msg BINARY (Some (PBytes (Samples.frame Samples.payload_short))))
      = (t, connected, Done (Raise IndexError))
      /\ calls_of t = [].
Proof.
  assert (Hl : (length (Samples.frame Samples.payload_short) <= 18)%nat)
    by (vm_compute; lia).
  assert (Hlf : length_field_ok (hex_upper (strip_delimiters
                  (Samples.frame Samples.payload_short))))
    by (exists 9; split; reflexivity).
  split; [reflexivity|]. split; [exact Hl|].
  destruct (short_frame_raises_IndexError quiet 8 connected
              (Samples.frame Samples.payload_short) eq_refl eq_refl Hlf Hl)
    as (t & Ht & Hc & _).
  exists t. by split.
Defined.

(** ** Stopping *)

Lemma stop_wait_no_wait (timeout : Z) (polls : list poll) (m : SubscriptionManager) :
  timeout <= 0 \/ websocket m = None ->
  stop_wait timeout polls m = (m, Ret tt).
Proof.
  intros H.
  assert (Hc : (timeout >? 0) && bool_decide (websocket m <> None) = false).
  { destruct H as [H| ->].
    - replace (timeout >? 0) with false; [done|].
      symmetry. apply not_true_is_false. rewrite Z.gtb_lt. lia.
    - rewrite bool_decide_eq_false_2 by (by intros []). apply andb_false_r. }
  destruct polls; cbn [stop_wait]; by rewrite Hc.
Qed.

(** X19.  [stop] schedules no timer and creates no task.  When it returns
    normally nothing of the connection is left: no transport, no connection
    task.  When no wait is called for (the time-out is not positive, or
    there is no transport) it returns normally with the state Stopped and no
    retry timer, the subscriber list kept, having cancelled the timer,
    closed the transport and cancelled the task exactly when there was one.
    When the first sleep raises (as it does where [asyncio.sleep] takes no
    [loop] argument), the exception leaves [stop] with the timer cancelled
    and the state Stopped, but the transport still open and the task not
    cancelled. *)
Theorem stop_leaves_nothing_pending (timeout : Z) (polls : list poll)
    (m : SubscriptionManager) :
  let r := stop timeout polls m in
  timers_scheduled r.1.1 = 0%nat /\ tasks_created r.1.1 = 0%nat
  /\ (r.2 = Ret tt -> websocket r.1.2 = None /\ _client_task r.1.2 = None)
  /\ (forall e, r.2 = Raise e -> (EClose ∉ r.1.1) /\ (ETaskCancel ∉ r.1.1))
  /\ (timeout <= 0 \/ websocket m = None ->
      r.2 = Ret tt
      /\ _state r.1.2 = Some STATE_STOPPED /\ _retry_timer r.1.2 = None
      /\ subscriptions r.1.2 = subscriptions m
      /\ ((ETimerCancel ∈ r.1.1) <-> _retry_timer m <> None)
      /\ ((EClose ∈ r.1.1) <-> websocket m <> None)
      /\ ((ETaskCancel ∈ r.1.1) <-> _client_task m <> None)
      /\ fire_retry_timer r.1.2 = ([], r.1.2))
  /\ (forall p polls' e,
        timeout > 0 -> websocket m <> None ->
        polls = p :: polls' -> waiting p = true -> slept p = SleepRaise e ->
        r.2 = Raise e
        /\ _state r.1.2 = Some STATE_STOPPED /\ _retry_timer r.1.2 = None
        /\ websocket r.1.2 = websocket m /\ _client_task r.1.2 = _client_task m).
Proof.
  intros r. subst r. unfold stop.
  destruct (_cancel_retry_timer m) as [t1 m1] eqn:Hc.
  assert (H1 : (t1 = [] \/ t1 = [ETimerCancel])
               /\ ((ETimerCancel ∈ t1) <-> _retry_timer m <> None)
               /\ m1 = set_retry_timer None m).
  { unfold _cancel_retry_timer in Hc.
    destruct m as [subs st ws tm task w sh ir ds dd]. cbn in *.
    destruct tm; injection Hc as <- <-; cbn.
    - split; [by right|]. split; [|done]. split; [done|intros _; left].
    - split; [by left|]. split; [|done]. split; [by intros H%elem_of_nil|done]. }
  destruct H1 as (Ht1 & Hin1 & ->).
  assert (Hnot : forall x, x <> ETimerCancel -> x ∉ t1).
  { intros x Hx Hin. destruct Ht1 as [-> | ->]; [by apply elem_of_nil in Hin|].
    by apply list_elem_of_singleton in Hin. }
  destruct (stop_wait timeout polls (set_state STATE_STOPPED (set_retry_timer None m)))
    as [m2 [[]|e]] eqn:Hw.
  - (* the wait is over *)
    cbn [fst snd].
    assert (Hshape : forall t, timers_scheduled
              ([elog DEBUG "Stopping client." []] ++ t1 ++ [EState STATE_STOPPED] ++ t) =
              timers_scheduled t
              /\ tasks_created
              ([elog DEBUG "Stopping client." []] ++ t1 ++ [EState STATE_STOPPED] ++ t) =
              tasks_created t).
    { intros t. by destruct Ht1 as [-> | ->]. }
    destruct (_close_websocket m2) as [t2 m3] eqn:Hcl.
    destruct (_cancel_client_task m3) as [t3 m4] eqn:Hct.
    cbn [fst snd].
    assert (H2 : (t2 = [] \/ t2 = [EClose]) /\ ((EClose ∈ t2) <-> websocket m2 <> None)
                 /\ m3 = set_websocket None m2).
    { unfold _close_websocket in Hcl.
      destruct m2 as [subs st ws tm task w sh ir ds dd]. cbn in *.
      destruct ws; injection Hcl as <- <-; cbn.
      - split; [by right|]. split; [|done]. split; [done|intros _; left].
      - split; [by left|]. split; [|done]. split; [by intros H%elem_of_nil|done]. }
    destruct H2 as (Ht2 & Hin2 & ->).
    assert (H3 : (t3 = [] \/ t3 = [ETaskCancel])
                 /\ ((ETaskCancel ∈ t3) <-> _client_task m2 <> None)
                 /\ m4 = set_client_task None (set_websocket None m2)).
    { unfold _cancel_client_task in Hct.
      destruct m2 as [subs st ws tm task w sh ir ds dd]. cbn in *.
      destruct task; injection Hct as <- <-; cbn.
      - split; [by right|]. split; [|done]. split; [done|intros _; left].
      - split; [by left|]. split; [|done]. split; [by intros H%elem_of_nil|done]. }
    destruct H3 as (Ht3 & Hin3 & ->).
    destruct (Hshape (t2 ++ t3 ++ [elog DEBUG "Server connection is stopped" []]))
      as [-> ->].
    split; [by destruct Ht2 as [-> | ->], Ht3 as [-> | ->]|].
    split; [by destruct Ht2 as [-> | ->], Ht3 as [-> | ->]|].
    split; [done|]. split; [by intros e [=]|]. split.
    + intros Hno. rewrite stop_wait_no_wait in Hw by exact Hno.
      injection Hw as <-. cbn in Hin2, Hin3 |- *.
      split; [done|]. split; [done|]. split; [done|]. split; [done|].
      assert (Hsplit : forall x : event,
                x <> elog DEBUG "Stopping client." [] -> x <> EState STATE_STOPPED ->
                x <> elog DEBUG "Server connection is stopped" [] ->
                (x ∈ [elog DEBUG "Stopping client." []] ++ t1 ++ [EState STATE_STOPPED]
                       ++ t2 ++ t3 ++ [elog DEBUG "Server connection is stopped" []])
                <-> (x ∈ t1) \/ (x ∈ t2) \/ (x ∈ t3)).
      { intros x Hx1 Hx2 Hx3. rewrite !elem_of_app, !list_elem_of_singleton. tauto. }
      split; [|split; [|split; [|done]]].
      * rewrite Hsplit by done. rewrite <- Hin1. split; [|tauto].
        intros [H|[H|H]]; [done|exfalso..].
        -- destruct Ht2 as [-> | ->]; [by apply elem_of_nil in H|].
           by apply list_elem_of_singleton in H.
        -- destruct Ht3 as [-> | ->]; [by apply elem_of_nil in H|].
           by apply list_elem_of_singleton in H.
      * rewrite Hsplit by done. rewrite <- Hin2. split; [|tauto].
        intros [H|[H|H]]; [exfalso|done|exfalso].
        -- by apply (Hnot EClose).
        -- destruct Ht3 as [-> | ->]; [by apply elem_of_nil in H|].
           by apply list_elem_of_singleton in H.
      * rewrite Hsplit by done. rewrite <- Hin3. split; [|tauto].
        intros [H|[H|H]]; [exfalso|exfalso|done].
        -- by apply (Hnot ETaskCancel).
        -- destruct Ht2 as [-> | ->]; [by apply elem_of_nil in H|].
           by apply list_elem_of_singleton in H.
    + intros p polls' e Hpos Hws -> Hwait Hsl. exfalso.
      cbn [stop_wait] in Hw. cbn [websocket set_state set_retry_timer] in Hw.
      replace (timeout >? 0) with true in Hw by (symmetry; apply Z.gtb_lt; lia).
      rewrite bool_decide_eq_true_2 in Hw by done. cbn [andb] in Hw.
      by rewrite Hwait, Hsl in Hw.
  - (* a sleep raised *)
    cbn [fst snd].
    assert (Hout : forall x : event, x <> ETimerCancel ->
              x <> elog DEBUG "Stopping client." [] -> x <> EState STATE_STOPPED ->
              x ∉ [elog DEBUG "Stopping client." []] ++ t1 ++ [EState STATE_STOPPED]).
    { intros x Hx0 Hx1 Hx2. rewrite !elem_of_app, !list_elem_of_singleton.
      intros [H|[H|H]]; [done| |done]. by apply (Hnot x). }
    split; [by destruct Ht1 as [-> | ->]|].
    split; [by destruct Ht1 as [-> | ->]|].
    split; [by intros [=]|].
    split; [intros e' _; split; by apply Hout|]. split.
    + intros Hno. rewrite stop_wait_no_wait in Hw by exact Hno. by injection Hw.
    + intros p polls' e' Hpos Hws -> Hwait Hsl.
      cbn [stop_wait] in Hw. cbn [websocket set_state set_retry_timer] in Hw.
      replace (timeout >? 0) with true in Hw by (symmetry; apply Z.gtb_lt; lia).
      rewrite bool_decide_eq_true_2 in Hw by done. cbn [andb] in Hw.
      rewrite Hwait, Hsl in Hw. injection Hw as <- <-. by repeat split.
Qed.

(** X20.  Once [stop] has returned normally, a second [stop] returns
    normally too, with no transport to close and no task to cancel; it
    leaves the state Stopped and nothing pending, and [start] after it sets
    the state to Starting and creates a new connection task, with nothing
    to cancel. *)
Theorem stop_twice_then_start (timeout timeout' : Z) (polls polls' : list poll)
    (m m1 : SubscriptionManager) (t : trace) :
  stop timeout polls m = (t, m1, Ret tt) ->
  let r := stop timeout' polls' m1 in
  r.2 = Ret tt
  /\ (EClose ∉ r.1.1) /\ (ETaskCancel ∉ r.1.1)
  /\ _state r.1.2 = Some STATE_STOPPED
  /\ _retry_timer r.1.2 = None /\ websocket r.1.2 = None /\ _client_task r.1.2 = None
  /\ start r.1.2
     = ([elog DEBUG "Start state %s." [AState (Some STATE_STOPPED)];
         EState STATE_STARTING; ECreateTask],
        set_client_task (Some Task) (set_state STATE_STARTING r.1.2)).
Proof.
  intros H r. subst r.
  assert (H1 : websocket m1 = None /\ _client_task m1 = None).
  { unfold stop in H. destruct (_cancel_retry_timer m) as [t1 m0].
    destruct (stop_wait timeout polls (set_state STATE_STOPPED m0)) as [m2 [[]|e]];
      [|discriminate].
    unfold _close_websocket, _cancel_client_task in H.
    destruct m2 as [subs st ws tm task w sh ir ds dd]. cbn in H.
    destruct ws, task; cbn in H; injection H as <- <-; by split. }
  destruct H1 as [Hw Ht].
  unfold stop.
  destruct m1 as [subs st ws tm task w sh ir ds dd]. cbn in Hw, Ht. subst ws task.
  unfold _cancel_retry_timer. destruct tm; cbn [_retry_timer fst snd].
  all: rewrite stop_wait_no_wait by (by right).
  all: cbn; unfold start; cbn; repeat split; try done.
  all: intros Hin; repeat (apply elem_of_cons in Hin as [Hin|Hin]; [discriminate|]);
       by apply elem_of_nil in Hin.
Qed.

Lemma stop_twice_then_start_witness :
  stop 10 [Poll true (SleepOk (fun m => m)); Poll false (SleepOk (fun m => m))] connected
  = ([elog DEBUG "Stopping client." []; EState STATE_STOPPED; EClose;
      elog DEBUG "Server connection is stopped" []],
     set_websocket None (set_state STATE_STOPPED connected), Ret tt)
  /\ stop 10 [] (set_websocket None (set_state STATE_STOPPED connected))
     = ([elog DEBUG "Stopping client." []; EState STATE_STOPPED;
         elog DEBUG "Server connection is stopped" []],
        set_websocket None (set_state STATE_STOPPED connected), Ret tt)
  /\ _client_task
       (start (stop 10 [] (set_websocket None (set_state STATE_STOPPED connected))).1.2).2
     = Some Task.
Proof.
  assert (H : stop 10 [Poll true (SleepOk (fun m => m)); Poll false (SleepOk (fun m => m))]
                connected
              = ([elog DEBUG "Stopping client." []; EState STATE_STOPPED; EClose;
                  elog DEBUG "Server connection is stopped" []],
                 set_websocket None (set_state STATE_STOPPED connected), Ret tt))
    by reflexivity.
  destruct (stop_twice_then_start 10 10 _ [] _ _ _ H) as (_ & _ & _ & _ & _ & _ & _ & Hs).
  split; [exact H|]. split; [reflexivity|]. by rewrite Hs.
Defined.

(** Where [asyncio.sleep] takes no [loop] argument, [stop] on an open
    connection raises [TypeError] at its first sleep and leaves the
    transport open. *)
Example stop_sleep_raises :
  stop 10 [Poll true (SleepRaise TypeError)] connected
  = ([elog DEBUG "Stopping client." []; EState STATE_STOPPED],
     set_state STATE_STOPPED connected, Raise TypeError)
  /\ websocket (stop 10 [Poll true (SleepRaise TypeError)] connected).1.2 = Some WebSocket.
Proof. split; reflexivity. Qed.
